(** * Registration form: validators, strength scoring and the sign-up wizard

    A shallow embedding of [src/components/InteractiveForm.tsx]: the
    single-page form ([InteractiveForm]) and the three-step wizard
    ([MultiStepForm]).  JavaScript strings are sequences of UTF-16 code
    units; regular expressions are embedded as syntax and run by a
    derivative matcher; React state is an explicit record, an event handler
    is a function on that record and a [useEffect] is a function run after
    the handler when one of its dependencies changed. *)

From Stdlib Require Import List Arith NArith ZArith Bool String Ascii Lia.
Import ListNotations.

#[local] Open Scope string_scope.
#[local] Open Scope list_scope.
#[local] Open Scope nat_scope.

Set Implicit Arguments.
#[local] Set Warnings "-unused-intro-pattern".

(** ** JavaScript strings *)

Module JS.

(** A UTF-16 code unit.  Code units are below 65536; nothing here depends
    on the bound, so it is not carried around. *)
Definition char := N.

Definition jsstring := list char.

(** An ASCII literal of the source as a sequence of code units. *)
Definition str (s : string) : jsstring :=
  List.map N_of_ascii (list_ascii_of_string s).

Definition code (a : ascii) : char := N_of_ascii a.

Definition in_range (lo hi c : char) : bool :=
  (N.leb lo c && N.leb c hi)%bool.

#[local] Open Scope N_scope.

(** ECMAScript WhiteSpace and LineTerminator code points: the set that
    both [String.prototype.trim] strips and the class escape [\s]
    matches. *)
Definition isWhiteSpace (c : char) : bool :=
  (in_range 9 13 c            (* TAB, LF, VT, FF, CR *)
   || N.eqb c 32              (* SPACE *)
   || N.eqb c 160             (* NO-BREAK SPACE *)
   || N.eqb c 5760            (* OGHAM SPACE MARK *)
   || in_range 8192 8202 c    (* EN QUAD .. HAIR SPACE *)
   || N.eqb c 8232            (* LINE SEPARATOR *)
   || N.eqb c 8233            (* PARAGRAPH SEPARATOR *)
   || N.eqb c 8239            (* NARROW NO-BREAK SPACE *)
   || N.eqb c 8287            (* MEDIUM MATHEMATICAL SPACE *)
   || N.eqb c 12288           (* IDEOGRAPHIC SPACE *)
   || N.eqb c 65279)%bool.    (* ZERO WIDTH NO-BREAK SPACE *)

#[local] Close Scope N_scope.

Fixpoint trimStart (s : jsstring) : jsstring :=
  match s with
  | [] => []
  | c :: s' => if isWhiteSpace c then trimStart s' else s
  end.

Definition trimEnd (s : jsstring) : jsstring := rev (trimStart (rev s)).

Definition trim (s : jsstring) : jsstring := trimEnd (trimStart s).

(** [===] on strings. *)
Fixpoint jsstring_eqb (a b : jsstring) : bool :=
  match a, b with
  | [], [] => true
  | x :: a', y :: b' => N.eqb x y && jsstring_eqb a' b'
  | _, _ => false
  end.

(** [ToBoolean] of a string: only the empty string is falsy. *)
Definition truthy (s : jsstring) : bool :=
  match s with [] => false | _ :: _ => true end.

(** [ToBoolean] of a [string | undefined] value, as in [if (emailError)]. *)
Definition truthy_opt (e : option string) : bool :=
  match e with
  | None => false
  | Some EmptyString => false
  | Some (String _ _) => true
  end.

(** [x !== undefined]. *)
Definition defined (e : option string) : bool :=
  match e with None => false | Some _ => true end.

End JS.

Import JS.

(** ** Regular expressions *)

Module Regex.

Inductive regex : Type :=
| Void : regex
| Eps : regex
| Cls (p : char -> bool) : regex          (* a character class *)
| Cat (r1 r2 : regex) : regex
| Alt (r1 r2 : regex) : regex
| Star (r : regex) : regex.

(** [r+] *)
Definition Plus (r : regex) : regex := Cat r (Star r).

(** A literal character, as [@] or [\.] *)
Definition Lit (a : ascii) : regex := Cls (N.eqb (code a)).

Definition Any : regex := Cls (fun _ => true).

(** What may stand between the brackets of a character class. *)
Inductive atom : Type :=
| Single (a : ascii)        (* one character *)
| Range (lo hi : ascii)     (* [lo-hi] *)
| Esc_s                     (* [\s] *)
| Esc_d.                    (* [\d] *)

Definition atom_mem (x : atom) (c : char) : bool :=
  match x with
  | Single a => N.eqb c (code a)
  | Range lo hi => in_range (code lo) (code hi) c
  | Esc_s => isWhiteSpace c
  | Esc_d => in_range (code "0") (code "9") c
  end.

Definition mem (l : list atom) (c : char) : bool :=
  existsb (fun x => atom_mem x c) l.

Definition not_mem (l : list atom) (c : char) : bool := negb (mem l c).

(** [[...]] and [[^...]] *)
Definition OneOf (l : list atom) : regex := Cls (mem l).
Definition NoneOf (l : list atom) : regex := Cls (not_mem l).

Fixpoint nullable (r : regex) : bool :=
  match r with
  | Void => false
  | Eps => true
  | Cls _ => false
  | Cat r1 r2 => nullable r1 && nullable r2
  | Alt r1 r2 => nullable r1 || nullable r2
  | Star _ => true
  end.

Fixpoint deriv (c : char) (r : regex) : regex :=
  match r with
  | Void => Void
  | Eps => Void
  | Cls p => if p c then Eps else Void
  | Cat r1 r2 =>
      if nullable r1
      then Alt (Cat (deriv c r1) r2) (deriv c r2)
      else Cat (deriv c r1) r2
  | Alt r1 r2 => Alt (deriv c r1) (deriv c r2)
  | Star r1 => Cat (deriv c r1) (Star r1)
  end.

Fixpoint matches (r : regex) (s : jsstring) : bool :=
  match s with
  | [] => nullable r
  | c :: s' => matches (deriv c r) s'
  end.

(** A pattern literal without flags: [^] and [$] anchor the match at the
    two ends of the input, otherwise the body may match anywhere. *)
Record pattern : Type := Pattern {
  anchor_start : bool;
  body : regex;
  anchor_end : bool
}.

(** [RegExp.prototype.test] *)
Definition test (p : pattern) (s : jsstring) : bool :=
  matches
    (Cat (if anchor_start p then Eps else Star Any)
         (Cat (body p) (if anchor_end p then Eps else Star Any)))
    s.

(** [s.replace(/[cls]/g, "")]: every character of the class is removed. *)
Definition remove_all (cls : char -> bool) (s : jsstring) : jsstring :=
  filter (fun c => negb (cls c)) s.

(** The language of a regular expression, declaratively. *)
Inductive lang : regex -> jsstring -> Prop :=
| L_eps : lang Eps []
| L_cls : forall (p : char -> bool) c, p c = true -> lang (Cls p) [c]
| L_cat : forall r1 r2 s1 s2,
    lang r1 s1 -> lang r2 s2 -> lang (Cat r1 r2) (s1 ++ s2)
| L_alt_l : forall r1 r2 s, lang r1 s -> lang (Alt r1 r2) s
| L_alt_r : forall r1 r2 s, lang r2 s -> lang (Alt r1 r2) s
| L_star_nil : forall r, lang (Star r) []
| L_star_app : forall r s1 s2,
    lang r s1 -> lang (Star r) s2 -> lang (Star r) (s1 ++ s2).

End Regex.

Import Regex.

(** ** Toast notifications

    [toast({...})] does not touch the component state; a handler returns
    the toasts it raised next to the new state. *)

Record Toast : Type := mkToast {
  title : jsstring;
  description : jsstring;
  destructive : bool
}.

(** An error message ([string | undefined]) as toast text. *)
Definition message (e : option string) : jsstring :=
  match e with Some m => str m | None => str "undefined" end.

(** ** The single-page form: [InteractiveForm] *)

Module InteractiveForm.

Module FormData.
Record t : Type := mk {
  name : jsstring;
  email : jsstring;
  phone : jsstring;
  password : jsstring
}.
End FormData.

Module FormErrors.
Record t : Type := mk {
  name : option string;
  email : option string;
  phone : option string;
  password : option string
}.
(** [{}] *)
Definition empty : t := mk None None None None.
(** [Object.values(errors)], for an object literal that lists the four
    keys. *)
Definition values (e : t) : list (option string) :=
  [name e; email e; phone e; password e].
End FormErrors.

Module TouchedFields.
Record t : Type := mk {
  name : bool;
  email : bool;
  phone : bool;
  password : bool
}.
End TouchedFields.

Inductive Field : Type := name | email | phone | password.

Record State : Type := mkState {
  formData : FormData.t;
  errors : FormErrors.t;
  touched : TouchedFields.t;
  showPassword : bool;
  isSubmitted : bool;
  passwordStrength : nat
}.

(** The [useState] initial values. *)
Definition initial : State :=
  {| formData := FormData.mk [] [] [] [];
     errors := FormErrors.empty;
     touched := TouchedFields.mk false false false false;
     showPassword := false;
     isSubmitted := false;
     passwordStrength := 0 |}.

(** [/^[a-zA-Z\s]+$/] *)
Definition nameRegex : pattern :=
  Pattern true (Plus (OneOf [Range "a" "z"; Range "A" "Z"; Esc_s])) true.

(** [/^[^\s@]+@[^\s@]+\.[^\s@]+$/] *)
Definition emailRegex : pattern :=
  Pattern true
    (Cat (Plus (NoneOf [Esc_s; Single "@"]))
    (Cat (Lit "@")
    (Cat (Plus (NoneOf [Esc_s; Single "@"]))
    (Cat (Lit ".")
         (Plus (NoneOf [Esc_s; Single "@"]))))))
    true.

(** [/^[\d\s\-\+\(\)]+$/] *)
Definition phoneRegex : pattern :=
  Pattern true
    (Plus (OneOf [Esc_d; Esc_s; Single "-"; Single "+"; Single "("; Single ")"]))
    true.

(** [/[A-Z]/], [/[a-z]/], [/[0-9]/], [/[!@#$%^&*]/] *)
Definition upperRegex : pattern := Pattern false (OneOf [Range "A" "Z"]) false.
Definition lowerRegex : pattern := Pattern false (OneOf [Range "a" "z"]) false.
Definition digitRegex : pattern := Pattern false (OneOf [Range "0" "9"]) false.
Definition symbolRegex : pattern :=
  Pattern false
    (OneOf [Single "!"; Single "@"; Single "#"; Single "$";
            Single "%"; Single "^"; Single "&"; Single "*"])
    false.

Definition validateName (name : jsstring) : option string :=
  if negb (truthy (trim name)) then Some "Name is required"
  else if List.length (trim name) <? 2 then Some "Name must be at least 2 characters"
  else if negb (test nameRegex name)
       then Some "Name can only contain letters and spaces"
  else None.

Definition validateEmail (email : jsstring) : option string :=
  if negb (truthy (trim email)) then Some "Email is required"
  else if negb (test emailRegex email)
       then Some "Please enter a valid email address"
  else None.

Definition validatePhone (phone : jsstring) : option string :=
  if negb (truthy (trim phone)) then Some "Phone number is required"
  else if negb (test phoneRegex phone)
       then Some "Please enter a valid phone number"
  else if List.length (remove_all (not_mem [Esc_d]) phone) <? 10
       then Some "Phone number must be at least 10 digits"
  else None.

Definition validatePassword (password : jsstring) : option string :=
  if negb (truthy password) then Some "Password is required"
  else if List.length password <? 8
       then Some "Password must be at least 8 characters"
  else if negb (test upperRegex password)
       then Some "Password must contain an uppercase letter"
  else if negb (test lowerRegex password)
       then Some "Password must contain a lowercase letter"
  else if negb (test digitRegex password)
       then Some "Password must contain a number"
  else if negb (test symbolRegex password)
       then Some "Password must contain a special character (!@#$%^&*)"
  else None.

Definition calculatePasswordStrength (password : jsstring) : nat :=
  let strength := 0 in
  let strength := if 8 <=? List.length password then strength + 20 else strength in
  let strength := if 12 <=? List.length password then strength + 20 else strength in
  let strength := if test upperRegex password then strength + 20 else strength in
  let strength := if test lowerRegex password then strength + 20 else strength in
  let strength := if test digitRegex password then strength + 10 else strength in
  let strength := if test symbolRegex password then strength + 10 else strength in
  strength.

(** The effect with dependencies [[formData, touched]]. *)
Definition realTimeValidation (st : State) : State :=
  let fd := formData st in
  let t := touched st in
  let pick (isTouched : bool) (e : option string) : option string :=
    if isTouched then (if truthy_opt e then e else None) else None in
  let newErrors :=
    FormErrors.mk
      (pick (TouchedFields.name t) (validateName (FormData.name fd)))
      (pick (TouchedFields.email t) (validateEmail (FormData.email fd)))
      (pick (TouchedFields.phone t) (validatePhone (FormData.phone fd)))
      (pick (TouchedFields.password t) (validatePassword (FormData.password fd))) in
  mkState fd newErrors t (showPassword st) (isSubmitted st) (passwordStrength st).

(** The effect with dependencies [[formData.password]]. *)
Definition updatePasswordStrength (st : State) : State :=
  mkState (formData st) (errors st) (touched st) (showPassword st)
          (isSubmitted st)
          (calculatePasswordStrength (FormData.password (formData st))).

Definition handleInputChange (field : Field) (value : jsstring) (st : State) : State :=
  let prev := formData st in
  let fd :=
    match field with
    | name => FormData.mk value (FormData.email prev) (FormData.phone prev) (FormData.password prev)
    | email => FormData.mk (FormData.name prev) value (FormData.phone prev) (FormData.password prev)
    | phone => FormData.mk (FormData.name prev) (FormData.email prev) value (FormData.password prev)
    | password => FormData.mk (FormData.name prev) (FormData.email prev) (FormData.phone prev) value
    end in
  mkState fd (errors st) (touched st) (showPassword st) (isSubmitted st)
          (passwordStrength st).

Definition handleBlur (field : Field) (st : State) : State :=
  let prev := touched st in
  let t :=
    match field with
    | name => TouchedFields.mk true (TouchedFields.email prev) (TouchedFields.phone prev) (TouchedFields.password prev)
    | email => TouchedFields.mk (TouchedFields.name prev) true (TouchedFields.phone prev) (TouchedFields.password prev)
    | phone => TouchedFields.mk (TouchedFields.name prev) (TouchedFields.email prev) true (TouchedFields.password prev)
    | password => TouchedFields.mk (TouchedFields.name prev) (TouchedFields.email prev) (TouchedFields.phone prev) true
    end in
  mkState (formData st) (errors st) t (showPassword st) (isSubmitted st)
          (passwordStrength st).

(** [e.preventDefault()] and [console.log] leave the component state
    alone and are not modelled. *)
Definition handleSubmit (st : State) : State * list Toast :=
  let fd := formData st in
  (* Mark all fields as touched *)
  let t := TouchedFields.mk true true true true in
  (* Validate all fields *)
  let newErrors :=
    FormErrors.mk (validateName (FormData.name fd))
                  (validateEmail (FormData.email fd))
                  (validatePhone (FormData.phone fd))
                  (validatePassword (FormData.password fd)) in
  (* Check if there are any errors *)
  let hasErrors := existsb defined (FormErrors.values newErrors) in
  if negb hasErrors then
    (mkState fd newErrors t (showPassword st) true (passwordStrength st),
     [mkToast (str "Success!")
              (str "Your form has been submitted successfully.") false])
  else
    (mkState fd newErrors t (showPassword st) (isSubmitted st) (passwordStrength st),
     [mkToast (str "Validation Error")
              (str "Please fix the errors in the form.") true]).

(** The [Submit Another Form] button of the success screen. *)
Definition submitAnother (st : State) : State :=
  mkState (FormData.mk [] [] [] []) FormErrors.empty
          (TouchedFields.mk false false false false)
          (showPassword st) false (passwordStrength st).

Definition toggleShowPassword (st : State) : State :=
  mkState (formData st) (errors st) (touched st) (negb (showPassword st))
          (isSubmitted st) (passwordStrength st).

Definition getPasswordStrengthColor (st : State) : string :=
  if passwordStrength st <? 40 then "bg-destructive"
  else if passwordStrength st <? 70 then "bg-yellow-500"
  else "bg-success".

Definition getPasswordStrengthLabel (st : State) : string :=
  if passwordStrength st <? 40 then "Weak"
  else if passwordStrength st <? 70 then "Medium"
  else "Strong".

(** What the user can do.  The form is rendered while [isSubmitted] is
    false, the success screen with its single button otherwise. *)
Inductive Event : Type :=
| Change (field : Field) (value : jsstring)
| Blur (field : Field)
| Submit
| ToggleShowPassword
| SubmitAnother.

Definition rendered (ev : Event) (st : State) : bool :=
  match ev with
  | SubmitAnother => isSubmitted st
  | _ => negb (isSubmitted st)
  end.

(** The effects that run after a render.  [formData] and [touched] are
    objects, so the validation effect runs whenever a handler has stored a
    new one; [formData.password] is a string, compared by value. *)
Definition effects (newObject : bool) (before after : State) : State :=
  let after := if newObject then realTimeValidation after else after in
  if jsstring_eqb (FormData.password (formData before))
                  (FormData.password (formData after))
  then after else updatePasswordStrength after.

(** The state after the mount render. *)
Definition mounted : State :=
  updatePasswordStrength (realTimeValidation initial).

Definition dispatch (ev : Event) (st : State) : option (State * list Toast) :=
  if rendered ev st then
    Some match ev with
         | Change field value =>
             (effects true st (handleInputChange field value st), [])
         | Blur field => (effects true st (handleBlur field st), [])
         | Submit =>
             let (st', toasts) := handleSubmit st in
             (effects true st st', toasts)
         | ToggleShowPassword => (effects false st (toggleShowPassword st), [])
         | SubmitAnother => (effects true st (submitAnother st), [])
         end
  else None.

(** A session: the events one after the other from a given state. *)
Fixpoint run (evs : list Event) (st : State) : option State :=
  match evs with
  | [] => Some st
  | ev :: evs' =>
      match dispatch ev st with
      | Some (st', _) => run evs' st'
      | None => None
      end
  end.

End InteractiveForm.

(** ** The three-step wizard: [MultiStepForm] *)

Module MultiStepForm.

Module FormData.
Record t : Type := mk {
  email : jsstring;
  otp : jsstring;
  password : jsstring
}.
End FormData.

Module FormErrors.
Record t : Type := mk {
  email : option string;
  otp : option string;
  password : option string
}.
(** [{}] *)
Definition empty : t := mk None None None.
End FormErrors.

Module Requirements.
Record t : Type := mk {
  minLength : bool;
  hasNumber : bool;
  hasSymbol : bool
}.
End Requirements.

Record State : Type := mkState {
  step : Z;
  formData : FormData.t;
  errors : FormErrors.t;
  showPassword : bool;
  isSubmitted : bool;
  passwordStrength : nat;
  passwordRequirements : Requirements.t
}.

(** The [useState] initial values. *)
Definition initial : State :=
  {| step := 1;
     formData := FormData.mk [] [] [];
     errors := FormErrors.empty;
     showPassword := false;
     isSubmitted := false;
     passwordStrength := 0;
     passwordRequirements := Requirements.mk false false false |}.

Definition setStep (n : Z) (st : State) : State :=
  mkState n (formData st) (errors st) (showPassword st) (isSubmitted st)
          (passwordStrength st) (passwordRequirements st).

Definition setFormData (fd : FormData.t) (st : State) : State :=
  mkState (step st) fd (errors st) (showPassword st) (isSubmitted st)
          (passwordStrength st) (passwordRequirements st).

Definition setErrors (e : FormErrors.t) (st : State) : State :=
  mkState (step st) (formData st) e (showPassword st) (isSubmitted st)
          (passwordStrength st) (passwordRequirements st).

Definition setShowPassword (b : bool) (st : State) : State :=
  mkState (step st) (formData st) (errors st) b (isSubmitted st)
          (passwordStrength st) (passwordRequirements st).

Definition setIsSubmitted (b : bool) (st : State) : State :=
  mkState (step st) (formData st) (errors st) (showPassword st) b
          (passwordStrength st) (passwordRequirements st).

Definition setPasswordStrength (n : nat) (st : State) : State :=
  mkState (step st) (formData st) (errors st) (showPassword st)
          (isSubmitted st) n (passwordRequirements st).

Definition setPasswordRequirements (r : Requirements.t) (st : State) : State :=
  mkState (step st) (formData st) (errors st) (showPassword st)
          (isSubmitted st) (passwordStrength st) r.

(** [/^[^\s@]+@[^\s@]+\.[^\s@]+$/] *)
Definition emailRegex : pattern :=
  Pattern true
    (Cat (Plus (NoneOf [Esc_s; Single "@"]))
    (Cat (Lit "@")
    (Cat (Plus (NoneOf [Esc_s; Single "@"]))
    (Cat (Lit ".")
         (Plus (NoneOf [Esc_s; Single "@"]))))))
    true.

(** [/[0-9]/] and [/[!@#$%^&*]/] *)
Definition digitRegex : pattern := Pattern false (OneOf [Range "0" "9"]) false.
Definition symbolRegex : pattern :=
  Pattern false
    (OneOf [Single "!"; Single "@"; Single "#"; Single "$";
            Single "%"; Single "^"; Single "&"; Single "*"])
    false.

Definition validateEmail (email : jsstring) : option string :=
  if negb (truthy (trim email)) then Some "Email is required"
  else if negb (test emailRegex email)
       then Some "Please enter a valid email address"
  else None.

Definition validateOTP (otp : jsstring) : option string :=
  if negb (truthy otp) then Some "Verification code is required"
  else if negb (List.length otp =? 5) then Some "Code must be 5 digits"
  else None.

Definition validatePassword (password : jsstring) : option string :=
  if negb (truthy password) then Some "Password is required"
  else if List.length password <? 8
       then Some "Password must be at least 8 characters"
  else if negb (test digitRegex password)
       then Some "Password must contain a number"
  else if negb (test symbolRegex password)
       then Some "Password must contain a symbol"
  else None.

(** The checklist flags and the score that [calculatePasswordStrength]
    computes before it stores them. *)
Definition requirementsOf (password : jsstring) : Requirements.t :=
  Requirements.mk (8 <=? List.length password)
                  (test digitRegex password)
                  (test symbolRegex password).

Definition strengthOf (requirements : Requirements.t) : nat :=
  let strength := 0 in
  let strength :=
    if Requirements.minLength requirements then strength + 40 else strength in
  let strength :=
    if Requirements.hasNumber requirements then strength + 30 else strength in
  let strength :=
    if Requirements.hasSymbol requirements then strength + 30 else strength in
  strength.

Definition calculatePasswordStrength (password : jsstring) (st : State) : State :=
  let requirements := requirementsOf password in
  let st := setPasswordRequirements requirements st in
  setPasswordStrength (strengthOf requirements) st.

(** The effect with dependencies [[formData.password]]. *)
Definition passwordEffect (st : State) : State :=
  if truthy (FormData.password (formData st))
  then calculatePasswordStrength (FormData.password (formData st)) st
  else st.

Definition changeEmail (value : jsstring) (st : State) : State :=
  let prev := formData st in
  setFormData (FormData.mk value (FormData.otp prev) (FormData.password prev)) st.

Definition changeOTP (value : jsstring) (st : State) : State :=
  let prev := formData st in
  setFormData (FormData.mk (FormData.email prev) value (FormData.password prev)) st.

Definition changePassword (value : jsstring) (st : State) : State :=
  let prev := formData st in
  setFormData (FormData.mk (FormData.email prev) (FormData.otp prev) value) st.

Definition handleEmailSubmit (st : State) : State * list Toast :=
  let emailError := validateEmail (FormData.email (formData st)) in
  if truthy_opt emailError then
    (setErrors (FormErrors.mk emailError None None) st,
     [mkToast (str "Validation Error") (message emailError) true])
  else
    (setStep 2 (setErrors FormErrors.empty st),
     [mkToast (str "Code Sent!")
              (str "We've sent a verification code to "
               ++ FormData.email (formData st))
              false]).

Definition handleOTPSubmit (st : State) : State * list Toast :=
  let otpError := validateOTP (FormData.otp (formData st)) in
  if truthy_opt otpError then
    (setErrors (FormErrors.mk None otpError None) st,
     [mkToast (str "Validation Error") (message otpError) true])
  else
    (setStep 3 (setErrors FormErrors.empty st), []).

Definition handlePasswordSubmit (st : State) : State * list Toast :=
  let passwordError := validatePassword (FormData.password (formData st)) in
  if truthy_opt passwordError then
    (setErrors (FormErrors.mk None None passwordError) st,
     [mkToast (str "Validation Error") (message passwordError) true])
  else
    (setIsSubmitted true (setErrors FormErrors.empty st),
     [mkToast (str "Success!")
              (str "Your account has been created successfully.") false]).

Definition handleBack (st : State) : State :=
  setStep (step st - 1)%Z (setErrors FormErrors.empty st).

Definition handleSocialLogin (provider : string) (st : State) : State * list Toast :=
  (st, [mkToast (str provider ++ str " Login")
                (str provider ++ str " login would be integrated here.")
                false]).

(** The [Continue] button of the success screen. *)
Definition continueAfterSuccess (st : State) : State :=
  setErrors FormErrors.empty
    (setFormData (FormData.mk [] [] [])
       (setStep 1 (setIsSubmitted false st))).

(** The colour of the strength bar; the bar is drawn when
    [passwordStrength > 0]. *)
Definition strengthBarColor (passwordStrength : nat) : string :=
  if passwordStrength <? 40 then "bg-destructive"
  else if passwordStrength <? 80 then "bg-yellow-500"
  else "bg-success".

(** The checklist and the bar under the password input: rendered at step
    3 under [formData.password && (...)]. *)
Definition strengthPanel (st : State) : option (Requirements.t * option (nat * string)) :=
  if truthy (FormData.password (formData st)) then
    Some (passwordRequirements st,
          if 0 <? passwordStrength st
          then Some (passwordStrength st, strengthBarColor (passwordStrength st))
          else None)
  else None.

Inductive Event : Type :=
| ChangeEmail (value : jsstring)
| ChangeOTP (value : jsstring)
| ChangePassword (value : jsstring)
| EmailSubmit
| OTPSubmit
| PasswordSubmit
| Back
| DifferentEmail
| ToggleShowPassword
| SocialLogin (provider : string)
| Continue.

(** Which control is on screen: the success screen replaces the card
    while [isSubmitted]; the back arrow needs [step > 1]; every other
    control belongs to the block of one step. *)
Definition rendered (ev : Event) (st : State) : bool :=
  match ev with
  | Continue => isSubmitted st
  | Back => negb (isSubmitted st) && (1 <? step st)%Z
  | ChangeEmail _ | EmailSubmit | SocialLogin _ =>
      negb (isSubmitted st) && (step st =? 1)%Z
  | ChangeOTP _ | OTPSubmit | DifferentEmail =>
      negb (isSubmitted st) && (step st =? 2)%Z
  | ChangePassword _ | PasswordSubmit | ToggleShowPassword =>
      negb (isSubmitted st) && (step st =? 3)%Z
  end.

Definition handle (ev : Event) (st : State) : State * list Toast :=
  match ev with
  | ChangeEmail v => (changeEmail v st, [])
  | ChangeOTP v => (changeOTP v st, [])
  | ChangePassword v => (changePassword v st, [])
  | EmailSubmit => handleEmailSubmit st
  | OTPSubmit => handleOTPSubmit st
  | PasswordSubmit => handlePasswordSubmit st
  | Back => (handleBack st, [])
  | DifferentEmail => (setStep 1 st, [])
  | ToggleShowPassword => (setShowPassword (negb (showPassword st)) st, [])
  | SocialLogin provider => handleSocialLogin provider st
  | Continue => (continueAfterSuccess st, [])
  end.

(** The effect runs after a render in which [formData.password] (a
    string, compared by value) differs from the previous render. *)
Definition effects (before after : State) : State :=
  if jsstring_eqb (FormData.password (formData before))
                  (FormData.password (formData after))
  then after else passwordEffect after.

(** The state after the mount render, where every effect runs once. *)
Definition mounted : State := passwordEffect initial.

Definition dispatch (ev : Event) (st : State) : option (State * list Toast) :=
  if rendered ev st then
    let (st', toasts) := handle ev st in
    Some (effects st st', toasts)
  else None.

(** A session: the events one after the other from a given state. *)
Fixpoint run (evs : list Event) (st : State) : option State :=
  match evs with
  | [] => Some st
  | ev :: evs' =>
      match dispatch ev st with
      | Some (st', _) => run evs' st'
      | None => None
      end
  end.

End MultiStepForm.

(** ** The vocabulary of the specification

    The specification names error kinds, password policies and strength
    bands; the code returns message strings and colour classes.  This module
    relates the two and restates, in the specification's words, what the
    validators and scorers are to compute. *)

Module Spec.

Inductive ErrorKind : Type :=
| Required | TooShort | TooLong | InvalidFormat | InvalidCharacters
| WrongLength | MissingUppercase | MissingLowercase | MissingDigit
| MissingSymbol.

(** The kind behind each message of the source. *)
Definition messages : list (string * ErrorKind) :=
  [ ("Name is required", Required);
    ("Name must be at least 2 characters", TooShort);
    ("Name can only contain letters and spaces", InvalidCharacters);
    ("Email is required", Required);
    ("Please enter a valid email address", InvalidFormat);
    ("Phone number is required", Required);
    ("Please enter a valid phone number", InvalidCharacters);
    ("Phone number must be at least 10 digits", TooShort);
    ("Password is required", Required);
    ("Password must be at least 8 characters", TooShort);
    ("Password must contain an uppercase letter", MissingUppercase);
    ("Password must contain a lowercase letter", MissingLowercase);
    ("Password must contain a number", MissingDigit);
    ("Password must contain a special character (!@#$%^&*)", MissingSymbol);
    ("Password must contain a symbol", MissingSymbol);
    ("Verification code is required", Required);
    ("Code must be 5 digits", WrongLength) ].

Fixpoint lookup (m : string) (table : list (string * ErrorKind)) : option ErrorKind :=
  match table with
  | [] => None
  | (m', k) :: table' => if String.eqb m m' then Some k else lookup m table'
  end.

Inductive Verdict : Type :=
| Valid
| Fails (k : ErrorKind)
| Unclassified (m : string).

(** A validator's result in the specification's terms. *)
Definition verdict (result : option string) : Verdict :=
  match result with
  | None => Valid
  | Some m =>
      match lookup m messages with
      | Some k => Fails k
      | None => Unclassified m
      end
  end.

Definition isUpper (c : char) : Prop := (code "A" <= c <= code "Z")%N.
Definition isLower (c : char) : Prop := (code "a" <= c <= code "z")%N.
Definition isDigit (c : char) : Prop := (code "0" <= c <= code "9")%N.
Definition isSymbol (c : char) : Prop := In c (str "!@#$%^&*").

Definition has (P : char -> Prop) (v : jsstring) : Prop :=
  exists c, In c v /\ P c.

(** The checks of the strict password policy, in the order the
    specification lists them. *)
Definition strictOrder : list ErrorKind :=
  [Required; TooShort; MissingUppercase; MissingLowercase; MissingDigit;
   MissingSymbol].

Definition strictFails (k : ErrorKind) (v : jsstring) : Prop :=
  match k with
  | Required => v = []
  | TooShort => List.length v < 8
  | MissingUppercase => ~ has isUpper v
  | MissingLowercase => ~ has isLower v
  | MissingDigit => ~ has isDigit v
  | MissingSymbol => ~ has isSymbol v
  | _ => False
  end.

(** The same checks, decided. *)
Definition strictFailsb (k : ErrorKind) (v : jsstring) : bool :=
  match k with
  | Required => match v with [] => true | _ => false end
  | TooShort => List.length v <? 8
  | MissingUppercase => negb (existsb (mem [Range "A" "Z"]) v)
  | MissingLowercase => negb (existsb (mem [Range "a" "z"]) v)
  | MissingDigit => negb (existsb (mem [Range "0" "9"]) v)
  | MissingSymbol =>
      negb (existsb (fun c => existsb (N.eqb c) (str "!@#$%^&*")) v)
  | _ => false
  end.

(** [k] is the earliest failing check of [order] on [v]. *)
Definition earliestFailing (order : list ErrorKind)
           (fails : ErrorKind -> jsstring -> Prop)
           (k : ErrorKind) (v : jsstring) : Prop :=
  exists before after,
    order = before ++ k :: after /\ fails k v /\
    forall k', In k' before -> ~ fails k' v.

(** A sub-check worth [w] points. *)
Definition points (w : nat) (P : Prop) (n : nat) : Prop :=
  (P /\ n = w) \/ (~ P /\ n = 0).

(** The strict score: the sum of six independent sub-checks. *)
Definition strictScore (v : jsstring) (score : nat) : Prop :=
  exists l8 l12 up lo dg sy,
    points 20 (8 <= List.length v) l8 /\
    points 20 (12 <= List.length v) l12 /\
    points 20 (has isUpper v) up /\
    points 20 (has isLower v) lo /\
    points 10 (has isDigit v) dg /\
    points 10 (has isSymbol v) sy /\
    score = l8 + l12 + up + lo + dg + sy.

(** The relaxed score: the sum of three independent sub-checks. *)
Definition relaxedScore (v : jsstring) (score : nat) : Prop :=
  exists l8 dg sy,
    points 40 (8 <= List.length v) l8 /\
    points 30 (has isDigit v) dg /\
    points 30 (has isSymbol v) sy /\
    score = l8 + dg + sy.

Inductive Band : Type := Weak | Medium | Strong.

(** The band a score falls in, given the Medium/Strong boundary of the
    policy (70 strict, 80 relaxed). *)
Definition band (boundary score : nat) : Band :=
  if score <? 40 then Weak
  else if score <? boundary then Medium
  else Strong.

(** The single-page form pairs the three colour classes of the strength
    bar with the labels Weak, Medium and Strong; the wizard draws the
    colour only. *)
Definition bandOfColor (color : string) : option Band :=
  if String.eqb color "bg-destructive" then Some Weak
  else if String.eqb color "bg-yellow-500" then Some Medium
  else if String.eqb color "bg-success" then Some Strong
  else None.

Definition bandOfLabel (label : string) : option Band :=
  if String.eqb label "Weak" then Some Weak
  else if String.eqb label "Medium" then Some Medium
  else if String.eqb label "Strong" then Some Strong
  else None.

Definition noWhiteSpace (v : jsstring) : Prop :=
  forall c, In c v -> isWhiteSpace c = false.

(** The basic [local@domain.tld] shape: three non-empty parts around an
    [@] and a later [.], no white space, exactly one [@] (so none in the
    domain tail). *)
Definition emailShape (v : jsstring) : Prop :=
  exists local domain tld,
    v = local ++ code "@" :: domain ++ code "." :: tld /\
    local <> [] /\ domain <> [] /\ tld <> [] /\
    noWhiteSpace v /\
    count_occ N.eq_dec v (code "@") = 1 /\
    ~ In (code "@") (domain ++ code "." :: tld).

(** The strength panel as a function of the password alone. *)
Definition relaxedPanel (password : jsstring)
  : option (MultiStepForm.Requirements.t * option (nat * string)) :=
  let requirements := MultiStepForm.requirementsOf password in
  let strength := MultiStepForm.strengthOf requirements in
  if truthy password then
    Some (requirements,
          if 0 <? strength
          then Some (strength, MultiStepForm.strengthBarColor strength)
          else None)
  else None.

End Spec.

(** ** Invariants of the two components *)

(** The single-page form stores the score of the password it holds. *)
Definition strength_in_step (st : InteractiveForm.State) : Prop :=
  InteractiveForm.passwordStrength st =
  InteractiveForm.calculatePasswordStrength
    (InteractiveForm.FormData.password (InteractiveForm.formData st)).

(** What the four validators say about the four fields. *)
Definition validationOf (fd : InteractiveForm.FormData.t)
  : InteractiveForm.FormErrors.t :=
  InteractiveForm.FormErrors.mk
    (InteractiveForm.validateName (InteractiveForm.FormData.name fd))
    (InteractiveForm.validateEmail (InteractiveForm.FormData.email fd))
    (InteractiveForm.validatePhone (InteractiveForm.FormData.phone fd))
    (InteractiveForm.validatePassword (InteractiveForm.FormData.password fd)).

(** The wizard stores the checklist flags and the score of a given
    password. *)
Definition stores_strength_of (v : jsstring) (st : MultiStepForm.State) : Prop :=
  MultiStepForm.passwordStrength st
  = MultiStepForm.strengthOf (MultiStepForm.requirementsOf v)
  /\ MultiStepForm.passwordRequirements st = MultiStepForm.requirementsOf v.

(** A non-empty password is stored with its own flags and score. *)
Definition nonempty_in_step (st : MultiStepForm.State) : Prop :=
  MultiStepForm.FormData.password (MultiStepForm.formData st) <> [] ->
  stores_strength_of (MultiStepForm.FormData.password (MultiStepForm.formData st)) st.

(** A wizard session that reaches the password step and types
    ["abcdefgh"]. *)
Definition typing_abcdefgh : list MultiStepForm.Event :=
  [MultiStepForm.ChangeEmail (str "a@b.com");
   MultiStepForm.EmailSubmit;
   MultiStepForm.ChangeOTP (str "12345");
   MultiStepForm.OTPSubmit;
   MultiStepForm.ChangePassword (str "abcdefgh")].

(** ** Further vocabulary: names, phone numbers and the relaxed policy *)

Module Spec2.

(** What a name may contain: letters and white space. *)
Definition nameChar (c : char) : Prop :=
  Spec.isUpper c \/ Spec.isLower c \/ isWhiteSpace c = true.

(** What a phone number may contain: digits, white space and [-+()]. *)
Definition phoneChar (c : char) : Prop :=
  Spec.isDigit c \/ isWhiteSpace c = true \/ In c (str "-+()").

Definition isDigitb (c : char) : bool :=
  (N.leb (code "0") c && N.leb c (code "9"))%bool.

(** How many digits a string holds. *)
Fixpoint digitCount (v : jsstring) : nat :=
  match v with
  | [] => 0
  | c :: v' => (if isDigitb c then 1 else 0) + digitCount v'
  end.

(** The checks of the relaxed password policy, in the order of the
    wizard's [validatePassword]. *)
Definition relaxedOrder : list Spec.ErrorKind :=
  [Spec.Required; Spec.TooShort; Spec.MissingDigit; Spec.MissingSymbol].

Definition relaxedFails (k : Spec.ErrorKind) (v : jsstring) : Prop :=
  match k with
  | Spec.MissingUppercase | Spec.MissingLowercase => False
  | _ => Spec.strictFails k v
  end.

Definition relaxedFailsb (k : Spec.ErrorKind) (v : jsstring) : bool :=
  match k with
  | Spec.MissingUppercase | Spec.MissingLowercase => false
  | _ => Spec.strictFailsb k v
  end.

(** The relaxed score of a password, as the wizard computes it. *)
Definition relaxedStrength (v : jsstring) : nat :=
  MultiStepForm.strengthOf (MultiStepForm.requirementsOf v).

End Spec2.

(** ** What the two components keep true *)

(** The errors the single-page form is to show: the validator's answer for
    a touched field, nothing for an untouched one. *)
Definition gatedValidation (fd : InteractiveForm.FormData.t)
           (t : InteractiveForm.TouchedFields.t) : InteractiveForm.FormErrors.t :=
  InteractiveForm.FormErrors.mk
    (if InteractiveForm.TouchedFields.name t
     then InteractiveForm.validateName (InteractiveForm.FormData.name fd) else None)
    (if InteractiveForm.TouchedFields.email t
     then InteractiveForm.validateEmail (InteractiveForm.FormData.email fd) else None)
    (if InteractiveForm.TouchedFields.phone t
     then InteractiveForm.validatePhone (InteractiveForm.FormData.phone fd) else None)
    (if InteractiveForm.TouchedFields.password t
     then InteractiveForm.validatePassword (InteractiveForm.FormData.password fd)
     else None).

Definition errors_in_step (st : InteractiveForm.State) : Prop :=
  InteractiveForm.errors st
  = gatedValidation (InteractiveForm.formData st) (InteractiveForm.touched st).

(** The success screen is up only over valid data. *)
Definition submitted_valid (st : InteractiveForm.State) : Prop :=
  InteractiveForm.isSubmitted st = true ->
  validationOf (InteractiveForm.formData st) = InteractiveForm.FormErrors.empty.

(** The four fields typed one after the other, then the submit button. *)
Definition fill_and_submit (n e p w : jsstring) : list InteractiveForm.Event :=
  [InteractiveForm.Change InteractiveForm.name n;
   InteractiveForm.Change InteractiveForm.email e;
   InteractiveForm.Change InteractiveForm.phone p;
   InteractiveForm.Change InteractiveForm.password w;
   InteractiveForm.Submit].

(** How far the wizard has come, and what that says about its fields. *)
Definition wizard_progress (st : MultiStepForm.State) : Prop :=
  (MultiStepForm.step st = 1 \/ MultiStepForm.step st = 2
   \/ MultiStepForm.step st = 3)%Z
  /\ ((2 <= MultiStepForm.step st)%Z ->
      MultiStepForm.validateEmail
        (MultiStepForm.FormData.email (MultiStepForm.formData st)) = None)
  /\ (MultiStepForm.step st = 3%Z ->
      MultiStepForm.validateOTP
        (MultiStepForm.FormData.otp (MultiStepForm.formData st)) = None)
  /\ (MultiStepForm.isSubmitted st = true ->
      MultiStepForm.step st = 3%Z
      /\ MultiStepForm.validatePassword
           (MultiStepForm.FormData.password (MultiStepForm.formData st)) = None).

(** At most one field of the wizard's error map is populated. *)
Definition at_most_one_error (e : MultiStepForm.FormErrors.t) : Prop :=
  (MultiStepForm.FormErrors.email e = None /\ MultiStepForm.FormErrors.otp e = None)
  \/ (MultiStepForm.FormErrors.email e = None
      /\ MultiStepForm.FormErrors.password e = None)
  \/ (MultiStepForm.FormErrors.otp e = None
      /\ MultiStepForm.FormErrors.password e = None).

(** The whole sign-up: email, code, password, each followed by its
    button. *)
Definition sign_up (e o p : jsstring) : list MultiStepForm.Event :=
  [MultiStepForm.ChangeEmail e; MultiStepForm.EmailSubmit;
   MultiStepForm.ChangeOTP o; MultiStepForm.OTPSubmit;
   MultiStepForm.ChangePassword p; MultiStepForm.PasswordSubmit].

(** The touched flag of one field. *)
Definition touchedOf (f : InteractiveForm.Field) (st : InteractiveForm.State) : bool :=
  match f with
  | InteractiveForm.name =>
      InteractiveForm.TouchedFields.name (InteractiveForm.touched st)
  | InteractiveForm.email =>
      InteractiveForm.TouchedFields.email (InteractiveForm.touched st)
  | InteractiveForm.phone =>
      InteractiveForm.TouchedFields.phone (InteractiveForm.touched st)
  | InteractiveForm.password =>
      InteractiveForm.TouchedFields.password (InteractiveForm.touched st)
  end.

(** The three ways of typing into the wizard. *)
Definition isEdit (ev : MultiStepForm.Event) : bool :=
  match ev with
  | MultiStepForm.ChangeEmail _ | MultiStepForm.ChangeOTP _
  | MultiStepForm.ChangePassword _ => true
  | _ => false
  end.

(** The email shape with white space ruled out inside the value only:
    what is left after trimming has the shape. *)
Definition emailShapeInside (v : jsstring) : Prop := Spec.emailShape (trim v).

Create HintDb relang.
#[local] Hint Constructors lang : relang.

(** ** The matcher computes the language *)

Lemma lang_cat_inv (r1 r2 : regex) (s : jsstring) :
  lang (Cat r1 r2) s ->
  exists s1 s2, s = s1 ++ s2 /\ lang r1 s1 /\ lang r2 s2.
Proof. intros H. inversion H; subst. eauto. Qed.

Lemma lang_alt_inv (r1 r2 : regex) (s : jsstring) :
  lang (Alt r1 r2) s -> lang r1 s \/ lang r2 s.
Proof. intros H. inversion H; subst; auto. Qed.

Lemma lang_cls_inv (p : char -> bool) (s : jsstring) :
  lang (Cls p) s -> exists c, s = [c] /\ p c = true.
Proof. intros H. inversion H; subst. eauto. Qed.

Lemma lang_eps_inv (s : jsstring) : lang Eps s -> s = [].
Proof. intros H. now inversion H. Qed.

Lemma lang_cat_cons (r1 r2 : regex) (c : char) (s1 s2 : jsstring) :
  lang r1 (c :: s1) -> lang r2 s2 -> lang (Cat r1 r2) (c :: s1 ++ s2).
Proof. intros H1 H2. apply (L_cat H1 H2). Qed.

Lemma lang_cat_nil_l (r1 r2 : regex) (s : jsstring) :
  lang r1 [] -> lang r2 s -> lang (Cat r1 r2) s.
Proof. intros H1 H2. apply (L_cat H1 H2). Qed.

Lemma nullable_lang (r : regex) : nullable r = true <-> lang r [].
Proof.
  induction r; simpl.
  - split; [discriminate | intros H; inversion H].
  - split; auto with relang.
  - split; [discriminate | intros H; inversion H].
  - rewrite andb_true_iff, IHr1, IHr2. split.
    + intros [H1 H2]. now apply lang_cat_nil_l.
    + intros H. apply lang_cat_inv in H. destruct H as (s1 & s2 & E & H1 & H2).
      symmetry in E. apply app_eq_nil in E. destruct E; subst. auto.
  - rewrite orb_true_iff, IHr1, IHr2. split.
    + intros [H | H]; auto with relang.
    + apply lang_alt_inv.
  - split; auto with relang.
Qed.

Lemma lang_star_cons (r : regex) (c : char) (s : jsstring) :
  lang (Star r) (c :: s) ->
  exists s1 s2, s = s1 ++ s2 /\ lang r (c :: s1) /\ lang (Star r) s2.
Proof.
  intros H. remember (Star r) as q eqn:Eq. remember (c :: s) as w eqn:Ew.
  revert Eq Ew. induction H; intros Eq Ew; try discriminate.
  injection Eq as ->. destruct s1 as [|a s1]; simpl in Ew.
  - apply IHlang2; auto.
  - injection Ew as -> <-. eauto.
Qed.

Lemma deriv_lang (r : regex) :
  forall c s, lang (deriv c r) s <-> lang r (c :: s).
Proof.
  induction r; intros c s; simpl.
  - split; intros H; inversion H.
  - split; intros H; inversion H.
  - destruct (p c) eqn:Ep; split; intros H.
    + apply lang_eps_inv in H. subst. now constructor.
    + apply lang_cls_inv in H. destruct H as (a & E & _).
      injection E as -> ->. constructor.
    + inversion H.
    + apply lang_cls_inv in H. destruct H as (a & E & Ha).
      injection E as -> ->. congruence.
  - assert (Hl : lang (Cat (deriv c r1) r2) s <->
                 exists s1 s2, s = s1 ++ s2 /\ lang r1 (c :: s1) /\ lang r2 s2).
    { split.
      - intros H. apply lang_cat_inv in H. destruct H as (s1 & s2 & E & H1 & H2).
        exists s1, s2. rewrite <- IHr1. auto.
      - intros (s1 & s2 & -> & H1 & H2). constructor; [now apply IHr1 | assumption]. }
    split.
    + intros H.
      assert (Hc : lang (Cat (deriv c r1) r2) s \/
                   (nullable r1 = true /\ lang (deriv c r2) s)).
      { destruct (nullable r1); auto. apply lang_alt_inv in H. tauto. }
      destruct Hc as [Hc | [Hn Hc]].
      * apply Hl in Hc. destruct Hc as (s1 & s2 & -> & H1 & H2).
        now apply lang_cat_cons.
      * apply lang_cat_nil_l; [now apply nullable_lang | now apply IHr2].
    + intros H. apply lang_cat_inv in H. destruct H as (s1 & s2 & E & H1 & H2).
      destruct s1 as [|a s1]; simpl in E.
      * subst s2. apply nullable_lang in H1. rewrite H1.
        apply L_alt_r. now apply IHr2.
      * injection E as <- ->.
        assert (Hc : lang (Cat (deriv c r1) r2) (s1 ++ s2)) by (apply Hl; eauto).
        destruct (nullable r1); [now apply L_alt_l | assumption].
  - split; intros H; apply lang_alt_inv in H; destruct H as [H | H].
    + apply L_alt_l. now apply IHr1.
    + apply L_alt_r. now apply IHr2.
    + apply L_alt_l. now apply IHr1.
    + apply L_alt_r. now apply IHr2.
  - split; intros H.
    + apply lang_cat_inv in H. destruct H as (s1 & s2 & -> & H1 & H2).
      apply IHr in H1. apply (L_star_app H1 H2).
    + apply lang_star_cons in H. destruct H as (s1 & s2 & -> & H1 & H2).
      constructor; [now apply IHr | assumption].
Qed.

Lemma matches_lang (s : jsstring) :
  forall r, matches r s = true <-> lang r s.
Proof.
  induction s as [|c s IH]; intros r; simpl.
  - apply nullable_lang.
  - rewrite IH. apply deriv_lang.
Qed.

(** ** What [test] decides for the shapes of pattern the source uses *)

Lemma lang_star_cls (p : char -> bool) (s : jsstring) :
  lang (Star (Cls p)) s <-> forallb p s = true.
Proof.
  split.
  - intros H. remember (Star (Cls p)) as q eqn:Eq. revert Eq.
    induction H; intros Eq; try discriminate; [reflexivity|].
    injection Eq as ->. apply lang_cls_inv in H. destruct H as (c & -> & Hc).
    simpl. rewrite Hc. now apply IHlang2.
  - induction s as [|c s IH]; simpl; intros H; [constructor|].
    apply andb_true_iff in H. destruct H as [Hc Hs].
    apply (@L_star_app (Cls p) [c] s); [now constructor | auto].
Qed.

Lemma lang_star_any (s : jsstring) : lang (Star Any) s.
Proof. apply lang_star_cls. induction s; simpl; auto. Qed.

Lemma lang_plus_cls (p : char -> bool) (s : jsstring) :
  lang (Plus (Cls p)) s <-> s <> [] /\ forallb p s = true.
Proof.
  unfold Plus. split.
  - intros H. apply lang_cat_inv in H. destruct H as (s1 & s2 & -> & H1 & H2).
    apply lang_cls_inv in H1. destruct H1 as (c & -> & Hc).
    apply lang_star_cls in H2. simpl. rewrite Hc, H2. split; [discriminate | reflexivity].
  - intros [Hne H]. destruct s as [|c s]; [congruence|]. simpl in H.
    apply andb_true_iff in H. destruct H as [Hc Hs].
    apply (@L_cat (Cls p) (Star (Cls p)) [c] s); [now constructor | now apply lang_star_cls].
Qed.

Lemma bool_eq_iff (a b : bool) : (a = true <-> b = true) -> a = b.
Proof. destruct a, b; intuition congruence. Qed.

Lemma test_anchored (r : regex) (s : jsstring) :
  test (Pattern true r true) s = matches r s.
Proof.
  apply bool_eq_iff. unfold test; simpl anchor_start; simpl anchor_end; simpl body.
  rewrite !matches_lang. split.
  - intros H. apply lang_cat_inv in H. destruct H as (s1 & s2 & -> & H1 & H2).
    apply lang_eps_inv in H1. subst s1.
    apply lang_cat_inv in H2. destruct H2 as (s3 & s4 & -> & H3 & H4).
    apply lang_eps_inv in H4. subst s4. simpl. now rewrite app_nil_r.
  - intros H. apply lang_cat_nil_l; [constructor|].
    rewrite <- (app_nil_r s). constructor; [assumption | constructor].
Qed.

Lemma test_search_cls (p : char -> bool) (s : jsstring) :
  test (Pattern false (Cls p) false) s = existsb p s.
Proof.
  apply bool_eq_iff. unfold test; simpl anchor_start; simpl anchor_end; simpl body.
  rewrite matches_lang, existsb_exists. split.
  - intros H. apply lang_cat_inv in H. destruct H as (s1 & s2 & -> & _ & H2).
    apply lang_cat_inv in H2. destruct H2 as (s3 & s4 & -> & H3 & _).
    apply lang_cls_inv in H3. destruct H3 as (c & -> & Hc).
    exists c. split; [|assumption]. apply in_or_app. right. now left.
  - intros (c & Hin & Hc). apply in_split in Hin. destruct Hin as (l1 & l2 & ->).
    constructor; [apply lang_star_any|].
    apply (@L_cat (Cls p) (Star Any) [c] l2); [now constructor | apply lang_star_any].
Qed.

Lemma test_anchored_plus_cls (p : char -> bool) (s : jsstring) :
  test (Pattern true (Plus (Cls p)) true) s = truthy s && forallb p s.
Proof.
  rewrite test_anchored. apply bool_eq_iff.
  rewrite matches_lang, lang_plus_cls, andb_true_iff.
  destruct s; simpl; intuition congruence.
Qed.

Lemma nameRegex_all (v : jsstring) :
  test InteractiveForm.nameRegex v
  = truthy v && forallb (mem [Range "a" "z"; Range "A" "Z"; Esc_s]) v.
Proof. apply test_anchored_plus_cls. Qed.

Lemma phoneRegex_all (v : jsstring) :
  test InteractiveForm.phoneRegex v
  = truthy v
    && forallb (mem [Esc_d; Esc_s; Single "-"; Single "+"; Single "("; Single ")"]) v.
Proof. apply test_anchored_plus_cls. Qed.

(** ** [trim] *)

Lemma trimStart_nil (s : jsstring) :
  trimStart s = [] <-> forallb isWhiteSpace s = true.
Proof.
  induction s as [|c s IH]; simpl; [tauto|].
  destruct (isWhiteSpace c); simpl; [assumption|]. split; discriminate.
Qed.

Lemma trimStart_keeps (s : jsstring) :
  forallb isWhiteSpace s = false -> forallb isWhiteSpace (trimStart s) = false.
Proof.
  induction s as [|c s IH]; simpl; [auto|].
  destruct (isWhiteSpace c) eqn:E; simpl; [assumption|]. now rewrite E.
Qed.

Lemma forallb_rev (p : char -> bool) (s : jsstring) :
  forallb p (rev s) = forallb p s.
Proof.
  apply bool_eq_iff. rewrite !forallb_forall.
  split; intros H c Hc; apply H; [now apply in_rev in Hc | now apply in_rev].
Qed.

Lemma trim_truthy (s : jsstring) :
  truthy (trim s) = negb (forallb isWhiteSpace s).
Proof.
  destruct (forallb isWhiteSpace s) eqn:E; simpl.
  - apply trimStart_nil in E. unfold trim, trimEnd. now rewrite E.
  - apply trimStart_keeps in E. unfold trim, trimEnd.
    rewrite <- forallb_rev in E. apply trimStart_keeps in E.
    rewrite <- forallb_rev in E.
    destruct (rev (trimStart (rev (trimStart s)))); [discriminate | reflexivity].
Qed.

Lemma trim_nil (s : jsstring) :
  trim s = [] <-> forallb isWhiteSpace s = true.
Proof.
  pose proof (trim_truthy s) as H.
  destruct (trim s), (forallb isWhiteSpace s); simpl in H;
    split; intros; congruence.
Qed.

Lemma trimStart_clean (v : jsstring) :
  Spec.noWhiteSpace v -> trimStart v = v.
Proof.
  destruct v as [|c v]; [reflexivity|]. intros H. simpl.
  now rewrite (H c (or_introl eq_refl)).
Qed.

Lemma trim_clean (v : jsstring) : Spec.noWhiteSpace v -> trim v = v.
Proof.
  intros H. unfold trim, trimEnd. rewrite (trimStart_clean H).
  rewrite trimStart_clean; [apply rev_involutive|].
  intros c Hc. apply H. now apply in_rev.
Qed.

(** ** The character classes of the password patterns *)

Lemma mem_range (lo hi : ascii) (c : char) :
  mem [Range lo hi] c = true <-> (code lo <= c <= code hi)%N.
Proof.
  unfold mem; simpl. rewrite orb_false_r. unfold in_range.
  rewrite andb_true_iff, !N.leb_le. tauto.
Qed.

Lemma mem_symbol (c : char) :
  mem [Single "!"; Single "@"; Single "#"; Single "$";
       Single "%"; Single "^"; Single "&"; Single "*"] c = true
  <-> Spec.isSymbol c.
Proof.
  unfold mem, Spec.isSymbol; simpl.
  rewrite !orb_true_iff, !N.eqb_eq. intuition congruence.
Qed.

Lemma search_class (l : list atom) (P : char -> Prop) (v : jsstring) :
  (forall c, mem l c = true <-> P c) ->
  test (Pattern false (OneOf l) false) v = true <-> Spec.has P v.
Proof.
  intros HP. unfold OneOf. rewrite test_search_cls, existsb_exists.
  split; intros (c & Hin & Hc); exists c; split; auto; now apply HP.
Qed.

Lemma test_upper (v : jsstring) :
  test InteractiveForm.upperRegex v = true <-> Spec.has Spec.isUpper v.
Proof. apply search_class. intros c. apply mem_range. Qed.

Lemma test_lower (v : jsstring) :
  test InteractiveForm.lowerRegex v = true <-> Spec.has Spec.isLower v.
Proof. apply search_class. intros c. apply mem_range. Qed.

Lemma test_digit (v : jsstring) :
  test InteractiveForm.digitRegex v = true <-> Spec.has Spec.isDigit v.
Proof. apply search_class. intros c. apply mem_range. Qed.

Lemma test_symbol (v : jsstring) :
  test InteractiveForm.symbolRegex v = true <-> Spec.has Spec.isSymbol v.
Proof. apply search_class. intros c. apply mem_symbol. Qed.

Lemma test_digit_wizard (v : jsstring) :
  test MultiStepForm.digitRegex v = true <-> Spec.has Spec.isDigit v.
Proof. exact (test_digit v). Qed.

Lemma test_symbol_wizard (v : jsstring) :
  test MultiStepForm.symbolRegex v = true <-> Spec.has Spec.isSymbol v.
Proof. exact (test_symbol v). Qed.

Lemma not_true_iff (b : bool) (P : Prop) :
  (b = true <-> P) -> (b = false <-> ~ P).
Proof. destruct b; intuition congruence. Qed.


(** ** First match in a list of checks *)

Section FirstMatch.

Variable K : Type.
Variable f : K -> bool.

Lemma find_earliest (l : list K) (k : K) :
    find f l = Some k <->
    exists before after,
      l = before ++ k :: after /\ f k = true /\
      forall k', In k' before -> f k' = false.
  Proof.
    induction l as [|x l IH]; simpl.
    - split; [discriminate|]. intros (b & a & E & _). now destruct b.
    - destruct (f x) eqn:Ex.
      + split.
        * intros [= ->]. exists [], l. simpl. intuition.
        * intros (b & a & E & Hk & Hb). destruct b as [|y b]; simpl in E.
          -- now injection E as ->.
          -- injection E as -> _. rewrite (Hb y) in Ex; [discriminate | now left].
      + rewrite IH. split.
        * intros (b & a & -> & Hk & Hb). exists (x :: b), a. simpl.
          repeat split; auto. intros k' [<- | Hin]; auto.
        * intros (b & a & E & Hk & Hb). destruct b as [|y b]; simpl in E.
          -- injection E as -> _. congruence.
          -- injection E as -> ->. exists b, a. repeat split; auto.
             intros k' Hin. apply Hb. now right.
  Qed.

Lemma find_none_iff (l : list K) :
    find f l = None <-> forall k, In k l -> f k = false.
  Proof.
    induction l as [|x l IH]; simpl; [tauto|].
    destruct (f x) eqn:Ex.
    - split; [discriminate|]. intros H. rewrite (H x) in Ex; [discriminate | now left].
    - rewrite IH. split; [intros H k [<- | Hin]; auto | auto].
  Qed.

End FirstMatch.

(** ** The strict password validator *)

Lemma existsb_has (p : char -> bool) (P : char -> Prop) (v : jsstring) :
  (forall c, p c = true <-> P c) ->
  existsb p v = true <-> Spec.has P v.
Proof.
  intros HP. rewrite existsb_exists.
  split; intros (c & Hin & Hc); exists c; split; auto; now apply HP.
Qed.

Lemma existsb_eqb_In (c : char) (l : list char) :
  existsb (N.eqb c) l = true <-> In c l.
Proof.
  rewrite existsb_exists. split.
  - intros (x & Hin & E). apply N.eqb_eq in E. now subst.
  - intros H. exists c. split; [assumption | apply N.eqb_refl].
Qed.

Lemma strictFailsb_spec (k : Spec.ErrorKind) (v : jsstring) :
  Spec.strictFailsb k v = true <-> Spec.strictFails k v.
Proof.
  destruct k; cbn [Spec.strictFailsb Spec.strictFails];
    try (split; [discriminate | tauto]).
  - destruct v; split; congruence.
  - apply Nat.ltb_lt.
  - rewrite negb_true_iff. apply not_true_iff, existsb_has, mem_range.
  - rewrite negb_true_iff. apply not_true_iff, existsb_has, mem_range.
  - rewrite negb_true_iff. apply not_true_iff, existsb_has, mem_range.
  - rewrite negb_true_iff. apply not_true_iff, existsb_has.
    intros c. apply existsb_eqb_In.
Qed.

Lemma strict_checks_decided (v : jsstring) :
  truthy v = negb (Spec.strictFailsb Spec.Required v) /\
  (List.length v <? 8) = Spec.strictFailsb Spec.TooShort v /\
  test InteractiveForm.upperRegex v = negb (Spec.strictFailsb Spec.MissingUppercase v) /\
  test InteractiveForm.lowerRegex v = negb (Spec.strictFailsb Spec.MissingLowercase v) /\
  test InteractiveForm.digitRegex v = negb (Spec.strictFailsb Spec.MissingDigit v) /\
  test InteractiveForm.symbolRegex v = negb (Spec.strictFailsb Spec.MissingSymbol v).
Proof.
  unfold InteractiveForm.upperRegex, InteractiveForm.lowerRegex,
    InteractiveForm.digitRegex, InteractiveForm.symbolRegex, OneOf.
  rewrite !test_search_cls. cbn [Spec.strictFailsb].
  rewrite !negb_involutive. repeat split. now destruct v.
Qed.

Lemma validatePassword_find (v : jsstring) :
  Spec.verdict (InteractiveForm.validatePassword v) =
  match find (fun k => Spec.strictFailsb k v) Spec.strictOrder with
  | Some k => Spec.Fails k
  | None => Spec.Valid
  end.
Proof.
  unfold InteractiveForm.validatePassword, Spec.strictOrder.
  destruct (strict_checks_decided v) as (-> & -> & -> & -> & -> & ->).
  cbn [find]. rewrite !negb_involutive.
  destruct (Spec.strictFailsb Spec.Required v); [reflexivity|].
  destruct (Spec.strictFailsb Spec.TooShort v); [reflexivity|].
  destruct (Spec.strictFailsb Spec.MissingUppercase v); [reflexivity|].
  destruct (Spec.strictFailsb Spec.MissingLowercase v); [reflexivity|].
  destruct (Spec.strictFailsb Spec.MissingDigit v); [reflexivity|].
  destruct (Spec.strictFailsb Spec.MissingSymbol v); reflexivity.
Qed.

(** C2.  The strict [validatePassword] runs its checks in the order
    Required, TooShort, MissingUppercase, MissingLowercase, MissingDigit,
    MissingSymbol and reports the first that fails and nothing else: it
    answers [k] exactly when [k] is the earliest failing check of that
    order, it answers valid exactly when no check fails, and on
    ["abcdefgh"] it answers MissingUppercase. *)
Theorem validatePassword_strict_first_failing :
  Spec.verdict (InteractiveForm.validatePassword (str "abcdefgh"))
  = Spec.Fails Spec.MissingUppercase
  /\ forall v : jsstring,
      (Spec.verdict (InteractiveForm.validatePassword v) = Spec.Valid <->
       forall k, In k Spec.strictOrder -> ~ Spec.strictFails k v)
      /\ (forall k,
           Spec.verdict (InteractiveForm.validatePassword v) = Spec.Fails k <->
           Spec.earliestFailing Spec.strictOrder Spec.strictFails k v)
      /\ (forall m,
           Spec.verdict (InteractiveForm.validatePassword v)
           <> Spec.Unclassified m).
Proof.
  split; [reflexivity|]. intros v. rewrite validatePassword_find.
  destruct (find (fun k => Spec.strictFailsb k v) Spec.strictOrder) as [k0|] eqn:E.
  - pose proof E as E'. apply find_earliest in E'.
    destruct E' as (b & a & Eo & Hk & Hb).
    repeat split; try discriminate.
    + intros H. exfalso. apply (H k0).
      * rewrite Eo. apply in_or_app. right. now left.
      * now apply strictFailsb_spec.
    + intros [= <-]. exists b, a. repeat split; auto.
      * now apply strictFailsb_spec.
      * intros k' Hin Hf. apply strictFailsb_spec in Hf.
        rewrite (Hb k' Hin) in Hf. discriminate.
    + intros (b' & a' & Eo' & Hk' & Hb').
      assert (E2 : find (fun k => Spec.strictFailsb k v) Spec.strictOrder = Some k).
      { apply find_earliest. exists b', a'. repeat split; auto.
        - now apply strictFailsb_spec.
        - intros k' Hin. specialize (Hb' k' Hin).
          destruct (Spec.strictFailsb k' v) eqn:Ef; [|reflexivity].
          apply strictFailsb_spec in Ef. contradiction. }
      congruence.
  - pose proof E as E'. rewrite find_none_iff in E'.
    repeat split; try discriminate.
    + intros _ k Hin Hf. apply strictFailsb_spec in Hf.
      rewrite (E' k Hin) in Hf. discriminate.
    + intros (b & a & Eo & Hk & _). apply strictFailsb_spec in Hk.
      rewrite (E' k) in Hk; [discriminate|].
      rewrite Eo. apply in_or_app. right. now left.
Qed.

(** ** The strict strength score *)

Lemma points_if (w : nat) (b : bool) (P : Prop) :
  (b = true <-> P) -> Spec.points w P (if b then w else 0).
Proof.
  intros H. unfold Spec.points. destruct b.
  - left. split; [now apply H | reflexivity].
  - right. split; [|reflexivity]. intros HP. apply H in HP. discriminate.
Qed.

Lemma calculatePasswordStrength_sum (v : jsstring) :
  InteractiveForm.calculatePasswordStrength v =
  (if 8 <=? List.length v then 20 else 0)
  + (if 12 <=? List.length v then 20 else 0)
  + (if test InteractiveForm.upperRegex v then 20 else 0)
  + (if test InteractiveForm.lowerRegex v then 20 else 0)
  + (if test InteractiveForm.digitRegex v then 10 else 0)
  + (if test InteractiveForm.symbolRegex v then 10 else 0).
Proof.
  unfold InteractiveForm.calculatePasswordStrength.
  destruct (8 <=? List.length v), (12 <=? List.length v),
    (test InteractiveForm.upperRegex v), (test InteractiveForm.lowerRegex v),
    (test InteractiveForm.digitRegex v), (test InteractiveForm.symbolRegex v);
    reflexivity.
Qed.

Lemma calculatePasswordStrength_le_100 (v : jsstring) :
  InteractiveForm.calculatePasswordStrength v <= 100.
Proof.
  rewrite calculatePasswordStrength_sum.
  destruct (8 <=? List.length v), (12 <=? List.length v),
    (test InteractiveForm.upperRegex v), (test InteractiveForm.lowerRegex v),
    (test InteractiveForm.digitRegex v), (test InteractiveForm.symbolRegex v);
    simpl; lia.
Qed.

Lemma label_strong (st : InteractiveForm.State) :
  70 <= InteractiveForm.passwordStrength st ->
  InteractiveForm.getPasswordStrengthLabel st = "Strong".
Proof.
  intros H. unfold InteractiveForm.getPasswordStrengthLabel.
  destruct (InteractiveForm.passwordStrength st <? 40) eqn:E1.
  - apply Nat.ltb_lt in E1. lia.
  - destruct (InteractiveForm.passwordStrength st <? 70) eqn:E2; [|reflexivity].
    apply Nat.ltb_lt in E2. lia.
Qed.

(** C5.  The strict scorer adds up six independent sub-checks (length >= 8:
    20, length >= 12: 20, an uppercase letter: 20, a lowercase letter: 20,
    a digit: 10, one of [!@#$%^&*]: 10), never exceeds 100, gives 80 on
    ["Abc12345!"], and every stored score of 70 or more is labelled
    "Strong". *)
Theorem calculatePasswordStrength_strict_weights :
  (forall v, Spec.strictScore v (InteractiveForm.calculatePasswordStrength v))
  /\ (forall v, InteractiveForm.calculatePasswordStrength v <= 100)
  /\ InteractiveForm.calculatePasswordStrength (str "Abc12345!") = 80
  /\ (forall st, 70 <= InteractiveForm.passwordStrength st ->
                 InteractiveForm.getPasswordStrengthLabel st = "Strong")
  /\ (exists st,
        InteractiveForm.run
          [InteractiveForm.Change InteractiveForm.password (str "Abc12345!")]
          InteractiveForm.mounted = Some st
        /\ InteractiveForm.passwordStrength st = 80
        /\ InteractiveForm.getPasswordStrengthLabel st = "Strong").
Proof.
  split; [|split; [|split; [|split]]].
  - intros v. rewrite calculatePasswordStrength_sum.
    eexists _, _, _, _, _, _. repeat split.
    + apply points_if, Nat.leb_le.
    + apply points_if, Nat.leb_le.
    + apply points_if, test_upper.
    + apply points_if, test_lower.
    + apply points_if, test_digit.
    + apply points_if, test_symbol.
  - apply calculatePasswordStrength_le_100.
  - reflexivity.
  - apply label_strong.
  - eexists. split; [vm_compute; reflexivity|]. split; reflexivity.
Qed.

(** A stored score of 70 is labelled "Strong". *)
Lemma calculatePasswordStrength_strict_weights_witness :
  InteractiveForm.getPasswordStrengthLabel
    (InteractiveForm.updatePasswordStrength
       (InteractiveForm.handleInputChange InteractiveForm.password
          (str "Abc12345!") InteractiveForm.mounted))
  = "Strong".
Proof.
  apply (proj1 (proj2 (proj2 (proj2 calculatePasswordStrength_strict_weights)))).
  vm_compute. lia.
Defined.

(** ** The single-page form keeps the stored score in step with the password *)

Lemma jsstring_eqb_eq (a b : jsstring) : jsstring_eqb a b = true <-> a = b.
Proof.
  revert b. induction a as [|x a IH]; intros [|y b]; simpl;
    try (split; congruence).
  rewrite andb_true_iff, N.eqb_eq, IH. split.
  - intros [-> ->]. reflexivity.
  - intros [= -> ->]. auto.
Qed.

Lemma effects_in_step (newObject : bool) (before after : InteractiveForm.State) :
  strength_in_step before ->
  InteractiveForm.passwordStrength after = InteractiveForm.passwordStrength before ->
  strength_in_step (InteractiveForm.effects newObject before after).
Proof.
  unfold strength_in_step, InteractiveForm.effects. intros Hb Hs.
  destruct newObject; simpl;
    match goal with
    | |- context [jsstring_eqb ?a ?b] => destruct (jsstring_eqb a b) eqn:E
    end; try reflexivity;
    apply jsstring_eqb_eq in E; simpl in *; congruence.
Qed.

Lemma dispatch_in_step (ev : InteractiveForm.Event)
      (st st' : InteractiveForm.State) (toasts : list Toast) :
  strength_in_step st ->
  InteractiveForm.dispatch ev st = Some (st', toasts) ->
  strength_in_step st'.
Proof.
  intros Hst. unfold InteractiveForm.dispatch.
  destruct (InteractiveForm.rendered ev st); [|discriminate].
  destruct ev; try (intros [= <- _]; now apply effects_in_step).
  unfold InteractiveForm.handleSubmit.
  destruct (negb _); intros [= <- _]; now apply effects_in_step.
Qed.

Lemma run_in_step (evs : list InteractiveForm.Event) :
  forall st st',
    strength_in_step st ->
    InteractiveForm.run evs st = Some st' ->
    strength_in_step st'.
Proof.
  induction evs as [|ev evs IH]; simpl; intros st st' Hst Hrun.
  - now injection Hrun as <-.
  - destruct (InteractiveForm.dispatch ev st) as [[st1 toasts]|] eqn:E;
      [|discriminate].
    apply (IH st1); [|assumption]. apply (dispatch_in_step _ Hst E).
Qed.

Lemma strict_valid_checks (v : jsstring) :
  InteractiveForm.validatePassword v = None ->
  (8 <=? List.length v) = true
  /\ test InteractiveForm.upperRegex v = true
  /\ test InteractiveForm.lowerRegex v = true
  /\ test InteractiveForm.digitRegex v = true
  /\ test InteractiveForm.symbolRegex v = true.
Proof.
  unfold InteractiveForm.validatePassword.
  destruct (truthy v); [|discriminate]. cbn [negb].
  destruct (List.length v <? 8) eqn:El; [discriminate|].
  destruct (test InteractiveForm.upperRegex v); [|discriminate].
  destruct (test InteractiveForm.lowerRegex v); [|discriminate].
  destruct (test InteractiveForm.digitRegex v); [|discriminate].
  destruct (test InteractiveForm.symbolRegex v); [|discriminate].
  intros _. repeat split. apply Nat.ltb_ge in El. now apply Nat.leb_le.
Qed.

(** C10.  A password that the strict [validatePassword] accepts scores at
    least 80 with the strict scorer, and the single-page form, in whatever
    state its events have led it to, stores at least 80 for it and labels
    it "Strong". *)
Theorem strict_valid_password_is_strong (v : jsstring)
        (Hvalid : InteractiveForm.validatePassword v = None) :
  80 <= InteractiveForm.calculatePasswordStrength v
  /\ forall evs st,
      InteractiveForm.run evs InteractiveForm.mounted = Some st ->
      InteractiveForm.FormData.password (InteractiveForm.formData st) = v ->
      80 <= InteractiveForm.passwordStrength st
      /\ InteractiveForm.getPasswordStrengthLabel st = "Strong".
Proof.
  assert (H80 : 80 <= InteractiveForm.calculatePasswordStrength v).
  { destruct (strict_valid_checks v Hvalid) as (H8 & Hu & Hl & Hd & Hs).
    rewrite calculatePasswordStrength_sum, H8, Hu, Hl, Hd, Hs.
    destruct (12 <=? List.length v); simpl; lia. }
  split; [assumption|]. intros evs st Hrun Hpw.
  assert (Hin : strength_in_step st).
  { apply (run_in_step evs (st := InteractiveForm.mounted)); [reflexivity | assumption]. }
  unfold strength_in_step in Hin. rewrite Hpw in Hin.
  split; [lia|]. apply label_strong. lia.
Qed.

(** ["Abcdef1!"] passes the strict validator; typed into the password
    field it is stored with a score of 80 and labelled "Strong". *)
Lemma strict_valid_password_is_strong_witness :
  InteractiveForm.validatePassword (str "Abcdef1!") = None
  /\ 80 <= InteractiveForm.calculatePasswordStrength (str "Abcdef1!")
  /\ exists st,
      InteractiveForm.run
        [InteractiveForm.Blur InteractiveForm.password;
         InteractiveForm.Change InteractiveForm.password (str "Abcdef1!")]
        InteractiveForm.mounted = Some st
      /\ InteractiveForm.getPasswordStrengthLabel st = "Strong".
Proof.
  assert (Hvalid : InteractiveForm.validatePassword (str "Abcdef1!") = None)
    by reflexivity.
  split; [exact Hvalid|].
  split; [exact (proj1 (@strict_valid_password_is_strong (str "Abcdef1!") Hvalid))|].
  eexists. split; [vm_compute; reflexivity|].
  apply (proj2 (@strict_valid_password_is_strong (str "Abcdef1!") Hvalid)
               [InteractiveForm.Blur InteractiveForm.password;
                InteractiveForm.Change InteractiveForm.password (str "Abcdef1!")]);
    reflexivity.
Defined.

(** ** The email pattern *)

Lemma lang_lit (a : ascii) (s : jsstring) : lang (Lit a) s <-> s = [code a].
Proof.
  unfold Lit. split.
  - intros H. apply lang_cls_inv in H. destruct H as (c & -> & Hc).
    apply N.eqb_eq in Hc. now subst.
  - intros ->. constructor. apply N.eqb_refl.
Qed.

Lemma email_class (c : char) :
  not_mem [Esc_s; Single "@"] c = true <->
  isWhiteSpace c = false /\ c <> code "@".
Proof.
  unfold not_mem, mem; simpl existsb. cbn [atom_mem].
  rewrite orb_false_r, negb_true_iff, orb_false_iff, N.eqb_neq. tauto.
Qed.

Lemma email_class_all (s : jsstring) :
  forallb (not_mem [Esc_s; Single "@"]) s = true <->
  Spec.noWhiteSpace s /\ ~ In (code "@") s.
Proof.
  rewrite forallb_forall. unfold Spec.noWhiteSpace. split.
  - intros H. split.
    + intros c Hc. now apply email_class, H.
    + intros Hin. apply H, email_class in Hin. now destruct Hin.
  - intros [Hw Ha] c Hc. apply email_class. split; [now apply Hw|].
    intros ->. contradiction.
Qed.

Lemma emailRegex_lang (v : jsstring) :
  test InteractiveForm.emailRegex v = true <->
  exists local domain tld,
    v = local ++ code "@" :: domain ++ code "." :: tld /\
    (local <> [] /\ forallb (not_mem [Esc_s; Single "@"]) local = true) /\
    (domain <> [] /\ forallb (not_mem [Esc_s; Single "@"]) domain = true) /\
    (tld <> [] /\ forallb (not_mem [Esc_s; Single "@"]) tld = true).
Proof.
  unfold InteractiveForm.emailRegex, NoneOf. rewrite test_anchored, matches_lang.
  split.
  - intros H.
    apply lang_cat_inv in H. destruct H as (l & r1 & -> & Hl & H).
    apply lang_cat_inv in H. destruct H as (a & r2 & -> & Ha & H).
    apply lang_cat_inv in H. destruct H as (d & r3 & -> & Hd & H).
    apply lang_cat_inv in H. destruct H as (p & t & -> & Hp & Ht).
    apply lang_lit in Ha, Hp. subst a p.
    apply lang_plus_cls in Hl, Hd, Ht.
    exists l, d, t. simpl. auto.
  - intros (l & d & t & -> & Hl & Hd & Ht).
    apply lang_plus_cls in Hl, Hd, Ht.
    constructor; [assumption|].
    apply (@L_cat (Lit "@") _ [code "@"]); [now apply lang_lit|].
    constructor; [assumption|].
    apply (@L_cat (Lit ".") _ [code "."]); [now apply lang_lit | assumption].
Qed.

Lemma plus_one_zero (a b : nat) : a + S b = 1 -> a = 0.
Proof. lia. Qed.

Lemma count_occ_zero (s : jsstring) (c : char) :
  count_occ N.eq_dec s c = 0 <-> ~ In c s.
Proof. symmetry. apply count_occ_not_In. Qed.

Lemma emailRegex_shape (v : jsstring) :
  test InteractiveForm.emailRegex v = true <-> Spec.emailShape v.
Proof.
  rewrite emailRegex_lang. unfold Spec.emailShape.
  split; intros (l & d & t & Ev & H); exists l, d, t; (split; [exact Ev|]).
  - destruct H as ((Hl & Cl) & (Hd & Cd) & (Ht & Ct)).
    apply email_class_all in Cl, Cd, Ct.
    destruct Cl as [Wl Al], Cd as [Wd Ad], Ct as [Wt At].
    assert (Hrest : ~ In (code "@") (d ++ code "." :: t)).
    { intros Hin. apply in_app_or in Hin. destruct Hin as [Hin | [Hin | Hin]]; auto.
      discriminate Hin. }
    repeat split; auto.
    + subst v. intros c Hc. apply in_app_or in Hc.
      destruct Hc as [Hc | [<- | Hc]]; [now apply Wl | reflexivity |].
      apply in_app_or in Hc.
      destruct Hc as [Hc | [<- | Hc]]; [now apply Wd | reflexivity | now apply Wt].
    + subst v. rewrite count_occ_app, count_occ_cons_eq by reflexivity.
      apply count_occ_zero in Al, Hrest.
      exact (eq_trans (f_equal2 (fun a b => a + S b) Al Hrest) eq_refl).
  - destruct H as (Hl & Hd & Ht & Hw & Hc & Hrest).
    assert (Al : ~ In (code "@") l).
    { subst v. rewrite count_occ_app, count_occ_cons_eq in Hc by reflexivity.
      apply count_occ_zero. apply (plus_one_zero _ _ Hc). }
    assert (Wl : Spec.noWhiteSpace l).
    { intros c Hin. apply Hw. subst v. apply in_or_app. now left. }
    assert (Wd : Spec.noWhiteSpace d).
    { intros c Hin. apply Hw. subst v. apply in_or_app. right. right.
      apply in_or_app. now left. }
    assert (Wt : Spec.noWhiteSpace t).
    { intros c Hin. apply Hw. subst v. apply in_or_app. right. right.
      apply in_or_app. right. now right. }
    assert (Ad : ~ In (code "@") d).
    { intros Hin. apply Hrest. apply in_or_app. now left. }
    assert (At : ~ In (code "@") t).
    { intros Hin. apply Hrest. apply in_or_app. right. now right. }
    repeat split; auto; apply email_class_all; auto.
Qed.

Lemma emailShape_not_blank (v : jsstring) : Spec.emailShape v -> trim v <> [].
Proof.
  intros (l & d & t & -> & Hl & _ & _ & Hw & _) Ht.
  apply trim_nil in Ht. destruct l as [|c l]; [congruence|].
  simpl in Ht. apply andb_true_iff in Ht. destruct Ht as [Hc _].
  rewrite (Hw c) in Hc; [discriminate | now left].
Qed.

Lemma validateEmail_cases (v : jsstring) :
  InteractiveForm.validateEmail v =
  if negb (truthy (trim v)) then Some "Email is required"
  else if test InteractiveForm.emailRegex v then None
       else Some "Please enter a valid email address".
Proof.
  unfold InteractiveForm.validateEmail.
  destruct (negb (truthy (trim v))), (test InteractiveForm.emailRegex v);
    reflexivity.
Qed.

(** C7, as the code has it.  [validateEmail] answers Required exactly when
    the trimmed value is empty; for any other value it answers
    InvalidFormat exactly when the untrimmed value lacks the basic
    [local@domain.tld] shape, and valid exactly when it has it.  The shape
    admits no white space anywhere in the value, at its two ends no more
    than inside: a value has it exactly when its trimmed form has it and
    trimming changes nothing, so a shaped email with white space before or
    after it is InvalidFormat.  ["a@b.com"] is valid, ["not-an-email"] is
    InvalidFormat and the empty string is Required.  The wizard's
    [validateEmail] is the same function. *)
Theorem validateEmail_required_or_shape :
  (forall v,
      Spec.verdict (InteractiveForm.validateEmail v) = Spec.Fails Spec.Required
      <-> trim v = [])
  /\ (forall v, trim v <> [] ->
        (Spec.verdict (InteractiveForm.validateEmail v)
         = Spec.Fails Spec.InvalidFormat <-> ~ Spec.emailShape v))
  /\ (forall v,
        Spec.verdict (InteractiveForm.validateEmail v) = Spec.Valid
        <-> Spec.emailShape v)
  /\ Spec.verdict (InteractiveForm.validateEmail (str "a@b.com")) = Spec.Valid
  /\ Spec.verdict (InteractiveForm.validateEmail (str "not-an-email"))
     = Spec.Fails Spec.InvalidFormat
  /\ Spec.verdict (InteractiveForm.validateEmail (str "")) = Spec.Fails Spec.Required
  /\ (forall v, MultiStepForm.validateEmail v = InteractiveForm.validateEmail v)
  /\ (forall v, Spec.emailShape v <-> emailShapeInside v /\ trim v = v)
  /\ (forall v, emailShapeInside v -> trim v <> v ->
        Spec.verdict (InteractiveForm.validateEmail v)
        = Spec.Fails Spec.InvalidFormat).
Proof.
  assert (Hcase : forall v,
    (trim v = [] /\ Spec.verdict (InteractiveForm.validateEmail v)
                    = Spec.Fails Spec.Required)
    \/ (trim v <> [] /\ Spec.emailShape v
        /\ Spec.verdict (InteractiveForm.validateEmail v) = Spec.Valid)
    \/ (trim v <> [] /\ ~ Spec.emailShape v
        /\ Spec.verdict (InteractiveForm.validateEmail v)
           = Spec.Fails Spec.InvalidFormat)).
  { intros v. rewrite validateEmail_cases.
    destruct (trim v) as [|c r] eqn:Et; [left; split; reflexivity|].
    right. cbn [truthy negb].
    destruct (test InteractiveForm.emailRegex v) eqn:Ere.
    - left. repeat split; [discriminate | now apply emailRegex_shape].
    - right. repeat split; [discriminate|].
      intros Hs. apply emailRegex_shape in Hs. congruence. }
  assert (Hin : forall v, Spec.emailShape v <-> emailShapeInside v /\ trim v = v).
  { intros v. unfold emailShapeInside. split.
    - intros Hs. assert (Ht : trim v = v).
      { destruct Hs as (l & d & t & _ & _ & _ & _ & Hw & _). now apply trim_clean. }
      rewrite Ht. split; [exact Hs | reflexivity].
    - intros [Hs Ht]. now rewrite Ht in Hs. }
  repeat apply conj.
  - intros v. split; intros H.
    + destruct (Hcase v) as [[Ht _] | [(_ & _ & E) | (_ & _ & E)]];
        [assumption | congruence | congruence].
    + destruct (Hcase v) as [[_ E] | [(Ht & _) | (Ht & _)]];
        [assumption | contradiction | contradiction].
  - intros v H. split.
    + intros E Hs.
      destruct (Hcase v) as [[Ht _] | [(_ & _ & E') | (_ & Hn & _)]];
        [contradiction | congruence | contradiction].
    + intros Hn.
      destruct (Hcase v) as [[Ht _] | [(_ & Hs & _) | (_ & _ & E)]];
        [contradiction | contradiction | assumption].
  - intros v. split.
    + intros E.
      destruct (Hcase v) as [[_ E'] | [(_ & Hs & _) | (_ & _ & E')]];
        [congruence | assumption | congruence].
    + intros Hs.
      destruct (Hcase v) as [[Ht _] | [(_ & _ & E) | (_ & Hn & _)]];
        [|assumption | contradiction].
      now apply emailShape_not_blank in Hs.
  - reflexivity.
  - reflexivity.
  - reflexivity.
  - intros v. reflexivity.
  - exact Hin.
  - intros v Hs Hne.
    destruct (Hcase v) as [[Ht _] | [(_ & Hv & _) | (_ & _ & E)]].
    + unfold emailShapeInside in Hs. rewrite Ht in Hs.
      destruct Hs as (l & d & t & E & _). now destruct l.
    + apply Hin in Hv. destruct Hv as [_ Ht]. contradiction.
    + exact E.
Qed.

(** A shaped email with a space before it, or after it, has no white space
    inside, one [@] and a later [.], and does not trim to nothing: yet it
    is InvalidFormat, the pattern being tried on the untrimmed value. *)
Lemma validateEmail_outer_white_space :
  (trim (str " a@b.com") <> []
   /\ emailShapeInside (str " a@b.com")
   /\ Spec.verdict (InteractiveForm.validateEmail (str " a@b.com"))
      = Spec.Fails Spec.InvalidFormat)
  /\ (trim (str "a@b.com ") <> []
      /\ emailShapeInside (str "a@b.com ")
      /\ Spec.verdict (InteractiveForm.validateEmail (str "a@b.com "))
         = Spec.Fails Spec.InvalidFormat).
Proof.
  split; (split; [vm_compute; discriminate|]);
    (split; [unfold emailShapeInside; apply emailRegex_shape | ]); reflexivity.
Qed.

(** ["a@.com"] and ["@b.com"] have no white space, one [@] and a later
    [.], yet lack a non-empty part: both are InvalidFormat. *)
Lemma validateEmail_empty_part :
  Spec.verdict (InteractiveForm.validateEmail (str "a@.com"))
  = Spec.Fails Spec.InvalidFormat
  /\ Spec.verdict (InteractiveForm.validateEmail (str "@b.com"))
     = Spec.Fails Spec.InvalidFormat.
Proof. split; reflexivity. Qed.

(** ** The wizard's validators *)

(** C8.  [validateOTP] answers Required for the empty string, WrongLength
    for every other string whose length is not 5, and valid for every
    string of length 5, whatever its characters. *)
Theorem validateOTP_length_only :
  Spec.verdict (MultiStepForm.validateOTP []) = Spec.Fails Spec.Required
  /\ (forall v, v <> [] -> List.length v <> 5 ->
        Spec.verdict (MultiStepForm.validateOTP v) = Spec.Fails Spec.WrongLength)
  /\ (forall v, List.length v = 5 -> MultiStepForm.validateOTP v = None).
Proof.
  split; [reflexivity|]. split; intros v.
  - intros Hne Hlen. unfold MultiStepForm.validateOTP.
    destruct v as [|c v]; [congruence|]. cbn [truthy negb].
    apply Nat.eqb_neq in Hlen. now rewrite Hlen.
  - intros Hlen. unfold MultiStepForm.validateOTP.
    destruct v as [|c v]; [discriminate|]. cbn [truthy negb].
    apply Nat.eqb_eq in Hlen. now rewrite Hlen.
Qed.

(** A two-character code is WrongLength; five characters that are not
    digits are accepted. *)
Lemma validateOTP_length_only_witness :
  Spec.verdict (MultiStepForm.validateOTP (str "12")) = Spec.Fails Spec.WrongLength
  /\ MultiStepForm.validateOTP (str "ab!d?") = None.
Proof.
  split.
  - apply (proj1 (proj2 validateOTP_length_only) (str "12")).
    + discriminate.
    + vm_compute. lia.
  - apply (proj2 (proj2 validateOTP_length_only) (str "ab!d?")). reflexivity.
Defined.

(** A handler that leaves [formData.password] alone triggers no effect. *)
Ltac password_unchanged :=
  replace (jsstring_eqb _ _) with true
    by (symmetry; now apply jsstring_eqb_eq).

Lemma validateEmail_truthy (v : jsstring) :
  truthy_opt (MultiStepForm.validateEmail v)
  = defined (MultiStepForm.validateEmail v).
Proof.
  unfold MultiStepForm.validateEmail.
  destruct (negb (truthy (trim v))); [reflexivity|].
  destruct (negb (test MultiStepForm.emailRegex v)); reflexivity.
Qed.

(** C4.  At the email step, [Continue] with an email that [validateEmail]
    rejects keeps the wizard at step 1 and stores an error map with the
    email error and nothing else, all other state untouched; the wizard
    moves to step 2 exactly when [validateEmail] reports no error. *)
Theorem handleEmailSubmit_gate (st : MultiStepForm.State)
        (Hstep : MultiStepForm.step st = 1%Z)
        (Hform : MultiStepForm.isSubmitted st = false) :
  exists st' toasts,
    MultiStepForm.dispatch MultiStepForm.EmailSubmit st = Some (st', toasts)
    /\ (forall e,
          MultiStepForm.validateEmail
            (MultiStepForm.FormData.email (MultiStepForm.formData st)) = Some e ->
          MultiStepForm.step st' = 1%Z
          /\ MultiStepForm.errors st'
             = MultiStepForm.FormErrors.mk (Some e) None None
          /\ st' = MultiStepForm.setErrors (MultiStepForm.errors st') st)
    /\ (MultiStepForm.step st' = 2%Z <->
        MultiStepForm.validateEmail
          (MultiStepForm.FormData.email (MultiStepForm.formData st)) = None)
    /\ (MultiStepForm.validateEmail
          (MultiStepForm.FormData.email (MultiStepForm.formData st)) = None ->
        MultiStepForm.errors st' = MultiStepForm.FormErrors.empty).
Proof.
  unfold MultiStepForm.dispatch, MultiStepForm.rendered.
  rewrite Hstep, Hform. cbn [negb andb Z.eqb Pos.eqb].
  unfold MultiStepForm.handle, MultiStepForm.handleEmailSubmit.
  rewrite validateEmail_truthy.
  destruct (MultiStepForm.validateEmail
              (MultiStepForm.FormData.email (MultiStepForm.formData st)))
    as [e|] eqn:Ev; cbn [defined].
  - eexists _, _. split; [reflexivity|].
    unfold MultiStepForm.effects. cbn.
    password_unchanged.
    cbn. repeat split; try discriminate.
    + assumption.
    + now injection H as <-.
    + rewrite Hstep. discriminate.
  - eexists _, _. split; [reflexivity|].
    unfold MultiStepForm.effects. cbn.
    password_unchanged.
    cbn. repeat split; discriminate.
Qed.

(** ** Going back *)

(** C9.  The back arrow, pressed at step 2 or step 3, lowers the step by
    exactly one and empties the error map; the three field values, and
    everything else the wizard stores, stay as they were. *)
Theorem handleBack_frame (st : MultiStepForm.State)
        (Hstep : MultiStepForm.step st = 2%Z \/ MultiStepForm.step st = 3%Z)
        (Hform : MultiStepForm.isSubmitted st = false) :
  exists st',
    MultiStepForm.dispatch MultiStepForm.Back st = Some (st', [])
    /\ MultiStepForm.step st' = (MultiStepForm.step st - 1)%Z
    /\ MultiStepForm.errors st' = MultiStepForm.FormErrors.empty
    /\ MultiStepForm.formData st' = MultiStepForm.formData st
    /\ st' = MultiStepForm.handleBack st.
Proof.
  unfold MultiStepForm.dispatch, MultiStepForm.rendered.
  rewrite Hform.
  assert (Hgt : (1 <? MultiStepForm.step st)%Z = true)
    by (apply Z.ltb_lt; lia).
  rewrite Hgt. cbn [negb andb MultiStepForm.handle].
  unfold MultiStepForm.effects.
  password_unchanged.
  eexists. split; [reflexivity|]. repeat split.
Qed.

(** From step 2 the back arrow leads to step 1. *)
Lemma handleBack_frame_witness :
  exists st',
    MultiStepForm.dispatch MultiStepForm.Back
      (MultiStepForm.setStep 2 MultiStepForm.mounted) = Some (st', [])
    /\ MultiStepForm.step st' = 1%Z.
Proof.
  destruct (@handleBack_frame (MultiStepForm.setStep 2 MultiStepForm.mounted)
              (or_introl eq_refl) eq_refl) as (st' & Hd & Hs & _).
  exists st'. split; [exact Hd | exact Hs].
Defined.

(** ["not-an-email"] submitted at step 1 keeps the wizard at step 1 with the
    email error alone. *)
Lemma handleEmailSubmit_gate_witness :
  exists st' toasts,
    MultiStepForm.dispatch MultiStepForm.EmailSubmit
      (MultiStepForm.changeEmail (str "not-an-email") MultiStepForm.mounted)
    = Some (st', toasts)
    /\ MultiStepForm.step st' = 1%Z
    /\ MultiStepForm.errors st'
       = MultiStepForm.FormErrors.mk
           (Some "Please enter a valid email address") None None.
Proof.
  destruct (@handleEmailSubmit_gate
              (MultiStepForm.changeEmail (str "not-an-email") MultiStepForm.mounted)
              eq_refl eq_refl) as (st' & toasts & Hd & Herr & _).
  exists st', toasts. split; [exact Hd|].
  destruct (Herr "Please enter a valid email address" eq_refl) as (Hs & He & _).
  split; [exact Hs | exact He].
Defined.

(** ** The relaxed strength score and its bands *)

Lemma strengthOf_sum (r : MultiStepForm.Requirements.t) :
  MultiStepForm.strengthOf r =
  (if MultiStepForm.Requirements.minLength r then 40 else 0)
  + (if MultiStepForm.Requirements.hasNumber r then 30 else 0)
  + (if MultiStepForm.Requirements.hasSymbol r then 30 else 0).
Proof. destruct r as [[] [] []]; reflexivity. Qed.

Lemma strengthBarColor_bands (s : nat) :
  Spec.bandOfColor (MultiStepForm.strengthBarColor s) = Some (Spec.band 80 s).
Proof.
  unfold MultiStepForm.strengthBarColor, Spec.band.
  destruct (s <? 40); [reflexivity|]. destruct (s <? 80); reflexivity.
Qed.

(** C6.  The relaxed scorer adds up three independent sub-checks (length
    >= 8: 40, a digit: 30, one of [!@#$%^&*]: 30) and stores the sum, never
    more than 100; the strength bar shows a score below 40 in the Weak
    colour, a score from 40 to 79 in the Medium colour and any other score
    in the Strong colour.  ["abcdefgh"] scores 40, which is Medium. *)
Theorem calculatePasswordStrength_relaxed_weights :
  (forall v st,
      Spec.relaxedScore v
        (MultiStepForm.passwordStrength
           (MultiStepForm.calculatePasswordStrength v st)))
  /\ (forall v st,
        MultiStepForm.passwordStrength
          (MultiStepForm.calculatePasswordStrength v st) <= 100)
  /\ (forall s,
        (s < 40 ->
         Spec.bandOfColor (MultiStepForm.strengthBarColor s) = Some Spec.Weak)
        /\ (40 <= s < 80 ->
            Spec.bandOfColor (MultiStepForm.strengthBarColor s) = Some Spec.Medium)
        /\ (80 <= s ->
            Spec.bandOfColor (MultiStepForm.strengthBarColor s) = Some Spec.Strong))
  /\ (forall st,
        MultiStepForm.passwordStrength
          (MultiStepForm.calculatePasswordStrength (str "abcdefgh") st) = 40)
  /\ Spec.bandOfColor (MultiStepForm.strengthBarColor 40) = Some Spec.Medium.
Proof.
  split; [|split; [|split; [|split]]].
  - intros v st. cbn [MultiStepForm.calculatePasswordStrength
                      MultiStepForm.setPasswordStrength
                      MultiStepForm.passwordStrength].
    rewrite strengthOf_sum. cbn [MultiStepForm.requirementsOf
      MultiStepForm.Requirements.minLength MultiStepForm.Requirements.hasNumber
      MultiStepForm.Requirements.hasSymbol].
    eexists _, _, _. repeat split.
    + apply points_if, Nat.leb_le.
    + apply points_if, test_digit_wizard.
    + apply points_if, test_symbol_wizard.
  - intros v st. cbn [MultiStepForm.calculatePasswordStrength
                      MultiStepForm.setPasswordStrength
                      MultiStepForm.passwordStrength].
    rewrite strengthOf_sum.
    destruct (MultiStepForm.requirementsOf v) as [[] [] []]; simpl; lia.
  - intros s. rewrite strengthBarColor_bands. unfold Spec.band.
    repeat split; intros H.
    + apply Nat.ltb_lt in H. now rewrite H.
    + destruct H as [H1 H2]. apply Nat.ltb_ge in H1. apply Nat.ltb_lt in H2.
      now rewrite H1, H2.
    + assert (H1 : (s <? 40) = false) by (apply Nat.ltb_ge; lia).
      assert (H2 : (s <? 80) = false) by (apply Nat.ltb_ge; lia).
      now rewrite H1, H2.
  - intros st. reflexivity.
  - reflexivity.
Qed.

(** A score of 70, Strong under the strict bands, is Medium here. *)
Lemma calculatePasswordStrength_relaxed_weights_witness :
  Spec.bandOfColor (MultiStepForm.strengthBarColor 70) = Some Spec.Medium.
Proof.
  apply (proj1 (proj2 (proj1 (proj2 (proj2 calculatePasswordStrength_relaxed_weights)) 70))).
  lia.
Defined.

(** ** Submitting the single-page form *)

Lemma validateName_truthy (v : jsstring) :
  truthy_opt (InteractiveForm.validateName v)
  = defined (InteractiveForm.validateName v).
Proof.
  unfold InteractiveForm.validateName.
  destruct (negb (truthy (trim v))); [reflexivity|].
  destruct (List.length (trim v) <? 2); [reflexivity|].
  destruct (negb (test InteractiveForm.nameRegex v)); reflexivity.
Qed.

Lemma validateEmail_truthy_form (v : jsstring) :
  truthy_opt (InteractiveForm.validateEmail v)
  = defined (InteractiveForm.validateEmail v).
Proof. exact (validateEmail_truthy v). Qed.

Lemma validatePhone_truthy (v : jsstring) :
  truthy_opt (InteractiveForm.validatePhone v)
  = defined (InteractiveForm.validatePhone v).
Proof.
  unfold InteractiveForm.validatePhone.
  destruct (negb (truthy (trim v))); [reflexivity|].
  destruct (negb (test InteractiveForm.phoneRegex v)); [reflexivity|].
  destruct (List.length (remove_all (not_mem [Esc_d]) v) <? 10); reflexivity.
Qed.

Lemma validatePassword_truthy (v : jsstring) :
  truthy_opt (InteractiveForm.validatePassword v)
  = defined (InteractiveForm.validatePassword v).
Proof.
  unfold InteractiveForm.validatePassword.
  destruct (negb (truthy v)); [reflexivity|].
  destruct (List.length v <? 8); [reflexivity|].
  destruct (negb (test InteractiveForm.upperRegex v)); [reflexivity|].
  destruct (negb (test InteractiveForm.lowerRegex v)); [reflexivity|].
  destruct (negb (test InteractiveForm.digitRegex v)); [reflexivity|].
  destruct (negb (test InteractiveForm.symbolRegex v)); reflexivity.
Qed.

Lemma keep_truthy (e : option string) :
  truthy_opt e = defined e -> (if truthy_opt e then e else None) = e.
Proof. destruct e as [[|a m]|]; simpl; congruence. Qed.

Lemma handleSubmit_state (st : InteractiveForm.State) :
  fst (InteractiveForm.handleSubmit st) =
  InteractiveForm.mkState
    (InteractiveForm.formData st)
    (validationOf (InteractiveForm.formData st))
    (InteractiveForm.TouchedFields.mk true true true true)
    (InteractiveForm.showPassword st)
    (InteractiveForm.isSubmitted st
     || negb (existsb defined
                (InteractiveForm.FormErrors.values
                   (validationOf (InteractiveForm.formData st)))))
    (InteractiveForm.passwordStrength st).
Proof.
  unfold InteractiveForm.handleSubmit. fold (validationOf (InteractiveForm.formData st)).
  destruct (existsb defined _); simpl.
  - now rewrite orb_false_r.
  - now rewrite orb_true_r.
Qed.

Lemma realTimeValidation_after_submit (st : InteractiveForm.State) :
  InteractiveForm.touched st = InteractiveForm.TouchedFields.mk true true true true ->
  InteractiveForm.errors st = validationOf (InteractiveForm.formData st) ->
  InteractiveForm.realTimeValidation st = st.
Proof.
  destruct st as [fd errs t sp sub ps]. simpl. intros -> ->.
  unfold InteractiveForm.realTimeValidation, validationOf. simpl.
  now rewrite (keep_truthy _ (validateName_truthy _)),
    (keep_truthy _ (validateEmail_truthy_form _)),
    (keep_truthy _ (validatePhone_truthy _)),
    (keep_truthy _ (validatePassword_truthy _)).
Qed.

Lemma dispatch_Submit (st : InteractiveForm.State) :
  InteractiveForm.isSubmitted st = false ->
  InteractiveForm.dispatch InteractiveForm.Submit st =
  Some (fst (InteractiveForm.handleSubmit st),
        snd (InteractiveForm.handleSubmit st)).
Proof.
  intros Hform. unfold InteractiveForm.dispatch. simpl InteractiveForm.rendered.
  rewrite Hform. cbn [negb].
  destruct (InteractiveForm.handleSubmit st) as [st' toasts] eqn:E.
  assert (Est : st' = fst (InteractiveForm.handleSubmit st)) by now rewrite E.
  rewrite handleSubmit_state in Est. cbn [fst snd].
  unfold InteractiveForm.effects.
  rewrite realTimeValidation_after_submit by (subst st'; reflexivity).
  replace (jsstring_eqb _ _) with true;
    [reflexivity | symmetry; apply jsstring_eqb_eq; now subst st'].
Qed.

Lemma no_error_iff (e : InteractiveForm.FormErrors.t) :
  existsb defined (InteractiveForm.FormErrors.values e) = false <->
  InteractiveForm.FormErrors.name e = None
  /\ InteractiveForm.FormErrors.email e = None
  /\ InteractiveForm.FormErrors.phone e = None
  /\ InteractiveForm.FormErrors.password e = None.
Proof.
  destruct e as [[n|] [m|] [p|] [w|]]; simpl; intuition congruence.
Qed.

(** C3.  On submit of the single-page form the four validators run on the
    four field values whatever the touched flags are, every field becomes
    touched, and the form is submitted exactly when none of the four
    reports an error; if one does, [isSubmitted] stays false. *)
Theorem handleSubmit_all_fields (st : InteractiveForm.State)
        (Hform : InteractiveForm.isSubmitted st = false) :
  exists st' toasts,
    InteractiveForm.dispatch InteractiveForm.Submit st = Some (st', toasts)
    /\ InteractiveForm.errors st' = validationOf (InteractiveForm.formData st)
    /\ InteractiveForm.touched st'
       = InteractiveForm.TouchedFields.mk true true true true
    /\ InteractiveForm.formData st' = InteractiveForm.formData st
    /\ (InteractiveForm.isSubmitted st' = true <->
        InteractiveForm.validateName
          (InteractiveForm.FormData.name (InteractiveForm.formData st)) = None
        /\ InteractiveForm.validateEmail
             (InteractiveForm.FormData.email (InteractiveForm.formData st)) = None
        /\ InteractiveForm.validatePhone
             (InteractiveForm.FormData.phone (InteractiveForm.formData st)) = None
        /\ InteractiveForm.validatePassword
             (InteractiveForm.FormData.password (InteractiveForm.formData st)) = None)
    /\ (InteractiveForm.isSubmitted st' = false <->
        exists e, In (Some e)
                     (InteractiveForm.FormErrors.values
                        (validationOf (InteractiveForm.formData st)))).
Proof.
  eexists _, _. split; [now apply dispatch_Submit|].
  rewrite handleSubmit_state. cbn [InteractiveForm.errors InteractiveForm.touched
    InteractiveForm.formData InteractiveForm.isSubmitted].
  rewrite Hform. cbn [orb].
  split; [reflexivity|]. split; [reflexivity|]. split; [reflexivity|].
  split; split.
  - intros Hs. apply negb_true_iff, no_error_iff in Hs. exact Hs.
  - intros Hs. apply negb_true_iff, no_error_iff. exact Hs.
  - intros Hs. apply negb_false_iff, existsb_exists in Hs.
    destruct Hs as ([e|] & Hin & Hd); [eauto | discriminate].
  - intros (e & Hin). apply negb_false_iff, existsb_exists.
    exists (Some e). split; [assumption | reflexivity].
Qed.

(** An untouched, empty form is rejected on submit with all four Required
    errors shown. *)
Lemma handleSubmit_all_fields_witness :
  exists st' toasts,
    InteractiveForm.dispatch InteractiveForm.Submit InteractiveForm.mounted
    = Some (st', toasts)
    /\ InteractiveForm.errors st'
       = InteractiveForm.FormErrors.mk
           (Some "Name is required") (Some "Email is required")
           (Some "Phone number is required") (Some "Password is required").
Proof.
  destruct (@handleSubmit_all_fields InteractiveForm.mounted eq_refl)
    as (st' & toasts & Hd & He & _).
  exists st', toasts. split; [exact Hd | exact He].
Defined.

(** ** The wizard's stored strength *)

Lemma handle_keeps_strength (ev : MultiStepForm.Event) (st : MultiStepForm.State) :
  MultiStepForm.passwordStrength (fst (MultiStepForm.handle ev st))
  = MultiStepForm.passwordStrength st
  /\ MultiStepForm.passwordRequirements (fst (MultiStepForm.handle ev st))
     = MultiStepForm.passwordRequirements st.
Proof.
  destruct ev; cbn [MultiStepForm.handle]; try (split; reflexivity).
  - unfold MultiStepForm.handleEmailSubmit. destruct (truthy_opt _); split; reflexivity.
  - unfold MultiStepForm.handleOTPSubmit. destruct (truthy_opt _); split; reflexivity.
  - unfold MultiStepForm.handlePasswordSubmit. destruct (truthy_opt _); split; reflexivity.
Qed.

Lemma passwordEffect_stores (st : MultiStepForm.State) :
  MultiStepForm.FormData.password (MultiStepForm.formData st) <> [] ->
  stores_strength_of (MultiStepForm.FormData.password (MultiStepForm.formData st))
                     (MultiStepForm.passwordEffect st).
Proof.
  unfold MultiStepForm.passwordEffect. intros Hne.
  destruct (MultiStepForm.FormData.password (MultiStepForm.formData st)) as [|c v];
    [congruence|].
  split; reflexivity.
Qed.

Lemma passwordEffect_password (st : MultiStepForm.State) :
  MultiStepForm.FormData.password (MultiStepForm.formData (MultiStepForm.passwordEffect st))
  = MultiStepForm.FormData.password (MultiStepForm.formData st).
Proof.
  unfold MultiStepForm.passwordEffect. destruct (truthy _); reflexivity.
Qed.

Lemma effects_password (before after : MultiStepForm.State) :
  MultiStepForm.FormData.password (MultiStepForm.formData (MultiStepForm.effects before after))
  = MultiStepForm.FormData.password (MultiStepForm.formData after).
Proof.
  unfold MultiStepForm.effects. destruct (jsstring_eqb _ _);
    [reflexivity | apply passwordEffect_password].
Qed.

Lemma effects_nonempty_in_step (before after : MultiStepForm.State) :
  nonempty_in_step before ->
  MultiStepForm.passwordStrength after = MultiStepForm.passwordStrength before ->
  MultiStepForm.passwordRequirements after = MultiStepForm.passwordRequirements before ->
  nonempty_in_step (MultiStepForm.effects before after).
Proof.
  intros Hb Hs Hr. unfold nonempty_in_step. rewrite effects_password.
  unfold MultiStepForm.effects.
  destruct (jsstring_eqb _ _) eqn:E.
  - apply jsstring_eqb_eq in E. rewrite <- E. intros Hne.
    destruct (Hb Hne) as [H1 H2]. split; congruence.
  - apply passwordEffect_stores.
Qed.

Lemma dispatch_nonempty_in_step (ev : MultiStepForm.Event)
      (st st' : MultiStepForm.State) (toasts : list Toast) :
  nonempty_in_step st ->
  MultiStepForm.dispatch ev st = Some (st', toasts) ->
  nonempty_in_step st'.
Proof.
  intros Hst. unfold MultiStepForm.dispatch.
  destruct (MultiStepForm.rendered ev st); [|discriminate].
  pose proof (handle_keeps_strength ev st) as [Hs Hr].
  destruct (MultiStepForm.handle ev st) as [st1 t1]. cbn [fst] in Hs, Hr.
  intros [= <- _]. now apply effects_nonempty_in_step.
Qed.

Lemma run_nonempty_in_step (evs : list MultiStepForm.Event) :
  forall st st',
    nonempty_in_step st ->
    MultiStepForm.run evs st = Some st' ->
    nonempty_in_step st'.
Proof.
  induction evs as [|ev evs IH]; simpl; intros st st' Hst Hrun.
  - now injection Hrun as <-.
  - destruct (MultiStepForm.dispatch ev st) as [[st1 toasts]|] eqn:E;
      [|discriminate].
    apply (IH st1); [|assumption]. apply (dispatch_nonempty_in_step _ Hst E).
Qed.

Lemma mounted_nonempty_in_step : nonempty_in_step MultiStepForm.mounted.
Proof. intros H. now contradiction H. Qed.

(** C1, as the code has it.  In every state the wizard can reach, a
    non-empty password is stored together with its own score and checklist
    flags, whatever was typed before, and the strength panel on screen is a
    function of the current password alone.  Typing a non-empty password
    stores its score and flags; emptying the field recomputes nothing: the
    score and flags stay as they were, and the panel is off screen. *)
Theorem strength_follows_nonempty_password
        (evs : list MultiStepForm.Event) (st : MultiStepForm.State)
        (Hrun : MultiStepForm.run evs MultiStepForm.mounted = Some st) :
  (MultiStepForm.FormData.password (MultiStepForm.formData st) <> [] ->
   stores_strength_of
     (MultiStepForm.FormData.password (MultiStepForm.formData st)) st)
  /\ MultiStepForm.strengthPanel st
     = Spec.relaxedPanel
         (MultiStepForm.FormData.password (MultiStepForm.formData st))
  /\ (forall v st' toasts,
        v <> [] ->
        MultiStepForm.dispatch (MultiStepForm.ChangePassword v) st
        = Some (st', toasts) ->
        MultiStepForm.FormData.password (MultiStepForm.formData st') = v
        /\ stores_strength_of v st')
  /\ (forall st' toasts,
        MultiStepForm.dispatch (MultiStepForm.ChangePassword []) st
        = Some (st', toasts) ->
        MultiStepForm.FormData.password (MultiStepForm.formData st') = []
        /\ MultiStepForm.passwordStrength st' = MultiStepForm.passwordStrength st
        /\ MultiStepForm.passwordRequirements st'
           = MultiStepForm.passwordRequirements st
        /\ MultiStepForm.strengthPanel st' = None).
Proof.
  assert (Hin : nonempty_in_step st)
    by (apply (run_nonempty_in_step evs mounted_nonempty_in_step Hrun)).
  split; [exact Hin|]. split; [|split].
  - unfold MultiStepForm.strengthPanel, Spec.relaxedPanel.
    destruct (MultiStepForm.FormData.password (MultiStepForm.formData st))
      as [|c v] eqn:Ep; [reflexivity|]. cbn [truthy].
    destruct Hin as [Hs Hr]; [rewrite Ep; discriminate|].
    rewrite Ep in Hs, Hr. now rewrite Hs, Hr.
  - intros v st' toasts Hne Hd.
    pose proof (dispatch_nonempty_in_step _ Hin Hd) as Hin'.
    assert (Hp : MultiStepForm.FormData.password (MultiStepForm.formData st') = v).
    { unfold MultiStepForm.dispatch in Hd.
      destruct (MultiStepForm.rendered _ st); [|discriminate].
      cbn [MultiStepForm.handle] in Hd. injection Hd as <- _.
      now rewrite effects_password. }
    split; [exact Hp|]. unfold nonempty_in_step in Hin'. rewrite Hp in Hin'.
    now apply Hin'.
  - intros st' toasts Hd.
    unfold MultiStepForm.dispatch in Hd.
    destruct (MultiStepForm.rendered _ st); [|discriminate].
    cbn [MultiStepForm.handle] in Hd. injection Hd as <- _.
    unfold MultiStepForm.effects, MultiStepForm.strengthPanel.
    destruct (jsstring_eqb _ _); split; reflexivity || (repeat split).
Qed.

(** After ["abcdefgh"] is typed at the password step the panel shows its
    score of 40. *)
Lemma strength_follows_nonempty_password_witness :
  exists st,
    MultiStepForm.run typing_abcdefgh MultiStepForm.mounted = Some st
    /\ stores_strength_of (str "abcdefgh") st
    /\ MultiStepForm.strengthPanel st = Spec.relaxedPanel (str "abcdefgh").
Proof.
  eexists. split; [vm_compute; reflexivity|].
  split.
  - apply (proj1 (@strength_follows_nonempty_password typing_abcdefgh _ eq_refl)).
    discriminate.
  - apply (proj1 (proj2 (@strength_follows_nonempty_password typing_abcdefgh _ eq_refl))).
Defined.

(** The password field emptied after ["abcdefgh"]: the wizard still stores
    the score 40 and a ticked length flag, not the score 0 of the empty
    string. *)
Lemma stale_strength_after_clearing :
  exists st,
    MultiStepForm.run (typing_abcdefgh ++ [MultiStepForm.ChangePassword []])
                      MultiStepForm.mounted = Some st
    /\ MultiStepForm.FormData.password (MultiStepForm.formData st) = []
    /\ MultiStepForm.passwordStrength st = 40
    /\ MultiStepForm.strengthOf (MultiStepForm.requirementsOf []) = 0
    /\ MultiStepForm.Requirements.minLength (MultiStepForm.passwordRequirements st)
       = true
    /\ ~ stores_strength_of [] st.
Proof.
  eexists. split; [vm_compute; reflexivity|].
  repeat split. intros [H _]. vm_compute in H. discriminate.
Qed.

(** ** Colours and labels *)

(** The single-page form gives each colour of its bar one label: the
    pairing that [Spec.bandOfColor] records. *)
Lemma strict_color_and_label (st : InteractiveForm.State) :
  Spec.bandOfColor (InteractiveForm.getPasswordStrengthColor st)
  = Some (Spec.band 70 (InteractiveForm.passwordStrength st))
  /\ Spec.bandOfLabel (InteractiveForm.getPasswordStrengthLabel st)
     = Some (Spec.band 70 (InteractiveForm.passwordStrength st)).
Proof.
  unfold InteractiveForm.getPasswordStrengthColor,
    InteractiveForm.getPasswordStrengthLabel, Spec.band.
  destruct (InteractiveForm.passwordStrength st <? 40); [split; reflexivity|].
  destruct (InteractiveForm.passwordStrength st <? 70); split; reflexivity.
Qed.

(** On ["abcdefgh"] the uppercase check is the earliest that fails, although
    the digit and symbol checks fail too. *)
Lemma validatePassword_strict_first_failing_witness :
  Spec.earliestFailing Spec.strictOrder Spec.strictFails
    Spec.MissingUppercase (str "abcdefgh")
  /\ Spec.strictFails Spec.MissingDigit (str "abcdefgh")
  /\ Spec.strictFails Spec.MissingSymbol (str "abcdefgh").
Proof.
  split.
  - apply (proj1 (proj2 (proj2 validatePassword_strict_first_failing
                           (str "abcdefgh")))).
    reflexivity.
  - split; apply strictFailsb_spec; reflexivity.
Defined.

(** ["not-an-email"] is not blank and lacks the shape; [" a@b.com"] has
    it inside, is changed by trimming, and is InvalidFormat. *)
Lemma validateEmail_required_or_shape_witness :
  (trim (str "not-an-email") <> [] /\ ~ Spec.emailShape (str "not-an-email"))
  /\ Spec.verdict (InteractiveForm.validateEmail (str " a@b.com"))
     = Spec.Fails Spec.InvalidFormat.
Proof.
  assert (Hne : trim (str "not-an-email") <> []) by (vm_compute; discriminate).
  destruct validateEmail_required_or_shape
    as (_ & Hformat & _ & _ & _ & _ & _ & _ & Houter).
  split; [split; [exact Hne|]|].
  - apply (proj1 (Hformat (str "not-an-email") Hne)). reflexivity.
  - apply Houter.
    + unfold emailShapeInside. apply emailRegex_shape. reflexivity.
    + vm_compute. discriminate.
Defined.

(** ** The name and phone validators on the specification's examples *)

Example validateName_examples :
  Spec.verdict (InteractiveForm.validateName (str "")) = Spec.Fails Spec.Required
  /\ Spec.verdict (InteractiveForm.validateName (str "A")) = Spec.Fails Spec.TooShort
  /\ Spec.verdict (InteractiveForm.validateName (str "John123"))
     = Spec.Fails Spec.InvalidCharacters
  /\ InteractiveForm.validateName (str "John Doe") = None.
Proof. repeat split. Qed.

Example validatePhone_examples :
  Spec.verdict (InteractiveForm.validatePhone (str "555-123")) = Spec.Fails Spec.TooShort
  /\ InteractiveForm.validatePhone (str "+1 (555) 123-4567") = None
  /\ Spec.verdict (InteractiveForm.validatePhone (str "555 abc 1234"))
     = Spec.Fails Spec.InvalidCharacters.
Proof. repeat split. Qed.

(** * Further properties of the validators *)

Lemma forallb_false_exists (p : char -> bool) (v : jsstring) :
  forallb p v = false <-> exists c, In c v /\ p c = false.
Proof.
  induction v as [|c v IH]; simpl.
  - split; [discriminate | intros (c & [] & _)].
  - rewrite andb_false_iff, IH. split.
    + intros [Hc | (x & Hin & Hx)]; [exists c; auto | exists x; auto].
    + intros (x & [<- | Hin] & Hx); [now left | right; eauto].
Qed.

Lemma name_class (c : char) :
  mem [Range "a" "z"; Range "A" "Z"; Esc_s] c = true <-> Spec2.nameChar c.
Proof.
  unfold mem, Spec2.nameChar, Spec.isUpper, Spec.isLower; simpl existsb.
  cbn [atom_mem]. unfold in_range.
  rewrite !orb_true_iff, !andb_true_iff, !N.leb_le. intuition discriminate.
Qed.

Lemma trim_nonempty_truthy (v : jsstring) : trim v <> [] -> truthy v = true.
Proof. destruct v; [intros H; now contradiction H | reflexivity]. Qed.

Lemma validateName_cases (v : jsstring) :
  (trim v = []
   /\ Spec.verdict (InteractiveForm.validateName v) = Spec.Fails Spec.Required)
  \/ (List.length (trim v) = 1
      /\ Spec.verdict (InteractiveForm.validateName v) = Spec.Fails Spec.TooShort)
  \/ (2 <= List.length (trim v)
      /\ (exists c, In c v /\ ~ Spec2.nameChar c)
      /\ Spec.verdict (InteractiveForm.validateName v)
         = Spec.Fails Spec.InvalidCharacters)
  \/ (2 <= List.length (trim v)
      /\ (forall c, In c v -> Spec2.nameChar c)
      /\ InteractiveForm.validateName v = None).
Proof.
  unfold InteractiveForm.validateName. rewrite nameRegex_all.
  destruct (trim v) as [|a r] eqn:Et; [left; split; reflexivity|].
  right. cbn [truthy negb].
  assert (Hv : truthy v = true) by (apply trim_nonempty_truthy; congruence).
  rewrite Hv. cbn [andb].
  destruct (List.length (a :: r) <? 2) eqn:El.
  - left. apply Nat.ltb_lt in El. simpl in El |- *. split; [lia | reflexivity].
  - right. apply Nat.ltb_ge in El.
    destruct (forallb _ v) eqn:Ef; cbn [negb].
    + right. repeat split; [assumption|].
      intros c Hc. apply name_class. rewrite forallb_forall in Ef. now apply Ef.
    + left. repeat split; [assumption|].
      apply forallb_false_exists in Ef. destruct Ef as (c & Hc & Hm).
      exists c. split; [assumption|]. intros Hn. apply name_class in Hn. congruence.
Qed.

(** X1.  [validateName] answers Required when the name trims to nothing,
    TooShort when one character is left after trimming, InvalidCharacters
    when at least two are left and some character of the untrimmed name is
    neither a letter nor white space, and valid in the remaining case only:
    at least two characters after trimming, letters and white space
    throughout. *)
Theorem validateName_verdict (v : jsstring) :
  (Spec.verdict (InteractiveForm.validateName v) = Spec.Fails Spec.Required
   <-> trim v = [])
  /\ (Spec.verdict (InteractiveForm.validateName v) = Spec.Fails Spec.TooShort
      <-> List.length (trim v) = 1)
  /\ (Spec.verdict (InteractiveForm.validateName v)
      = Spec.Fails Spec.InvalidCharacters
      <-> 2 <= List.length (trim v) /\ exists c, In c v /\ ~ Spec2.nameChar c)
  /\ (InteractiveForm.validateName v = None
      <-> 2 <= List.length (trim v) /\ forall c, In c v -> Spec2.nameChar c).
Proof.
  destruct (validateName_cases v)
    as [[Ht E] | [[Ht E] | [(Ht & Hc & E) | (Ht & Hc & E)]]];
    (split; [split; intros H | split; [split; intros H |
       split; [split; intros H | split; intros H]]]);
    try (rewrite E in H; discriminate H);
    try (rewrite H in E; discriminate E);
    try exact E; try exact Ht; try (split; assumption);
    try (exfalso; rewrite Ht in H; simpl in H; (lia || discriminate H));
    try (exfalso; rewrite H in Ht; simpl in Ht; lia);
    try (exfalso; destruct H as [H _]; rewrite Ht in H; simpl in H; lia).
  - destruct H as [_ Hall]. destruct Hc as (c & Hin & Hn). exfalso.
    now apply Hn, Hall.
  - destruct H as [_ (c & Hin & Hn)]. exfalso. now apply Hn, Hc.
Qed.

Lemma phone_class (c : char) :
  mem [Esc_d; Esc_s; Single "-"; Single "+"; Single "("; Single ")"] c = true
  <-> Spec2.phoneChar c.
Proof.
  unfold mem, Spec2.phoneChar, Spec.isDigit; simpl existsb.
  cbn [atom_mem]. unfold in_range. simpl In.
  rewrite !orb_true_iff, !andb_true_iff, !N.leb_le, !N.eqb_eq.
  intuition (try discriminate; try congruence; auto).
Qed.

Lemma remove_nondigits_length (v : jsstring) :
  List.length (remove_all (not_mem [Esc_d]) v) = Spec2.digitCount v.
Proof.
  unfold remove_all. induction v as [|c v IH]; [reflexivity|].
  simpl filter. simpl Spec2.digitCount.
  assert (E : negb (not_mem [Esc_d] c) = Spec2.isDigitb c).
  { unfold not_mem, mem; simpl. rewrite orb_false_r, negb_involutive. reflexivity. }
  rewrite E. destruct (Spec2.isDigitb c); simpl; now rewrite IH.
Qed.

Lemma digit_not_space (c : char) :
  Spec2.isDigitb c = true -> isWhiteSpace c = false.
Proof.
  unfold Spec2.isDigitb. rewrite andb_true_iff, !N.leb_le. intros [H0 H9].
  change (code "0") with 48%N in H0. change (code "9") with 57%N in H9.
  destruct (isWhiteSpace c) eqn:E; [|reflexivity].
  unfold isWhiteSpace, in_range in E.
  rewrite !orb_true_iff, !andb_true_iff, !N.leb_le, !N.eqb_eq in E. lia.
Qed.

Lemma digits_not_blank (v : jsstring) :
  0 < Spec2.digitCount v -> trim v <> [].
Proof.
  intros Hd Ht. apply trim_nil in Ht. induction v as [|c v IH]; simpl in *.
  - lia.
  - apply andb_true_iff in Ht. destruct Ht as [Hc Hv].
    destruct (Spec2.isDigitb c) eqn:E.
    + apply digit_not_space in E. congruence.
    + apply IH; [simpl in Hd; lia | assumption].
Qed.

Lemma validatePhone_cases (v : jsstring) :
  (trim v = []
   /\ Spec.verdict (InteractiveForm.validatePhone v) = Spec.Fails Spec.Required)
  \/ (trim v <> []
      /\ (exists c, In c v /\ ~ Spec2.phoneChar c)
      /\ Spec.verdict (InteractiveForm.validatePhone v)
         = Spec.Fails Spec.InvalidCharacters)
  \/ (trim v <> []
      /\ (forall c, In c v -> Spec2.phoneChar c)
      /\ Spec2.digitCount v < 10
      /\ Spec.verdict (InteractiveForm.validatePhone v) = Spec.Fails Spec.TooShort)
  \/ (trim v <> []
      /\ (forall c, In c v -> Spec2.phoneChar c)
      /\ 10 <= Spec2.digitCount v
      /\ InteractiveForm.validatePhone v = None).
Proof.
  unfold InteractiveForm.validatePhone.
  rewrite phoneRegex_all, remove_nondigits_length.
  destruct (trim v) as [|a r] eqn:Et; [left; split; reflexivity|].
  right. cbn [truthy negb].
  assert (Hne : a :: r <> []) by discriminate.
  assert (Hv : truthy v = true) by (apply trim_nonempty_truthy; congruence).
  rewrite Hv. cbn [andb].
  destruct (forallb _ v) eqn:Ef; cbn [negb].
  - right. rewrite forallb_forall in Ef.
    assert (Hall : forall c, In c v -> Spec2.phoneChar c)
      by (intros c Hc; now apply phone_class, Ef).
    destruct (Spec2.digitCount v <? 10) eqn:El.
    + left. apply Nat.ltb_lt in El. repeat split; assumption.
    + right. apply Nat.ltb_ge in El. repeat split; assumption.
  - left. apply forallb_false_exists in Ef. destruct Ef as (c & Hc & Hm).
    repeat split; [assumption|].
    exists c. split; [assumption|]. intros Hn. apply phone_class in Hn. congruence.
Qed.

(** X2.  [validatePhone] answers Required when the value trims to nothing,
    InvalidCharacters when it does not and some character is not a digit,
    white space or one of [-+()], TooShort when every character is allowed
    but fewer than ten of them are digits, and valid exactly when every
    character is allowed and at least ten are digits. *)
Theorem validatePhone_verdict (v : jsstring) :
  (Spec.verdict (InteractiveForm.validatePhone v) = Spec.Fails Spec.Required
   <-> trim v = [])
  /\ (Spec.verdict (InteractiveForm.validatePhone v)
      = Spec.Fails Spec.InvalidCharacters
      <-> trim v <> [] /\ exists c, In c v /\ ~ Spec2.phoneChar c)
  /\ (Spec.verdict (InteractiveForm.validatePhone v) = Spec.Fails Spec.TooShort
      <-> trim v <> [] /\ (forall c, In c v -> Spec2.phoneChar c)
          /\ Spec2.digitCount v < 10)
  /\ (InteractiveForm.validatePhone v = None
      <-> (forall c, In c v -> Spec2.phoneChar c) /\ 10 <= Spec2.digitCount v).
Proof.
  assert (Hbad : (exists c, In c v /\ ~ Spec2.phoneChar c) ->
                 (forall c, In c v -> Spec2.phoneChar c) -> False).
  { intros (c & Hin & Hn) Hall. now apply Hn, Hall. }
  destruct (validatePhone_cases v)
    as [[Ht E] | [(Ht & Hc & E) | [(Ht & Hc & Hd & E) | (Ht & Hc & Hd & E)]]];
    (split; [split; intros H | split; [split; intros H |
       split; [split; intros H | split; intros H]]]);
    try (rewrite E in H; discriminate H);
    try (rewrite H in E; discriminate E);
    try exact E; try exact Ht; try (repeat split; assumption);
    try contradiction;
    try (exfalso; destruct H as [H _]; contradiction);
    try (exfalso; destruct H as (_ & H & _); now apply Hbad);
    try (exfalso; destruct H as (_ & _ & H); lia);
    try (exfalso; destruct H as (H & _); now apply Hbad);
    try (exfalso; destruct H as (_ & H); lia).
  - exfalso. destruct H as [_ H]. apply (@digits_not_blank v); [lia | assumption].
  - exfalso. destruct H as [_ H]. now apply Hbad.
  - exfalso. destruct H as [_ H]. now apply Hbad.
Qed.

(** ** The relaxed password validator *)

Lemma relaxedFailsb_spec (k : Spec.ErrorKind) (v : jsstring) :
  Spec2.relaxedFailsb k v = true <-> Spec2.relaxedFails k v.
Proof.
  destruct k; cbn [Spec2.relaxedFailsb Spec2.relaxedFails];
    try apply strictFailsb_spec; (split; [discriminate | tauto]).
Qed.

Lemma relaxed_checks_decided (v : jsstring) :
  test MultiStepForm.digitRegex v = negb (Spec.strictFailsb Spec.MissingDigit v) /\
  test MultiStepForm.symbolRegex v = negb (Spec.strictFailsb Spec.MissingSymbol v).
Proof.
  destruct (strict_checks_decided v) as (_ & _ & _ & _ & Hd & Hs).
  split; [exact Hd | exact Hs].
Qed.

Lemma validatePassword_relaxed_find (v : jsstring) :
  Spec.verdict (MultiStepForm.validatePassword v) =
  match find (fun k => Spec2.relaxedFailsb k v) Spec2.relaxedOrder with
  | Some k => Spec.Fails k
  | None => Spec.Valid
  end.
Proof.
  unfold MultiStepForm.validatePassword, Spec2.relaxedOrder.
  destruct (relaxed_checks_decided v) as (-> & ->).
  destruct (strict_checks_decided v) as (-> & -> & _).
  cbn [find Spec2.relaxedFailsb]. rewrite !negb_involutive.
  destruct (Spec.strictFailsb Spec.Required v); [reflexivity|].
  destruct (Spec.strictFailsb Spec.TooShort v); [reflexivity|].
  destruct (Spec.strictFailsb Spec.MissingDigit v); [reflexivity|].
  destruct (Spec.strictFailsb Spec.MissingSymbol v); reflexivity.
Qed.

(** X3.  The wizard's [validatePassword] runs the checks Required,
    TooShort (length < 8), MissingDigit, MissingSymbol in that order and
    reports the first that fails; it has no letter-case check, and it
    answers valid exactly when none of the four fails. *)
Theorem validatePassword_relaxed_first_failing (v : jsstring) :
  (MultiStepForm.validatePassword v = None <->
   forall k, In k Spec2.relaxedOrder -> ~ Spec2.relaxedFails k v)
  /\ (forall k,
        Spec.verdict (MultiStepForm.validatePassword v) = Spec.Fails k <->
        Spec.earliestFailing Spec2.relaxedOrder Spec2.relaxedFails k v)
  /\ Spec.verdict (MultiStepForm.validatePassword v)
     <> Spec.Fails Spec.MissingUppercase
  /\ Spec.verdict (MultiStepForm.validatePassword v)
     <> Spec.Fails Spec.MissingLowercase.
Proof.
  assert (Hnone : MultiStepForm.validatePassword v = None <->
                  Spec.verdict (MultiStepForm.validatePassword v) = Spec.Valid).
  { split; [intros ->; reflexivity|].
    unfold MultiStepForm.validatePassword.
    destruct (negb (truthy v)); [discriminate|].
    destruct (List.length v <? 8); [discriminate|].
    destruct (negb (test MultiStepForm.digitRegex v)); [discriminate|].
    destruct (negb (test MultiStepForm.symbolRegex v)); [discriminate | reflexivity]. }
  rewrite Hnone, validatePassword_relaxed_find.
  destruct (find (fun k => Spec2.relaxedFailsb k v) Spec2.relaxedOrder)
    as [k0|] eqn:E.
  - pose proof E as E'. apply find_earliest in E'.
    destruct E' as (b & a & Eo & Hk & Hb).
    assert (Hin0 : In k0 Spec2.relaxedOrder)
      by (rewrite Eo; apply in_or_app; right; now left).
    split; [|split; [|split]].
    + split; [discriminate|]. intros H. exfalso. apply (H k0 Hin0).
      now apply relaxedFailsb_spec.
    + intros k. split.
      * intros [= <-]. exists b, a. repeat split; auto.
        -- now apply relaxedFailsb_spec.
        -- intros k' Hin Hf. apply relaxedFailsb_spec in Hf.
           rewrite (Hb k' Hin) in Hf. discriminate.
      * intros (b' & a' & Eo' & Hk' & Hb').
        assert (E2 : find (fun k => Spec2.relaxedFailsb k v) Spec2.relaxedOrder
                     = Some k).
        { apply find_earliest. exists b', a'. repeat split; auto.
          - now apply relaxedFailsb_spec.
          - intros k' Hin. specialize (Hb' k' Hin).
            destruct (Spec2.relaxedFailsb k' v) eqn:Ef; [|reflexivity].
            apply relaxedFailsb_spec in Ef. contradiction. }
        congruence.
    + intros [= ->]. simpl in Hin0. intuition discriminate.
    + intros [= ->]. simpl in Hin0. intuition discriminate.
  - pose proof E as E'. rewrite find_none_iff in E'.
    split; [|split; [|split]]; try discriminate.
    + split; [|reflexivity]. intros _ k Hin Hf. apply relaxedFailsb_spec in Hf.
      rewrite (E' k Hin) in Hf. discriminate.
    + intros k. split; [discriminate|].
      intros (b & a & Eo & Hk & _). apply relaxedFailsb_spec in Hk.
      rewrite (E' k) in Hk; [discriminate|].
      rewrite Eo. apply in_or_app. right. now left.
Qed.

Lemma relaxed_valid_checks (v : jsstring) :
  MultiStepForm.validatePassword v = None <->
  MultiStepForm.requirementsOf v = MultiStepForm.Requirements.mk true true true.
Proof.
  unfold MultiStepForm.validatePassword, MultiStepForm.requirementsOf.
  rewrite Nat.ltb_antisym.
  destruct v as [|c v]; [split; discriminate|]. cbn [truthy negb].
  destruct (8 <=? List.length (c :: v)); cbn [negb]; [|split; discriminate].
  destruct (test MultiStepForm.digitRegex (c :: v)); cbn [negb];
    [|split; discriminate].
  destruct (test MultiStepForm.symbolRegex (c :: v)); cbn [negb];
    split; congruence.
Qed.

(** X4.  The wizard accepts a password exactly when its strength is 100,
    which is exactly when the strength bar has the Strong colour: the
    relaxed score takes only the values 0, 30, 40, 60, 70 and 100. *)
Theorem relaxed_valid_iff_full_strength (v : jsstring) :
  (MultiStepForm.validatePassword v = None <-> Spec2.relaxedStrength v = 100)
  /\ (MultiStepForm.validatePassword v = None <->
      MultiStepForm.strengthBarColor (Spec2.relaxedStrength v) = "bg-success")
  /\ In (Spec2.relaxedStrength v) [0; 30; 40; 60; 70; 100].
Proof.
  rewrite relaxed_valid_checks. unfold Spec2.relaxedStrength.
  destruct (MultiStepForm.requirementsOf v) as [[] [] []];
    cbn; repeat split; intros; try congruence; try discriminate; tauto.
Qed.

(** ** The two password policies side by side *)

Lemma strict_valid_iff (v : jsstring) :
  InteractiveForm.validatePassword v = None <->
  (8 <=? List.length v) = true
  /\ test InteractiveForm.upperRegex v = true
  /\ test InteractiveForm.lowerRegex v = true
  /\ test InteractiveForm.digitRegex v = true
  /\ test InteractiveForm.symbolRegex v = true.
Proof.
  split; [apply strict_valid_checks|].
  intros (H8 & Hu & Hl & Hd & Hs). unfold InteractiveForm.validatePassword.
  rewrite Nat.ltb_antisym, H8, Hu, Hl, Hd, Hs.
  destruct v; [discriminate H8 | reflexivity].
Qed.

(** X5.  The strict policy is the stronger one: a password the single-page
    form accepts is accepted by the wizard, and when the wizard rejects a
    password the single-page form rejects it too, for the same reason
    unless it stops earlier at a missing uppercase or lowercase letter. *)
Theorem strict_policy_implies_relaxed (v : jsstring) :
  (InteractiveForm.validatePassword v = None ->
   MultiStepForm.validatePassword v = None)
  /\ (forall k,
        Spec.verdict (MultiStepForm.validatePassword v) = Spec.Fails k ->
        Spec.verdict (InteractiveForm.validatePassword v) = Spec.Fails k
        \/ Spec.verdict (InteractiveForm.validatePassword v)
           = Spec.Fails Spec.MissingUppercase
        \/ Spec.verdict (InteractiveForm.validatePassword v)
           = Spec.Fails Spec.MissingLowercase).
Proof.
  split.
  - intros H. apply strict_valid_iff in H. destruct H as (H8 & _ & _ & Hd & Hs).
    apply relaxed_valid_checks. unfold MultiStepForm.requirementsOf.
    rewrite H8. change (test MultiStepForm.digitRegex v)
      with (test InteractiveForm.digitRegex v).
    change (test MultiStepForm.symbolRegex v)
      with (test InteractiveForm.symbolRegex v).
    now rewrite Hd, Hs.
  - intros k. rewrite validatePassword_relaxed_find, validatePassword_find.
    unfold Spec2.relaxedOrder, Spec.strictOrder.
    cbn [find Spec2.relaxedFailsb].
    destruct (Spec.strictFailsb Spec.Required v); [auto|].
    destruct (Spec.strictFailsb Spec.TooShort v); [auto|].
    destruct (Spec.strictFailsb Spec.MissingUppercase v); [auto|].
    destruct (Spec.strictFailsb Spec.MissingLowercase v); [auto|].
    destruct (Spec.strictFailsb Spec.MissingDigit v); [auto|].
    destruct (Spec.strictFailsb Spec.MissingSymbol v); [auto | discriminate].
Qed.

(** ["Abcdefg1!"] passes both validators; ["short1!"] is too short for
    both. *)
Lemma strict_policy_implies_relaxed_witness :
  MultiStepForm.validatePassword (str "Abcdefg1!") = None
  /\ (Spec.verdict (InteractiveForm.validatePassword (str "short1!"))
      = Spec.Fails Spec.TooShort
      \/ Spec.verdict (InteractiveForm.validatePassword (str "short1!"))
         = Spec.Fails Spec.MissingUppercase
      \/ Spec.verdict (InteractiveForm.validatePassword (str "short1!"))
         = Spec.Fails Spec.MissingLowercase).
Proof.
  split.
  - apply (proj1 (strict_policy_implies_relaxed (str "Abcdefg1!"))). reflexivity.
  - apply (proj2 (strict_policy_implies_relaxed (str "short1!"))). reflexivity.
Defined.

(** X6.  The strict score reaches 100 exactly for the passwords that the
    strict validator accepts and that have at least twelve characters. *)
Theorem strict_full_strength (v : jsstring) :
  InteractiveForm.calculatePasswordStrength v = 100 <->
  InteractiveForm.validatePassword v = None /\ 12 <= List.length v.
Proof.
  rewrite strict_valid_iff, calculatePasswordStrength_sum, <- Nat.leb_le.
  destruct (12 <=? List.length v) eqn:E12.
  - assert (H8 : (8 <=? List.length v) = true)
      by (apply Nat.leb_le; apply Nat.leb_le in E12; lia).
    rewrite H8.
    destruct (test InteractiveForm.upperRegex v),
      (test InteractiveForm.lowerRegex v),
      (test InteractiveForm.digitRegex v),
      (test InteractiveForm.symbolRegex v); simpl;
      (split; [intros H; try discriminate H; auto 10 | intros H; intuition discriminate]).
  - split; [|intros [_ H]; discriminate H].
    destruct (8 <=? List.length v),
      (test InteractiveForm.upperRegex v),
      (test InteractiveForm.lowerRegex v),
      (test InteractiveForm.digitRegex v),
      (test InteractiveForm.symbolRegex v); simpl; intros H; discriminate H.
Qed.

(** ** Longer passwords *)

Lemma search_extend (l : list atom) (pre v post : jsstring) :
  test (Pattern false (OneOf l) false) v = true ->
  test (Pattern false (OneOf l) false) (pre ++ v ++ post) = true.
Proof.
  unfold OneOf. rewrite !test_search_cls, !existsb_app.
  intros ->. now rewrite orb_true_r.
Qed.

Lemma length_extend (n : nat) (pre v post : jsstring) :
  (n <=? List.length v) = true ->
  (n <=? List.length (pre ++ v ++ post)) = true.
Proof.
  rewrite !Nat.leb_le, !length_app. lia.
Qed.

Lemma points_mono (w : nat) (b b' : bool) :
  (b = true -> b' = true) ->
  (if b then w else 0) <= (if b' then w else 0).
Proof.
  destruct b, b'; intros H;
    first [lia | specialize (H eq_refl); discriminate H].
Qed.

(** X7.  Characters added in front of or behind a password never lower its
    score, under either policy, and never turn an accepted password into a
    rejected one. *)
Theorem longer_password_no_weaker (pre v post : jsstring) :
  InteractiveForm.calculatePasswordStrength v
  <= InteractiveForm.calculatePasswordStrength (pre ++ v ++ post)
  /\ Spec2.relaxedStrength v <= Spec2.relaxedStrength (pre ++ v ++ post)
  /\ (InteractiveForm.validatePassword v = None ->
      InteractiveForm.validatePassword (pre ++ v ++ post) = None)
  /\ (MultiStepForm.validatePassword v = None ->
      MultiStepForm.validatePassword (pre ++ v ++ post) = None).
Proof.
  split; [|split; [|split]].
  - rewrite !calculatePasswordStrength_sum.
    repeat apply Nat.add_le_mono; apply points_mono;
      first [apply length_extend | apply search_extend].
  - unfold Spec2.relaxedStrength. rewrite !strengthOf_sum.
    cbn [MultiStepForm.requirementsOf MultiStepForm.Requirements.minLength
         MultiStepForm.Requirements.hasNumber MultiStepForm.Requirements.hasSymbol].
    repeat apply Nat.add_le_mono; apply points_mono;
      first [apply length_extend | apply search_extend].
  - rewrite !strict_valid_iff. intros (H8 & Hu & Hl & Hd & Hs).
    repeat split; first [now apply length_extend | now apply search_extend].
  - rewrite !relaxed_valid_checks. unfold MultiStepForm.requirementsOf.
    intros [= H8 Hd Hs]. change ((8 <=? List.length v) = true) in H8.
    f_equal;
      [exact (length_extend _ pre v post H8)
      | exact (search_extend _ pre v post Hd)
      | exact (search_extend _ pre v post Hs)].
Qed.

(** ["Abcdef1!"] stays valid with characters around it. *)
Lemma longer_password_no_weaker_witness :
  InteractiveForm.validatePassword (str "  " ++ str "Abcdef1!" ++ str "xyz") = None.
Proof.
  apply (proj1 (proj2 (proj2 (longer_password_no_weaker
                                (str "  ") (str "Abcdef1!") (str "xyz"))))).
  reflexivity.
Defined.

(** ** Accepted emails *)

(** X8.  An email that [validateEmail] accepts has at least five
    characters and is left as it is by [trim]: the validator never accepts
    a value that trimming would change. *)
Theorem valid_email_is_trimmed (v : jsstring)
        (Hvalid : InteractiveForm.validateEmail v = None) :
  trim v = v /\ 5 <= List.length v.
Proof.
  assert (Hs : Spec.emailShape v).
  { apply emailRegex_shape. rewrite validateEmail_cases in Hvalid.
    destruct (negb (truthy (trim v))); [discriminate|].
    destruct (test InteractiveForm.emailRegex v); [reflexivity | discriminate]. }
  destruct Hs as (l & d & t & Ev & Hl & Hd & Ht & Hw & _).
  split; [now apply trim_clean|].
  subst v. rewrite length_app. simpl. rewrite length_app. simpl.
  destruct l; [congruence|]. destruct d; [congruence|]. destruct t; [congruence|].
  simpl. lia.
Qed.

(** ["a@b.c"], the shortest email there is. *)
Lemma valid_email_is_trimmed_witness :
  trim (str "a@b.c") = str "a@b.c" /\ 5 <= List.length (str "a@b.c").
Proof. apply valid_email_is_trimmed. reflexivity. Defined.

(** The converse fails: the wizard accepts ["abcdefg1!"], the single-page
    form wants an uppercase letter. *)
Lemma relaxed_valid_not_strict_valid :
  MultiStepForm.validatePassword (str "abcdefg1!") = None
  /\ Spec.verdict (InteractiveForm.validatePassword (str "abcdefg1!"))
     = Spec.Fails Spec.MissingUppercase.
Proof. split; reflexivity. Qed.

(** * Further properties of the single-page form *)

Lemma effects_frame (newObject : bool) (before after : InteractiveForm.State) :
  InteractiveForm.formData (InteractiveForm.effects newObject before after)
  = InteractiveForm.formData after
  /\ InteractiveForm.touched (InteractiveForm.effects newObject before after)
     = InteractiveForm.touched after
  /\ InteractiveForm.isSubmitted (InteractiveForm.effects newObject before after)
     = InteractiveForm.isSubmitted after
  /\ InteractiveForm.showPassword (InteractiveForm.effects newObject before after)
     = InteractiveForm.showPassword after.
Proof.
  unfold InteractiveForm.effects.
  destruct newObject; simpl; destruct (jsstring_eqb _ _); repeat split.
Qed.

Lemma realTimeValidation_in_step (st : InteractiveForm.State) :
  errors_in_step (InteractiveForm.realTimeValidation st).
Proof.
  unfold errors_in_step, InteractiveForm.realTimeValidation, gatedValidation.
  cbn [InteractiveForm.errors InteractiveForm.formData InteractiveForm.touched].
  now rewrite (keep_truthy _ (validateName_truthy _)),
    (keep_truthy _ (validateEmail_truthy_form _)),
    (keep_truthy _ (validatePhone_truthy _)),
    (keep_truthy _ (validatePassword_truthy _)).
Qed.

Lemma effects_errors_in_step (before after : InteractiveForm.State) :
  errors_in_step (InteractiveForm.effects true before after).
Proof.
  unfold InteractiveForm.effects.
  pose proof (realTimeValidation_in_step after) as H.
  destruct (jsstring_eqb _ _); exact H.
Qed.

Lemma effects_errors_kept (before after : InteractiveForm.State) :
  errors_in_step after ->
  errors_in_step (InteractiveForm.effects false before after).
Proof.
  unfold InteractiveForm.effects. intros H.
  destruct (jsstring_eqb _ _); exact H.
Qed.

Lemma dispatch_errors_in_step (ev : InteractiveForm.Event)
      (st st' : InteractiveForm.State) (toasts : list Toast) :
  errors_in_step st ->
  InteractiveForm.dispatch ev st = Some (st', toasts) ->
  errors_in_step st'.
Proof.
  intros Hst. unfold InteractiveForm.dispatch.
  destruct (InteractiveForm.rendered ev st); [|discriminate].
  destruct ev.
  - intros [= <- _]. apply effects_errors_in_step.
  - intros [= <- _]. apply effects_errors_in_step.
  - destruct (InteractiveForm.handleSubmit st).
    intros [= <- _]. apply effects_errors_in_step.
  - intros [= <- _]. now apply effects_errors_kept.
  - intros [= <- _]. apply effects_errors_in_step.
Qed.

Lemma run_errors_in_step (evs : list InteractiveForm.Event) :
  forall st st',
    errors_in_step st ->
    InteractiveForm.run evs st = Some st' ->
    errors_in_step st'.
Proof.
  induction evs as [|ev evs IH]; simpl; intros st st' Hst Hrun.
  - now injection Hrun as <-.
  - destruct (InteractiveForm.dispatch ev st) as [[st1 toasts]|] eqn:E;
      [|discriminate].
    apply (IH st1); [|assumption]. apply (dispatch_errors_in_step _ Hst E).
Qed.

(** X9.  Whatever the user has done, the single-page form shows for each
    touched field exactly what its validator says about the current value,
    and shows nothing for a field that was never left. *)
Theorem errors_follow_touched_fields
        (evs : list InteractiveForm.Event) (st : InteractiveForm.State)
        (Hrun : InteractiveForm.run evs InteractiveForm.mounted = Some st) :
  InteractiveForm.errors st
  = gatedValidation (InteractiveForm.formData st) (InteractiveForm.touched st).
Proof.
  apply (run_errors_in_step evs (st := InteractiveForm.mounted));
    [reflexivity | exact Hrun].
Qed.

(** A bad email typed and left, a bad name typed but not left: the email
    error shows, the name error does not. *)
Lemma errors_follow_touched_fields_witness :
  exists st,
    InteractiveForm.run
      [InteractiveForm.Change InteractiveForm.email (str "nobody");
       InteractiveForm.Blur InteractiveForm.email;
       InteractiveForm.Change InteractiveForm.name (str "4")]
      InteractiveForm.mounted = Some st
    /\ InteractiveForm.errors st
       = InteractiveForm.FormErrors.mk
           None (Some "Please enter a valid email address") None None.
Proof.
  eexists. split; [vm_compute; reflexivity|].
  etransitivity;
    [exact (@errors_follow_touched_fields
              [InteractiveForm.Change InteractiveForm.email (str "nobody");
               InteractiveForm.Blur InteractiveForm.email;
               InteractiveForm.Change InteractiveForm.name (str "4")]
              _ eq_refl)
    | reflexivity].
Defined.

(** X10.  Whatever the user has done, the single-page form stores the strict
    score of the password it currently holds; after the field is emptied
    or the form is reset the stored score is 0. *)
Theorem stored_strength_is_current_score
        (evs : list InteractiveForm.Event) (st : InteractiveForm.State)
        (Hrun : InteractiveForm.run evs InteractiveForm.mounted = Some st) :
  InteractiveForm.passwordStrength st
  = InteractiveForm.calculatePasswordStrength
      (InteractiveForm.FormData.password (InteractiveForm.formData st))
  /\ (InteractiveForm.FormData.password (InteractiveForm.formData st) = [] ->
      InteractiveForm.passwordStrength st = 0).
Proof.
  assert (H : strength_in_step st)
    by (apply (run_in_step evs (st := InteractiveForm.mounted));
        [reflexivity | exact Hrun]).
  split; [exact H|]. intros Hp. unfold strength_in_step in H.
  rewrite Hp in H. exact H.
Qed.

(** A password typed and deleted again leaves the score 0 behind. *)
Lemma stored_strength_is_current_score_witness :
  exists st,
    InteractiveForm.run
      [InteractiveForm.Change InteractiveForm.password (str "Abc12345!");
       InteractiveForm.Change InteractiveForm.password []]
      InteractiveForm.mounted = Some st
    /\ InteractiveForm.passwordStrength st = 0.
Proof.
  eexists. split; [vm_compute; reflexivity|].
  apply (proj2 (@stored_strength_is_current_score
                  [InteractiveForm.Change InteractiveForm.password (str "Abc12345!");
                   InteractiveForm.Change InteractiveForm.password []]
                  _ eq_refl)).
  reflexivity.
Defined.

Lemma validationOf_empty (fd : InteractiveForm.FormData.t) :
  existsb defined (InteractiveForm.FormErrors.values (validationOf fd)) = false
  <-> validationOf fd = InteractiveForm.FormErrors.empty.
Proof.
  rewrite no_error_iff. destruct (validationOf fd) as [n e p w]. simpl.
  unfold InteractiveForm.FormErrors.empty. split.
  - intros (-> & -> & -> & ->). reflexivity.
  - intros [= -> -> -> ->]. auto.
Qed.

Lemma rendered_form (ev : InteractiveForm.Event) (st : InteractiveForm.State) :
  ev <> InteractiveForm.SubmitAnother ->
  InteractiveForm.rendered ev st = negb (InteractiveForm.isSubmitted st).
Proof. destruct ev; intros H; try reflexivity. now contradiction H. Qed.

Lemma dispatch_submitted_valid (ev : InteractiveForm.Event)
      (st st' : InteractiveForm.State) (toasts : list Toast) :
  InteractiveForm.dispatch ev st = Some (st', toasts) ->
  submitted_valid st'.
Proof.
  unfold submitted_valid. intros Hd Hsub.
  destruct (InteractiveForm.isSubmitted st) eqn:Es.
  - (* only the reset button is on screen *)
    unfold InteractiveForm.dispatch in Hd.
    destruct ev; simpl InteractiveForm.rendered in Hd; rewrite Es in Hd;
      try discriminate Hd.
    injection Hd as <- _.
    destruct (effects_frame true st (InteractiveForm.submitAnother st))
      as (_ & _ & Hi & _).
    rewrite Hi in Hsub. discriminate Hsub.
  - destruct ev.
    + unfold InteractiveForm.dispatch in Hd. simpl InteractiveForm.rendered in Hd.
      rewrite Es in Hd. injection Hd as <- _.
      destruct (effects_frame true st
                  (InteractiveForm.handleInputChange field value st))
        as (_ & _ & Hi & _).
      rewrite Hi in Hsub. simpl in Hsub. congruence.
    + unfold InteractiveForm.dispatch in Hd. simpl InteractiveForm.rendered in Hd.
      rewrite Es in Hd. injection Hd as <- _.
      destruct (effects_frame true st (InteractiveForm.handleBlur field st))
        as (_ & _ & Hi & _).
      rewrite Hi in Hsub. simpl in Hsub. congruence.
    + rewrite (dispatch_Submit st Es) in Hd. injection Hd as <- _.
      rewrite handleSubmit_state in Hsub |- *.
      cbn [InteractiveForm.isSubmitted InteractiveForm.formData] in Hsub |- *.
      rewrite Es in Hsub. cbn [orb] in Hsub.
      apply negb_true_iff in Hsub. now apply validationOf_empty.
    + unfold InteractiveForm.dispatch in Hd. simpl InteractiveForm.rendered in Hd.
      rewrite Es in Hd. injection Hd as <- _.
      destruct (effects_frame false st (InteractiveForm.toggleShowPassword st))
        as (_ & _ & Hi & _).
      rewrite Hi in Hsub. simpl in Hsub. congruence.
    + unfold InteractiveForm.dispatch in Hd. simpl InteractiveForm.rendered in Hd.
      rewrite Es in Hd. discriminate Hd.
Qed.

Lemma run_submitted_valid (evs : list InteractiveForm.Event) :
  forall st st',
    submitted_valid st ->
    InteractiveForm.run evs st = Some st' ->
    submitted_valid st'.
Proof.
  induction evs as [|ev evs IH]; simpl; intros st st' Hst Hrun.
  - now injection Hrun as <-.
  - destruct (InteractiveForm.dispatch ev st) as [[st1 toasts]|] eqn:E;
      [|discriminate].
    apply (IH st1); [|assumption]. apply (dispatch_submitted_valid _ _ E).
Qed.

(** X11.  The single-page form shows its success screen only over data
    that all four validators accept, whatever path led there. *)
Theorem success_screen_over_valid_data
        (evs : list InteractiveForm.Event) (st : InteractiveForm.State)
        (Hrun : InteractiveForm.run evs InteractiveForm.mounted = Some st)
        (Hsub : InteractiveForm.isSubmitted st = true) :
  InteractiveForm.validateName
    (InteractiveForm.FormData.name (InteractiveForm.formData st)) = None
  /\ InteractiveForm.validateEmail
       (InteractiveForm.FormData.email (InteractiveForm.formData st)) = None
  /\ InteractiveForm.validatePhone
       (InteractiveForm.FormData.phone (InteractiveForm.formData st)) = None
  /\ InteractiveForm.validatePassword
       (InteractiveForm.FormData.password (InteractiveForm.formData st)) = None.
Proof.
  assert (H : submitted_valid st).
  { apply (run_submitted_valid evs (st := InteractiveForm.mounted));
      [intros Hs; discriminate Hs | exact Hrun]. }
  specialize (H Hsub). apply validationOf_empty, no_error_iff in H. exact H.
Qed.

Lemma dispatch_Change (field : InteractiveForm.Field) (value : jsstring)
      (st : InteractiveForm.State) :
  InteractiveForm.isSubmitted st = false ->
  exists st',
    InteractiveForm.dispatch (InteractiveForm.Change field value) st
    = Some (st', [])
    /\ InteractiveForm.isSubmitted st' = false
    /\ InteractiveForm.formData st'
       = InteractiveForm.formData
           (InteractiveForm.handleInputChange field value st).
Proof.
  intros Es. unfold InteractiveForm.dispatch. simpl InteractiveForm.rendered.
  rewrite Es. cbn [negb]. eexists. split; [reflexivity|].
  destruct (effects_frame true st
              (InteractiveForm.handleInputChange field value st))
    as (Hf & _ & Hi & _).
  rewrite Hf, Hi. split; [exact Es | reflexivity].
Qed.

(** X12.  From any state of the form that is on screen, typing the four
    fields and pressing submit leaves exactly the typed values in the form,
    and ends on the success screen exactly when all four values are
    valid. *)
Theorem fill_and_submit_outcome (n e p w : jsstring)
        (st0 : InteractiveForm.State)
        (Hform : InteractiveForm.isSubmitted st0 = false) :
  exists st,
    InteractiveForm.run (fill_and_submit n e p w) st0 = Some st
    /\ InteractiveForm.formData st = InteractiveForm.FormData.mk n e p w
    /\ (InteractiveForm.isSubmitted st = true <->
        InteractiveForm.validateName n = None
        /\ InteractiveForm.validateEmail e = None
        /\ InteractiveForm.validatePhone p = None
        /\ InteractiveForm.validatePassword w = None).
Proof.
  unfold fill_and_submit. cbn [InteractiveForm.run].
  destruct (dispatch_Change InteractiveForm.name n st0 Hform)
    as (st1 & -> & H1 & F1).
  destruct (dispatch_Change InteractiveForm.email e st1 H1)
    as (st2 & -> & H2 & F2).
  destruct (dispatch_Change InteractiveForm.phone p st2 H2)
    as (st3 & -> & H3 & F3).
  destruct (dispatch_Change InteractiveForm.password w st3 H3)
    as (st4 & -> & H4 & F4).
  rewrite (dispatch_Submit st4 H4). eexists. split; [reflexivity|].
  rewrite handleSubmit_state.
  cbn [InteractiveForm.formData InteractiveForm.isSubmitted].
  assert (F : InteractiveForm.formData st4 = InteractiveForm.FormData.mk n e p w).
  { rewrite F4. cbn. rewrite F3. cbn. rewrite F2. cbn. rewrite F1. reflexivity. }
  rewrite F, H4. cbn [orb]. split; [reflexivity|].
  rewrite negb_true_iff, no_error_iff. reflexivity.
Qed.

(** A well-filled form ends on the success screen. *)
Lemma fill_and_submit_outcome_witness :
  exists st,
    InteractiveForm.run
      (fill_and_submit (str "John Doe") (str "a@b.com")
                       (str "+1 (555) 123-4567") (str "Abc12345!"))
      InteractiveForm.mounted = Some st
    /\ InteractiveForm.isSubmitted st = true.
Proof.
  destruct (@fill_and_submit_outcome
              (str "John Doe") (str "a@b.com") (str "+1 (555) 123-4567")
              (str "Abc12345!") InteractiveForm.mounted eq_refl)
    as (st & Hrun & _ & Hsub).
  exists st. split; [exact Hrun|]. apply Hsub. repeat split.
Defined.

(** The success screen reached by the well-filled form holds a valid
    name. *)
Lemma success_screen_over_valid_data_witness :
  exists st,
    InteractiveForm.run
      (fill_and_submit (str "John Doe") (str "a@b.com")
                       (str "+1 (555) 123-4567") (str "Abc12345!"))
      InteractiveForm.mounted = Some st
    /\ InteractiveForm.validateName
         (InteractiveForm.FormData.name (InteractiveForm.formData st)) = None.
Proof.
  pose (evs := fill_and_submit (str "John Doe") (str "a@b.com")
                               (str "+1 (555) 123-4567") (str "Abc12345!")).
  let r := eval vm_compute in (InteractiveForm.run evs InteractiveForm.mounted) in
  match r with
  | Some ?st =>
      exists st; split;
      [ vm_compute; reflexivity
      | refine (proj1 (@success_screen_over_valid_data evs st _ _));
        vm_compute; reflexivity ]
  end.
Defined.

(** X13.  [Submit Another Form], pressed on the success screen, brings the
    form back to its first state: empty fields, nothing touched, no error,
    score 0; only the show-password switch keeps its position. *)
Theorem submitAnother_resets
        (evs : list InteractiveForm.Event) (st : InteractiveForm.State)
        (Hrun : InteractiveForm.run evs InteractiveForm.mounted = Some st)
        (Hsub : InteractiveForm.isSubmitted st = true) :
  InteractiveForm.dispatch InteractiveForm.SubmitAnother st
  = Some (InteractiveForm.mkState
            (InteractiveForm.FormData.mk [] [] [] [])
            InteractiveForm.FormErrors.empty
            (InteractiveForm.TouchedFields.mk false false false false)
            (InteractiveForm.showPassword st) false 0,
          []).
Proof.
  assert (Hin : strength_in_step st)
    by (apply (run_in_step evs (st := InteractiveForm.mounted));
        [reflexivity | exact Hrun]).
  unfold InteractiveForm.dispatch. simpl InteractiveForm.rendered. rewrite Hsub.
  unfold InteractiveForm.effects, InteractiveForm.submitAnother.
  cbn [InteractiveForm.realTimeValidation InteractiveForm.formData
       InteractiveForm.touched InteractiveForm.FormData.password
       InteractiveForm.TouchedFields.name InteractiveForm.TouchedFields.email
       InteractiveForm.TouchedFields.phone InteractiveForm.TouchedFields.password
       InteractiveForm.showPassword InteractiveForm.isSubmitted
       InteractiveForm.passwordStrength].
  destruct (jsstring_eqb _ _) eqn:E; [|reflexivity].
  apply jsstring_eqb_eq in E. unfold strength_in_step in Hin.
  rewrite E in Hin. rewrite Hin. reflexivity.
Qed.

(** After the well-filled form was submitted, the reset gives the first
    state back. *)
Lemma submitAnother_resets_witness :
  exists st,
    InteractiveForm.run
      (fill_and_submit (str "John Doe") (str "a@b.com")
                       (str "+1 (555) 123-4567") (str "Abc12345!"))
      InteractiveForm.mounted = Some st
    /\ InteractiveForm.dispatch InteractiveForm.SubmitAnother st
       = Some (InteractiveForm.mounted, []).
Proof.
  pose (evs := fill_and_submit (str "John Doe") (str "a@b.com")
                               (str "+1 (555) 123-4567") (str "Abc12345!")).
  let r := eval vm_compute in (InteractiveForm.run evs InteractiveForm.mounted) in
  match r with
  | Some ?st1 =>
      assert (Hrun : InteractiveForm.run evs InteractiveForm.mounted = Some st1)
        by (vm_compute; reflexivity);
      exists st1; split;
      [ exact Hrun | exact (@submitAnother_resets evs st1 Hrun eq_refl) ]
  end.
Defined.

(** * Further properties of the wizard *)

Lemma wizard_effects_frame (before after : MultiStepForm.State) :
  MultiStepForm.step (MultiStepForm.effects before after) = MultiStepForm.step after
  /\ MultiStepForm.formData (MultiStepForm.effects before after)
     = MultiStepForm.formData after
  /\ MultiStepForm.errors (MultiStepForm.effects before after)
     = MultiStepForm.errors after
  /\ MultiStepForm.isSubmitted (MultiStepForm.effects before after)
     = MultiStepForm.isSubmitted after
  /\ MultiStepForm.showPassword (MultiStepForm.effects before after)
     = MultiStepForm.showPassword after.
Proof.
  unfold MultiStepForm.effects, MultiStepForm.passwordEffect.
  destruct (jsstring_eqb _ _); [repeat split|].
  destruct (truthy _); repeat split.
Qed.

Lemma validateOTP_truthy (v : jsstring) :
  truthy_opt (MultiStepForm.validateOTP v) = defined (MultiStepForm.validateOTP v).
Proof.
  unfold MultiStepForm.validateOTP.
  destruct (negb (truthy v)); [reflexivity|].
  destruct (negb (List.length v =? 5)); reflexivity.
Qed.

Lemma validatePassword_relaxed_truthy (v : jsstring) :
  truthy_opt (MultiStepForm.validatePassword v)
  = defined (MultiStepForm.validatePassword v).
Proof.
  unfold MultiStepForm.validatePassword.
  destruct (negb (truthy v)); [reflexivity|].
  destruct (List.length v <? 8); [reflexivity|].
  destruct (negb (test MultiStepForm.digitRegex v)); [reflexivity|].
  destruct (negb (test MultiStepForm.symbolRegex v)); reflexivity.
Qed.

Lemma falsy_none (e : option string) :
  truthy_opt e = defined e -> truthy_opt e = false -> e = None.
Proof. destruct e as [[|a m]|]; simpl; congruence. Qed.

Lemma rendered_at (ev : MultiStepForm.Event) (st : MultiStepForm.State) :
  MultiStepForm.rendered ev st = true ->
  match ev with
  | MultiStepForm.Continue => MultiStepForm.isSubmitted st = true
  | MultiStepForm.Back =>
      MultiStepForm.isSubmitted st = false /\ (1 < MultiStepForm.step st)%Z
  | MultiStepForm.ChangeEmail _ | MultiStepForm.EmailSubmit
  | MultiStepForm.SocialLogin _ =>
      MultiStepForm.isSubmitted st = false /\ MultiStepForm.step st = 1%Z
  | MultiStepForm.ChangeOTP _ | MultiStepForm.OTPSubmit
  | MultiStepForm.DifferentEmail =>
      MultiStepForm.isSubmitted st = false /\ MultiStepForm.step st = 2%Z
  | MultiStepForm.ChangePassword _ | MultiStepForm.PasswordSubmit
  | MultiStepForm.ToggleShowPassword =>
      MultiStepForm.isSubmitted st = false /\ MultiStepForm.step st = 3%Z
  end.
Proof.
  destruct ev; simpl; try (intros H; exact H);
    rewrite andb_true_iff, negb_true_iff, ?Z.eqb_eq, ?Z.ltb_lt; tauto.
Qed.

Lemma handle_progress (ev : MultiStepForm.Event) (st : MultiStepForm.State) :
  MultiStepForm.rendered ev st = true ->
  wizard_progress st ->
  wizard_progress (fst (MultiStepForm.handle ev st)).
Proof.
  intros R (Hs & He & Ho & Hsub). apply rendered_at in R.
  destruct st as [stp [em ot pw] errs sp sub ps pr].
  unfold wizard_progress in *.
  cbn [MultiStepForm.step MultiStepForm.formData MultiStepForm.isSubmitted
       MultiStepForm.FormData.email MultiStepForm.FormData.otp
       MultiStepForm.FormData.password] in *.
  destruct ev; cbn [MultiStepForm.handle fst]; cbn in R.
  - destruct R as [-> ->]. cbn. repeat split; intros; try lia; try discriminate; auto.
  - destruct R as [-> ->]. cbn. repeat split; intros; try lia; try discriminate; auto.
  - destruct R as [-> ->]. cbn. repeat split; intros; try lia; try discriminate; auto.
  - destruct R as [-> ->]. unfold MultiStepForm.handleEmailSubmit.
    cbn [MultiStepForm.formData MultiStepForm.FormData.email].
    destruct (truthy_opt (MultiStepForm.validateEmail em)) eqn:T; cbn.
    + repeat split; intros; try lia; try discriminate; auto.
    + apply (falsy_none _ (validateEmail_truthy em)) in T.
      repeat split; intros; try lia; try discriminate; auto.
  - destruct R as [-> ->]. unfold MultiStepForm.handleOTPSubmit.
    cbn [MultiStepForm.formData MultiStepForm.FormData.otp].
    destruct (truthy_opt (MultiStepForm.validateOTP ot)) eqn:T; cbn.
    + repeat split; intros; try lia; try discriminate; auto.
    + apply (falsy_none _ (validateOTP_truthy ot)) in T.
      repeat split; intros; try lia; try discriminate; auto.
      apply He. lia.
  - destruct R as [-> ->]. unfold MultiStepForm.handlePasswordSubmit.
    cbn [MultiStepForm.formData MultiStepForm.FormData.password].
    destruct (truthy_opt (MultiStepForm.validatePassword pw)) eqn:T; cbn.
    + repeat split; intros; try lia; try discriminate; auto.
    + apply (falsy_none _ (validatePassword_relaxed_truthy pw)) in T.
      repeat split; intros; try lia; try discriminate; auto.
  - destruct R as [-> Hgt]. cbn. repeat split; intros; try lia; try discriminate.
    apply He. lia.
  - destruct R as [-> ->]. cbn. repeat split; intros; try lia; try discriminate; auto.
  - destruct R as [-> ->]. cbn. repeat split; intros; try lia; try discriminate; auto.
  - destruct R as [-> ->]. cbn. repeat split; intros; try lia; try discriminate; auto.
  - cbn. repeat split; intros; try lia; try discriminate; auto.
Qed.

Lemma effects_progress (before after : MultiStepForm.State) :
  wizard_progress after -> wizard_progress (MultiStepForm.effects before after).
Proof.
  unfold wizard_progress.
  destruct (wizard_effects_frame before after) as (-> & -> & _ & -> & _).
  auto.
Qed.

Lemma dispatch_progress (ev : MultiStepForm.Event)
      (st st' : MultiStepForm.State) (toasts : list Toast) :
  wizard_progress st ->
  MultiStepForm.dispatch ev st = Some (st', toasts) ->
  wizard_progress st'.
Proof.
  intros Hst. unfold MultiStepForm.dispatch.
  destruct (MultiStepForm.rendered ev st) eqn:R; [|discriminate].
  pose proof (handle_progress ev R Hst) as H.
  destruct (MultiStepForm.handle ev st) as [st1 t1]. cbn [fst] in H.
  intros [= <- _]. now apply effects_progress.
Qed.

Lemma run_progress (evs : list MultiStepForm.Event) :
  forall st st',
    wizard_progress st ->
    MultiStepForm.run evs st = Some st' ->
    wizard_progress st'.
Proof.
  induction evs as [|ev evs IH]; simpl; intros st st' Hst Hrun.
  - now injection Hrun as <-.
  - destruct (MultiStepForm.dispatch ev st) as [[st1 toasts]|] eqn:E;
      [|discriminate].
    apply (IH st1); [|assumption]. apply (dispatch_progress _ Hst E).
Qed.

Lemma mounted_progress : wizard_progress MultiStepForm.mounted.
Proof.
  unfold wizard_progress. cbn. repeat split; intros; try lia; try discriminate; auto.
Qed.

(** X14.  However the wizard is driven, its step is 1, 2 or 3; it is past
    step 1 only with an email that [validateEmail] accepts, at step 3 only
    with a code that [validateOTP] accepts, and on the success screen only
    at step 3 with a password that [validatePassword] accepts. *)
Theorem wizard_steps_are_gated
        (evs : list MultiStepForm.Event) (st : MultiStepForm.State)
        (Hrun : MultiStepForm.run evs MultiStepForm.mounted = Some st) :
  (MultiStepForm.step st = 1 \/ MultiStepForm.step st = 2
   \/ MultiStepForm.step st = 3)%Z
  /\ ((2 <= MultiStepForm.step st)%Z ->
      MultiStepForm.validateEmail
        (MultiStepForm.FormData.email (MultiStepForm.formData st)) = None)
  /\ (MultiStepForm.step st = 3%Z ->
      MultiStepForm.validateOTP
        (MultiStepForm.FormData.otp (MultiStepForm.formData st)) = None)
  /\ (MultiStepForm.isSubmitted st = true ->
      MultiStepForm.step st = 3%Z
      /\ MultiStepForm.validatePassword
           (MultiStepForm.FormData.password (MultiStepForm.formData st)) = None).
Proof. exact (run_progress evs mounted_progress Hrun). Qed.

(** At the password step of the session [typing_abcdefgh] the step is 3
    and the code has five characters. *)
Lemma wizard_steps_are_gated_witness :
  exists st,
    MultiStepForm.run typing_abcdefgh MultiStepForm.mounted = Some st
    /\ MultiStepForm.validateOTP
         (MultiStepForm.FormData.otp (MultiStepForm.formData st)) = None.
Proof.
  let r := eval vm_compute in
             (MultiStepForm.run typing_abcdefgh MultiStepForm.mounted) in
  match r with
  | Some ?st1 =>
      assert (Hrun : MultiStepForm.run typing_abcdefgh MultiStepForm.mounted
                     = Some st1) by (vm_compute; reflexivity);
      exists st1; split;
      [ exact Hrun
      | exact (proj1 (proj2 (proj2 (@wizard_steps_are_gated _ st1 Hrun))) eq_refl) ]
  end.
Defined.

Lemma handle_one_error (ev : MultiStepForm.Event) (st : MultiStepForm.State) :
  at_most_one_error (MultiStepForm.errors st) ->
  at_most_one_error (MultiStepForm.errors (fst (MultiStepForm.handle ev st))).
Proof.
  intros H. unfold at_most_one_error.
  destruct ev; cbn [MultiStepForm.handle fst]; try exact H; try (cbn; auto).
  - unfold MultiStepForm.handleEmailSubmit. destruct (truthy_opt _); cbn; auto.
  - unfold MultiStepForm.handleOTPSubmit. destruct (truthy_opt _); cbn; auto.
  - unfold MultiStepForm.handlePasswordSubmit. destruct (truthy_opt _); cbn; auto.
Qed.

Lemma run_one_error (evs : list MultiStepForm.Event) :
  forall st st',
    at_most_one_error (MultiStepForm.errors st) ->
    MultiStepForm.run evs st = Some st' ->
    at_most_one_error (MultiStepForm.errors st').
Proof.
  induction evs as [|ev evs IH]; simpl; intros st st' Hst Hrun.
  - now injection Hrun as <-.
  - destruct (MultiStepForm.dispatch ev st) as [[st1 toasts]|] eqn:E;
      [|discriminate].
    apply (IH st1); [|assumption].
    unfold MultiStepForm.dispatch in E.
    destruct (MultiStepForm.rendered ev st); [|discriminate].
    pose proof (handle_one_error ev st Hst) as H.
    destruct (MultiStepForm.handle ev st) as [st2 t2]. cbn [fst] in H.
    injection E as <- _.
    destruct (wizard_effects_frame st st2) as (_ & _ & -> & _). exact H.
Qed.

(** X15.  However the wizard is driven, its error map never holds more
    than one message: each rejected step stores its own error alone, and
    every other handler clears the map or leaves it as it is. *)
Theorem wizard_shows_one_error_at_most
        (evs : list MultiStepForm.Event) (st : MultiStepForm.State)
        (Hrun : MultiStepForm.run evs MultiStepForm.mounted = Some st) :
  at_most_one_error (MultiStepForm.errors st).
Proof.
  apply run_one_error with (evs := evs) (st := MultiStepForm.mounted); [|exact Hrun].
  left. split; reflexivity.
Qed.

(** An empty email submitted at step 1 leaves one error behind. *)
Lemma wizard_shows_one_error_at_most_witness :
  exists st,
    MultiStepForm.run [MultiStepForm.EmailSubmit] MultiStepForm.mounted = Some st
    /\ MultiStepForm.FormErrors.email (MultiStepForm.errors st)
       = Some "Email is required"
    /\ at_most_one_error (MultiStepForm.errors st).
Proof.
  let r := eval vm_compute in
             (MultiStepForm.run [MultiStepForm.EmailSubmit] MultiStepForm.mounted) in
  match r with
  | Some ?st1 =>
      assert (Hrun : MultiStepForm.run [MultiStepForm.EmailSubmit]
                                       MultiStepForm.mounted = Some st1)
        by (vm_compute; reflexivity);
      exists st1; split; [exact Hrun | split;
        [reflexivity | exact (@wizard_shows_one_error_at_most _ st1 Hrun)]]
  end.
Defined.

(** ** The code and password steps *)

Lemma dispatch_keeping_password (ev : MultiStepForm.Event) (st : MultiStepForm.State) :
  MultiStepForm.rendered ev st = true ->
  MultiStepForm.FormData.password
    (MultiStepForm.formData (fst (MultiStepForm.handle ev st)))
  = MultiStepForm.FormData.password (MultiStepForm.formData st) ->
  MultiStepForm.dispatch ev st = Some (MultiStepForm.handle ev st).
Proof.
  intros R E. unfold MultiStepForm.dispatch. rewrite R.
  destruct (MultiStepForm.handle ev st) as [st1 t1]. cbn [fst] in E.
  unfold MultiStepForm.effects. rewrite E.
  replace (jsstring_eqb _ _) with true; [reflexivity|].
  symmetry. now apply jsstring_eqb_eq.
Qed.

Lemma rendered_step (st : MultiStepForm.State) (n : Z) :
  MultiStepForm.step st = n -> MultiStepForm.isSubmitted st = false ->
  (negb (MultiStepForm.isSubmitted st) && (MultiStepForm.step st =? n)%Z) = true.
Proof. intros -> ->. now rewrite Z.eqb_refl. Qed.

Lemma validateOTP_valid_iff (v : jsstring) :
  MultiStepForm.validateOTP v = None <-> List.length v = 5.
Proof.
  unfold MultiStepForm.validateOTP. destruct v as [|c v]; [split; discriminate|].
  cbn [truthy negb]. destruct (List.length (c :: v) =? 5) eqn:E; cbn [negb].
  - apply Nat.eqb_eq in E. tauto.
  - apply Nat.eqb_neq in E. split; [discriminate | contradiction].
Qed.

(** X16.  At the code step, [Verify email] with a code that [validateOTP]
    rejects changes nothing but the error map, which then holds the code
    error alone, and raises one destructive toast carrying that message;
    with an accepted code the wizard clears the errors, moves to step 3 and
    raises no toast.  It moves on exactly when the code has five
    characters. *)
Theorem handleOTPSubmit_gate (st : MultiStepForm.State)
        (Hstep : MultiStepForm.step st = 2%Z)
        (Hform : MultiStepForm.isSubmitted st = false) :
  exists st' toasts,
    MultiStepForm.dispatch MultiStepForm.OTPSubmit st = Some (st', toasts)
    /\ (forall e,
          MultiStepForm.validateOTP
            (MultiStepForm.FormData.otp (MultiStepForm.formData st)) = Some e ->
          st' = MultiStepForm.setErrors
                  (MultiStepForm.FormErrors.mk None (Some e) None) st
          /\ toasts = [mkToast (str "Validation Error") (str e) true])
    /\ (MultiStepForm.validateOTP
          (MultiStepForm.FormData.otp (MultiStepForm.formData st)) = None ->
        st' = MultiStepForm.setStep 3
                (MultiStepForm.setErrors MultiStepForm.FormErrors.empty st)
        /\ toasts = [])
    /\ (MultiStepForm.step st' = 3%Z <->
        List.length (MultiStepForm.FormData.otp (MultiStepForm.formData st)) = 5).
Proof.
  assert (Hd : MultiStepForm.dispatch MultiStepForm.OTPSubmit st
               = Some (MultiStepForm.handle MultiStepForm.OTPSubmit st)).
  { apply dispatch_keeping_password; [now apply rendered_step|].
    cbn [MultiStepForm.handle]. unfold MultiStepForm.handleOTPSubmit.
    destruct (truthy_opt _); reflexivity. }
  cbn [MultiStepForm.handle] in Hd. unfold MultiStepForm.handleOTPSubmit in Hd.
  rewrite validateOTP_truthy in Hd.
  pose proof (validateOTP_valid_iff
                (MultiStepForm.FormData.otp (MultiStepForm.formData st))) as Hlen.
  destruct (MultiStepForm.validateOTP _) as [e|]; cbn [defined] in Hd.
  - eexists _, _. split; [exact Hd|].
    cbn [MultiStepForm.step MultiStepForm.setErrors]. rewrite Hstep.
    split; [|split; [|split]].
    + intros e' [= <-]. split; reflexivity.
    + discriminate.
    + discriminate.
    + intros Hl. apply Hlen in Hl. discriminate Hl.
  - eexists _, _. split; [exact Hd|].
    split; [|split; [|split]].
    + discriminate.
    + intros _. split; reflexivity.
    + intros _. now apply Hlen.
    + reflexivity.
Qed.

(** Three characters typed as the code: the wizard stays at step 2. *)
Lemma handleOTPSubmit_gate_witness :
  exists st' toasts,
    MultiStepForm.dispatch MultiStepForm.OTPSubmit
      (MultiStepForm.changeOTP (str "123")
         (MultiStepForm.setStep 2 MultiStepForm.mounted))
    = Some (st', toasts)
    /\ MultiStepForm.step st' <> 3%Z.
Proof.
  destruct (@handleOTPSubmit_gate
              (MultiStepForm.changeOTP (str "123")
                 (MultiStepForm.setStep 2 MultiStepForm.mounted))
              eq_refl eq_refl) as (st' & toasts & Hd & _ & _ & Hiff).
  exists st', toasts. split; [exact Hd|].
  intros H3. apply Hiff in H3. discriminate H3.
Defined.

(** X17.  At the password step, [Continue] with a password that the
    wizard's [validatePassword] rejects changes nothing but the error map,
    which then holds the password error alone, and raises one destructive
    toast carrying that message; the success screen comes up exactly when
    the password is accepted, with the error map cleared. *)
Theorem handlePasswordSubmit_gate (st : MultiStepForm.State)
        (Hstep : MultiStepForm.step st = 3%Z)
        (Hform : MultiStepForm.isSubmitted st = false) :
  exists st' toasts,
    MultiStepForm.dispatch MultiStepForm.PasswordSubmit st = Some (st', toasts)
    /\ (forall e,
          MultiStepForm.validatePassword
            (MultiStepForm.FormData.password (MultiStepForm.formData st)) = Some e ->
          st' = MultiStepForm.setErrors
                  (MultiStepForm.FormErrors.mk None None (Some e)) st
          /\ toasts = [mkToast (str "Validation Error") (str e) true])
    /\ (MultiStepForm.validatePassword
          (MultiStepForm.FormData.password (MultiStepForm.formData st)) = None ->
        st' = MultiStepForm.setIsSubmitted true
                (MultiStepForm.setErrors MultiStepForm.FormErrors.empty st))
    /\ (MultiStepForm.isSubmitted st' = true <->
        MultiStepForm.validatePassword
          (MultiStepForm.FormData.password (MultiStepForm.formData st)) = None).
Proof.
  assert (Hd : MultiStepForm.dispatch MultiStepForm.PasswordSubmit st
               = Some (MultiStepForm.handle MultiStepForm.PasswordSubmit st)).
  { apply dispatch_keeping_password; [now apply rendered_step|].
    cbn [MultiStepForm.handle]. unfold MultiStepForm.handlePasswordSubmit.
    destruct (truthy_opt _); reflexivity. }
  cbn [MultiStepForm.handle] in Hd. unfold MultiStepForm.handlePasswordSubmit in Hd.
  rewrite validatePassword_relaxed_truthy in Hd.
  destruct (MultiStepForm.validatePassword _) as [e|]; cbn [defined] in Hd.
  - eexists _, _. split; [exact Hd|].
    cbn [MultiStepForm.isSubmitted MultiStepForm.setErrors]. rewrite Hform.
    split; [|split; [|split]].
    + intros e' [= <-]. split; reflexivity.
    + discriminate.
    + discriminate.
    + discriminate.
  - eexists _, _. split; [exact Hd|].
    split; [|split; [|split]].
    + discriminate.
    + reflexivity.
    + reflexivity.
    + reflexivity.
Qed.

(** ["abcdefgh"] at the password step: no digit, no success screen. *)
Lemma handlePasswordSubmit_gate_witness :
  exists st' toasts,
    MultiStepForm.dispatch MultiStepForm.PasswordSubmit
      (MultiStepForm.changePassword (str "abcdefgh")
         (MultiStepForm.setStep 3 MultiStepForm.mounted))
    = Some (st', toasts)
    /\ MultiStepForm.errors st'
       = MultiStepForm.FormErrors.mk
           None None (Some "Password must contain a number").
Proof.
  destruct (@handlePasswordSubmit_gate
              (MultiStepForm.changePassword (str "abcdefgh")
                 (MultiStepForm.setStep 3 MultiStepForm.mounted))
              eq_refl eq_refl) as (st' & toasts & Hd & Herr & _).
  exists st', toasts. split; [exact Hd|].
  destruct (Herr "Password must contain a number" eq_refl) as [-> _].
  reflexivity.
Defined.

(** ** A whole sign-up *)

Lemma relaxed_valid_nonempty (p : jsstring) :
  MultiStepForm.validatePassword p = None -> p <> [].
Proof. intros H ->. discriminate H. Qed.

Lemma dispatch_submit_ok (ev : MultiStepForm.Event) (st st' : MultiStepForm.State)
      (toasts : list Toast) :
  MultiStepForm.rendered ev st = true ->
  MultiStepForm.handle ev st = (st', toasts) ->
  MultiStepForm.FormData.password (MultiStepForm.formData st')
  = MultiStepForm.FormData.password (MultiStepForm.formData st) ->
  MultiStepForm.dispatch ev st = Some (st', toasts).
Proof.
  intros R H E. rewrite dispatch_keeping_password; [now rewrite H | exact R |].
  now rewrite H.
Qed.

(** X18.  A valid email, a valid code and a valid password, each typed and
    confirmed in turn on a fresh wizard, end on the success screen with
    exactly the typed values stored, no error, strength 100 and all three
    checklist flags set. *)
Theorem sign_up_succeeds (e o p : jsstring)
        (He : MultiStepForm.validateEmail e = None)
        (Ho : MultiStepForm.validateOTP o = None)
        (Hp : MultiStepForm.validatePassword p = None) :
  exists st,
    MultiStepForm.run (sign_up e o p) MultiStepForm.mounted = Some st
    /\ MultiStepForm.isSubmitted st = true
    /\ MultiStepForm.formData st = MultiStepForm.FormData.mk e o p
    /\ MultiStepForm.errors st = MultiStepForm.FormErrors.empty
    /\ MultiStepForm.passwordStrength st = 100
    /\ MultiStepForm.passwordRequirements st
       = MultiStepForm.Requirements.mk true true true.
Proof.
  pose proof (relaxed_valid_nonempty Hp) as Hne.
  pose proof (proj1 (relaxed_valid_checks p) Hp) as Hreq.
  (* the email step *)
  pose (s1 := MultiStepForm.changeEmail e MultiStepForm.mounted).
  pose (s2 := MultiStepForm.setStep 2
                (MultiStepForm.setErrors MultiStepForm.FormErrors.empty s1)).
  assert (D1 : MultiStepForm.dispatch (MultiStepForm.ChangeEmail e)
                 MultiStepForm.mounted = Some (s1, []))
    by (apply dispatch_submit_ok; reflexivity).
  assert (D2 : exists t, MultiStepForm.dispatch MultiStepForm.EmailSubmit s1
                         = Some (s2, t)).
  { eexists. apply dispatch_submit_ok; [reflexivity | | reflexivity].
    cbn [MultiStepForm.handle]. unfold MultiStepForm.handleEmailSubmit.
    change (MultiStepForm.FormData.email (MultiStepForm.formData s1)) with e.
    rewrite He. reflexivity. }
  (* the code step *)
  pose (s3 := MultiStepForm.changeOTP o s2).
  pose (s4 := MultiStepForm.setStep 3
                (MultiStepForm.setErrors MultiStepForm.FormErrors.empty s3)).
  assert (D3 : MultiStepForm.dispatch (MultiStepForm.ChangeOTP o) s2
               = Some (s3, []))
    by (apply dispatch_submit_ok; reflexivity).
  assert (D4 : exists t, MultiStepForm.dispatch MultiStepForm.OTPSubmit s3
                         = Some (s4, t)).
  { eexists. apply dispatch_submit_ok; [reflexivity | | reflexivity].
    cbn [MultiStepForm.handle]. unfold MultiStepForm.handleOTPSubmit.
    change (MultiStepForm.FormData.otp (MultiStepForm.formData s3)) with o.
    rewrite Ho. reflexivity. }
  (* the password step: the effect runs, the password being new *)
  pose (s5 := MultiStepForm.calculatePasswordStrength p
                (MultiStepForm.changePassword p s4)).
  pose (s6 := MultiStepForm.setIsSubmitted true
                (MultiStepForm.setErrors MultiStepForm.FormErrors.empty s5)).
  assert (D5 : MultiStepForm.dispatch (MultiStepForm.ChangePassword p) s4
               = Some (s5, [])).
  { unfold MultiStepForm.dispatch.
    change (MultiStepForm.rendered (MultiStepForm.ChangePassword p) s4) with true.
    cbn [MultiStepForm.handle]. unfold MultiStepForm.effects.
    change (MultiStepForm.FormData.password (MultiStepForm.formData s4))
      with (@nil char).
    change (MultiStepForm.FormData.password
              (MultiStepForm.formData (MultiStepForm.changePassword p s4)))
      with p.
    destruct p as [|c p']; [congruence | reflexivity]. }
  assert (D6 : exists t, MultiStepForm.dispatch MultiStepForm.PasswordSubmit s5
                         = Some (s6, t)).
  { eexists. apply dispatch_submit_ok; [reflexivity | | reflexivity].
    cbn [MultiStepForm.handle]. unfold MultiStepForm.handlePasswordSubmit.
    change (MultiStepForm.FormData.password (MultiStepForm.formData s5)) with p.
    rewrite Hp. reflexivity. }
  destruct D2 as [t2 D2], D4 as [t4 D4], D6 as [t6 D6].
  exists s6. unfold sign_up. cbn [MultiStepForm.run].
  rewrite D1, D2, D3, D4, D5, D6.
  split; [reflexivity|]. split; [reflexivity|]. split; [reflexivity|].
  split; [reflexivity|].
  change (MultiStepForm.passwordStrength s6)
    with (MultiStepForm.strengthOf (MultiStepForm.requirementsOf p)).
  change (MultiStepForm.passwordRequirements s6)
    with (MultiStepForm.requirementsOf p).
  rewrite Hreq. split; reflexivity.
Qed.

(** The sign-up with ["a@b.com"], ["12345"] and ["abcdefg1!"]. *)
Lemma sign_up_succeeds_witness :
  exists st,
    MultiStepForm.run (sign_up (str "a@b.com") (str "12345") (str "abcdefg1!"))
                      MultiStepForm.mounted = Some st
    /\ MultiStepForm.isSubmitted st = true.
Proof.
  destruct (@sign_up_succeeds (str "a@b.com") (str "12345") (str "abcdefg1!")
              eq_refl eq_refl eq_refl) as (st & Hrun & Hsub & _).
  exists st. split; [exact Hrun | exact Hsub].
Defined.

(** X19.  [Continue], pressed on the wizard's success screen, goes back to
    step 1 with empty fields and no error, but the password effect does
    not run for the emptied field: the wizard keeps the strength 100 and
    the three ticked checklist flags of the password just registered,
    while the strength panel is off screen. *)
Theorem continue_keeps_old_strength
        (evs : list MultiStepForm.Event) (st : MultiStepForm.State)
        (Hrun : MultiStepForm.run evs MultiStepForm.mounted = Some st)
        (Hsub : MultiStepForm.isSubmitted st = true) :
  exists st',
    MultiStepForm.dispatch MultiStepForm.Continue st = Some (st', [])
    /\ MultiStepForm.step st' = 1%Z
    /\ MultiStepForm.formData st' = MultiStepForm.FormData.mk [] [] []
    /\ MultiStepForm.errors st' = MultiStepForm.FormErrors.empty
    /\ MultiStepForm.isSubmitted st' = false
    /\ MultiStepForm.passwordStrength st' = 100
    /\ MultiStepForm.passwordRequirements st'
       = MultiStepForm.Requirements.mk true true true
    /\ MultiStepForm.strengthPanel st' = None.
Proof.
  pose proof (run_progress evs mounted_progress Hrun) as (_ & _ & _ & Hp).
  destruct (Hp Hsub) as [_ Hvalid].
  pose proof (relaxed_valid_nonempty Hvalid) as Hne.
  pose proof (run_nonempty_in_step evs mounted_nonempty_in_step Hrun Hne)
    as [Hs Hr].
  pose proof (proj1 (relaxed_valid_checks _) Hvalid) as Hreq.
  rewrite Hreq in Hs, Hr.
  exists (MultiStepForm.continueAfterSuccess st).
  split; [|cbn; rewrite Hs, Hr; repeat split].
  unfold MultiStepForm.dispatch. simpl MultiStepForm.rendered. rewrite Hsub.
  cbn [MultiStepForm.handle]. unfold MultiStepForm.effects.
  change (MultiStepForm.FormData.password
            (MultiStepForm.formData (MultiStepForm.continueAfterSuccess st)))
    with (@nil char).
  destruct (MultiStepForm.FormData.password (MultiStepForm.formData st));
    [congruence | reflexivity].
Qed.

(** After the sign-up with ["abcdefg1!"], [Continue] leaves the strength
    at 100. *)
Lemma continue_keeps_old_strength_witness :
  exists st st',
    MultiStepForm.run (sign_up (str "a@b.com") (str "12345") (str "abcdefg1!"))
                      MultiStepForm.mounted = Some st
    /\ MultiStepForm.dispatch MultiStepForm.Continue st = Some (st', [])
    /\ MultiStepForm.passwordStrength st' = 100.
Proof.
  pose (evs := sign_up (str "a@b.com") (str "12345") (str "abcdefg1!")).
  let r := eval vm_compute in (MultiStepForm.run evs MultiStepForm.mounted) in
  match r with
  | Some ?st1 =>
      assert (Hrun : MultiStepForm.run evs MultiStepForm.mounted = Some st1)
        by (vm_compute; reflexivity);
      destruct (@continue_keeps_old_strength evs st1 Hrun eq_refl)
        as (st' & Hd & _ & _ & _ & _ & Hs & _);
      exists st1, st'; split; [exact Hrun | split; [exact Hd | exact Hs]]
  end.
Defined.

(** * Touched flags, labels and stale errors *)

(** X20.  In the single-page form a field, once touched, stays touched
    through every event but the reset; leaving a field touches it, and
    submit touches all four. *)
Theorem touched_stays_touched (ev : InteractiveForm.Event)
        (st st' : InteractiveForm.State) (toasts : list Toast)
        (Hd : InteractiveForm.dispatch ev st = Some (st', toasts))
        (Hev : ev <> InteractiveForm.SubmitAnother) :
  (forall f, touchedOf f st = true -> touchedOf f st' = true)
  /\ (forall f, ev = InteractiveForm.Blur f -> touchedOf f st' = true)
  /\ (ev = InteractiveForm.Submit -> forall f, touchedOf f st' = true).
Proof.
  unfold InteractiveForm.dispatch in Hd.
  destruct (InteractiveForm.rendered ev st); [|discriminate].
  assert (Ht : forall nb a f,
             touchedOf f (InteractiveForm.effects nb st a) = touchedOf f a).
  { intros nb a f. unfold touchedOf.
    destruct (effects_frame nb st a) as (_ & -> & _). reflexivity. }
  destruct ev; try (now contradiction Hev).
  - injection Hd as <- _. repeat split; try discriminate.
    intros f. rewrite Ht. now destruct f.
  - injection Hd as <- _. repeat split; try discriminate.
    + intros f. rewrite Ht. destruct f, field; cbn; auto.
    + intros f [= <-]. rewrite Ht. now destruct field.
  - pose proof (handleSubmit_state st) as Hs.
    destruct (InteractiveForm.handleSubmit st) as [s1 t1]. cbn [fst] in Hs.
    injection Hd as <- _. subst s1. repeat split; try discriminate.
    + intros f _. rewrite Ht. now destruct f.
    + intros _ f. rewrite Ht. now destruct f.
  - injection Hd as <- _. repeat split; try discriminate.
    intros f. rewrite Ht. now destruct f.
Qed.

(** The email field left, then the name typed: the email stays touched. *)
Lemma touched_stays_touched_witness :
  exists st st',
    InteractiveForm.dispatch (InteractiveForm.Blur InteractiveForm.email)
                             InteractiveForm.mounted = Some (st, [])
    /\ InteractiveForm.dispatch
         (InteractiveForm.Change InteractiveForm.name (str "Jo")) st
       = Some (st', [])
    /\ touchedOf InteractiveForm.email st' = true.
Proof.
  let r := eval vm_compute in
             (InteractiveForm.dispatch (InteractiveForm.Blur InteractiveForm.email)
                                       InteractiveForm.mounted) in
  match r with
  | Some (?s1, _) =>
      let r' := eval vm_compute in
                  (InteractiveForm.dispatch
                     (InteractiveForm.Change InteractiveForm.name (str "Jo")) s1) in
      match r' with
      | Some (?s2, _) =>
          assert (Hd : InteractiveForm.dispatch
                         (InteractiveForm.Change InteractiveForm.name (str "Jo")) s1
                       = Some (s2, [])) by (vm_compute; reflexivity);
          exists s1, s2; split; [vm_compute; reflexivity | split; [exact Hd|]];
          refine (proj1 (@touched_stays_touched _ s1 s2 [] Hd _)
                        InteractiveForm.email eq_refl);
          discriminate
      end
  end.
Defined.

(** X21.  Whatever the user has done, the label and the colour of the
    single-page strength bar name the same band, and it is the band of the
    strict score of the password currently in the field (Weak below 40,
    Medium below 70, Strong from 70). *)
Theorem strength_label_matches_color
        (evs : list InteractiveForm.Event) (st : InteractiveForm.State)
        (Hrun : InteractiveForm.run evs InteractiveForm.mounted = Some st) :
  Spec.bandOfColor (InteractiveForm.getPasswordStrengthColor st)
  = Some (Spec.band 70
            (InteractiveForm.calculatePasswordStrength
               (InteractiveForm.FormData.password (InteractiveForm.formData st))))
  /\ Spec.bandOfLabel (InteractiveForm.getPasswordStrengthLabel st)
     = Spec.bandOfColor (InteractiveForm.getPasswordStrengthColor st).
Proof.
  assert (H : strength_in_step st)
    by (apply (run_in_step evs (st := InteractiveForm.mounted));
        [reflexivity | exact Hrun]).
  destruct (strict_color_and_label st) as [Hc Hl].
  unfold strength_in_step in H. rewrite <- H. split; congruence.
Qed.

(** ["Abcdefghijkl"] typed: twelve letters score 80, shown as Strong
    although the validator still wants a digit. *)
Lemma strength_label_matches_color_witness :
  exists st,
    InteractiveForm.run
      [InteractiveForm.Change InteractiveForm.password (str "Abcdefghijkl")]
      InteractiveForm.mounted = Some st
    /\ Spec.bandOfColor (InteractiveForm.getPasswordStrengthColor st)
       = Some Spec.Strong
    /\ Spec.verdict
         (InteractiveForm.validatePassword
            (InteractiveForm.FormData.password (InteractiveForm.formData st)))
       = Spec.Fails Spec.MissingDigit.
Proof.
  pose (evs := [InteractiveForm.Change InteractiveForm.password
                  (str "Abcdefghijkl")]).
  let r := eval vm_compute in (InteractiveForm.run evs InteractiveForm.mounted) in
  match r with
  | Some ?st1 =>
      assert (Hrun : InteractiveForm.run evs InteractiveForm.mounted = Some st1)
        by (vm_compute; reflexivity);
      exists st1; split; [exact Hrun | split; [|reflexivity]];
      etransitivity;
        [exact (proj1 (@strength_label_matches_color evs st1 Hrun)) | reflexivity]
  end.
Defined.

(** X22.  Typing into a field of the wizard changes neither the step nor
    the error map and raises no toast: unlike the single-page form, the
    wizard revalidates on its buttons only, so an error stays on screen
    while the value is being corrected. *)
Theorem wizard_edit_keeps_errors (ev : MultiStepForm.Event)
        (st st' : MultiStepForm.State) (toasts : list Toast)
        (Hev : isEdit ev = true)
        (Hd : MultiStepForm.dispatch ev st = Some (st', toasts)) :
  MultiStepForm.errors st' = MultiStepForm.errors st
  /\ MultiStepForm.step st' = MultiStepForm.step st
  /\ MultiStepForm.isSubmitted st' = MultiStepForm.isSubmitted st
  /\ toasts = [].
Proof.
  unfold MultiStepForm.dispatch in Hd.
  destruct (MultiStepForm.rendered ev st); [|discriminate].
  destruct ev; try discriminate Hev; cbn [MultiStepForm.handle] in Hd;
    injection Hd as <- <-;
    match goal with
    | |- context [MultiStepForm.effects ?b ?a] =>
        destruct (wizard_effects_frame b a) as (-> & _ & -> & -> & _)
    end; repeat split.
Qed.

(** The empty email is rejected, then a good one is typed: the error is
    still there. *)
Lemma wizard_edit_keeps_errors_witness :
  exists st st',
    MultiStepForm.dispatch MultiStepForm.EmailSubmit MultiStepForm.mounted
    = Some (st, [mkToast (str "Validation Error") (str "Email is required") true])
    /\ MultiStepForm.dispatch (MultiStepForm.ChangeEmail (str "a@b.com")) st
       = Some (st', [])
    /\ MultiStepForm.validateEmail
         (MultiStepForm.FormData.email (MultiStepForm.formData st')) = None
    /\ MultiStepForm.FormErrors.email (MultiStepForm.errors st')
       = Some "Email is required".
Proof.
  let r := eval vm_compute in
             (MultiStepForm.dispatch MultiStepForm.EmailSubmit
                                     MultiStepForm.mounted) in
  match r with
  | Some (?s1, _) =>
      let r' := eval vm_compute in
                  (MultiStepForm.dispatch
                     (MultiStepForm.ChangeEmail (str "a@b.com")) s1) in
      match r' with
      | Some (?s2, _) =>
          assert (Hd : MultiStepForm.dispatch
                         (MultiStepForm.ChangeEmail (str "a@b.com")) s1
                       = Some (s2, [])) by (vm_compute; reflexivity);
          exists s1, s2; split; [vm_compute; reflexivity | split; [exact Hd|]];
          split; [vm_compute; reflexivity|];
          rewrite (proj1 (@wizard_edit_keeps_errors
                            (MultiStepForm.ChangeEmail (str "a@b.com"))
                            s1 s2 [] eq_refl Hd));
          reflexivity
      end
  end.
Defined.
